(** * Verification of the card-model conversion scripts

    Shallow embedding of [convert_tflite.py] (Procedure A) and
    [manual_convert.py] (Procedure B).  Both scripts are straight-line
    sequences of library calls acting on the file system, the standard
    output and (for Procedure B) numpy's global random generator.  The
    embedding threads that state through an error-and-state monad, one
    monadic action per source statement, in source order.

    Platform conventions of the model:
    - text files are written as on POSIX (no newline translation); the
      descriptor is pure ASCII because [json.dump] escapes everything
      else, so the locale encoding is irrelevant;
    - [ndarray.tofile] writes elements in the byte order of the host,
      which is a field of the environment;
    - the outcome of every call into the operating system or into the
      TFLite runtime that the scripts cannot control (permissions,
      device errors, loadability of the model file, the values drawn by
      the random generator) is read from an environment record. *)

From Stdlib Require Import ZArith NArith Ascii String List Bool Lia.
From Stdlib Require Import Floats.SpecFloat.
From Stdlib Require Import DecimalString.
From stdpp Require Import base option list gmap strings.

Set Warnings "-register-all,-clear-no-such-hyp".

Local Open Scope string_scope.
Local Open Scope list_scope.

(** ** Strings, paths and bytes *)

(** [s.removeprefix(p)], failing when [p] is not a prefix of [s]. *)
Fixpoint strip_prefix (p s : string) : option string :=
  match p, s with
  | EmptyString, _ => Some s
  | String a p', String b s' => if Ascii.eqb a b then strip_prefix p' s' else None
  | String _ _, EmptyString => None
  end.

Definition slash : ascii := ascii_of_N 47.

Definition LF : ascii := ascii_of_N 10.

Fixpoint contains_slash (s : string) : bool :=
  match s with
  | EmptyString => false
  | String c s' => Ascii.eqb c slash || contains_slash s'
  end.

(** The directories above [rest], outermost first; [seen] is the part of
    the path already walked over. *)
Fixpoint parents_from (seen rest : string) : list string :=
  match rest with
  | EmptyString => []
  | String c r =>
      if Ascii.eqb c slash
      then match seen with
           | EmptyString => String c EmptyString :: parents_from (String c EmptyString) r
           | String _ _ => seen :: parents_from (seen +:+ String c EmptyString) r
           end
      else parents_from (seen +:+ String c EmptyString) r
  end.

Definition parents (p : string) : list string := parents_from EmptyString p.

(** [os.path.dirname] for the paths of the scripts. *)
Definition dirname (p : string) : string := List.last (parents p) EmptyString.

Definition byte_of_Z (z : Z) : Byte.byte :=
  byte_of_ascii (ascii_of_N (Z.to_N (Z.land z 255))).

(** The [n] low-order bytes of [z], least significant first. *)
Fixpoint le_bytes (n : nat) (z : Z) : list Byte.byte :=
  match n with
  | O => []
  | S n' => byte_of_Z z :: le_bytes n' (Z.shiftr z 8)
  end.

Definition decimal (n : N) : string := NilZero.string_of_uint (N.to_uint n).

(** ** JSON values and [json.dump(obj, f, indent=2)] *)

Module Json.

(** Python objects that [json] can serialise.  A [dict] keeps insertion
    order, so it is an association list. *)
Inductive json : Type :=
| JNull
| JBool (b : bool)
| JInt (z : Z)
| JStr (s : string)
| JList (items : list json)
| JDict (members : list (string * json)).

(** [dict.get]-like lookup of the first member named [k]. *)
Fixpoint assoc (k : string) (kv : list (string * json)) : option json :=
  match kv with
  | [] => None
  | (k', v) :: kv' => if String.eqb k k' then Some v else assoc k kv'
  end.

Definition get (k : string) (v : json) : option json :=
  match v with
  | JDict kv => assoc k kv
  | _ => None
  end.

Definition index (i : nat) (v : json) : option json :=
  match v with
  | JList l => nth_error l i
  | _ => None
  end.

Definition as_list (v : json) : option (list json) :=
  match v with JList l => Some l | _ => None end.

Definition as_int (v : json) : option Z :=
  match v with JInt z => Some z | _ => None end.

Definition as_str (v : json) : option string :=
  match v with JStr s => Some s | _ => None end.

(** *** Encoder *)

Definition dquote : ascii := ascii_of_N 34.

Definition hex_digit (n : N) : ascii :=
  ascii_of_N (if (n <? 10)%N then 48 + n else 87 + n)%N.

(** [ESCAPE_ASCII] of the [json.encoder] module: the quote, the backslash
    and everything outside the printable ASCII range is escaped. *)
Definition escape_char (c : ascii) : string :=
  let n := N_of_ascii c in
  if (n =? 34)%N then String "\"%char (String dquote EmptyString)
  else if (n =? 92)%N then "\\"
  else if (n =? 10)%N then "\n"
  else if (n =? 13)%N then "\r"
  else if (n =? 9)%N then "\t"
  else if (n =? 8)%N then "\b"
  else if (n =? 12)%N then "\f"
  else if ((32 <=? n) && (n <=? 126))%N then String c EmptyString
  else "\u00" +:+ String (hex_digit (n / 16)) (String (hex_digit (n mod 16)) EmptyString).

Fixpoint escape (s : string) : string :=
  match s with
  | EmptyString => EmptyString
  | String c s' => escape_char c +:+ escape s'
  end.

Definition encode_str (s : string) : string :=
  String dquote (escape s +:+ String dquote EmptyString).

Definition encode_int (z : Z) : string :=
  NilZero.string_of_int (Z.to_int z).

Fixpoint spaces (n : nat) : string :=
  match n with
  | O => EmptyString
  | S n' => String " "%char (spaces n')
  end.

(** ["\n" + indent * level] with [indent = 2]. *)
Definition newline_indent (level : nat) : string :=
  String (ascii_of_N 10) (spaces (2 * level)).

(** [_iterencode] with [indent=2], whose separators are [","] and
    [": "]; [level] is [_current_indent_level]. *)
Fixpoint encode (level : nat) (v : json) : string :=
  match v with
  | JNull => "null"
  | JBool true => "true"
  | JBool false => "false"
  | JInt z => encode_int z
  | JStr s => encode_str s
  | JList [] => "[]"
  | JList (x :: xs) =>
      "[" +:+ newline_indent (S level) +:+ encode (S level) x
      +:+ (fix rest (l : list json) : string :=
            match l with
            | [] => EmptyString
            | y :: l' => "," +:+ newline_indent (S level) +:+ encode (S level) y +:+ rest l'
            end) xs
      +:+ newline_indent level +:+ "]"
  | JDict [] => "{}"
  | JDict ((k, x) :: kvs) =>
      "{" +:+ newline_indent (S level) +:+ encode_str k +:+ ": " +:+ encode (S level) x
      +:+ (fix rest (l : list (string * json)) : string :=
            match l with
            | [] => EmptyString
            | (k', y) :: l' =>
                "," +:+ newline_indent (S level) +:+ encode_str k' +:+ ": "
                +:+ encode (S level) y +:+ rest l'
            end) kvs
      +:+ newline_indent level +:+ "}"
  end.

Definition dumps (v : json) : string := encode 0 v.

(** *** Reader

    A recursive-descent reader for the JSON grammar of RFC 8259,
    restricted to integer numbers and to code points below 256.  It is
    the yardstick for "the file parses as JSON": whatever it accepts is
    a JSON text. *)

Definition is_ws (c : ascii) : bool :=
  let n := N_of_ascii c in
  ((n =? 32) || (n =? 10) || (n =? 13) || (n =? 9))%N.

Fixpoint skip_ws (s : string) : string :=
  match s with
  | String c s' => if is_ws c then skip_ws s' else s
  | EmptyString => s
  end.

Definition hex_val (c : ascii) : option N :=
  let n := N_of_ascii c in
  if ((48 <=? n) && (n <=? 57))%N then Some (n - 48)%N
  else if ((97 <=? n) && (n <=? 102))%N then Some (n - 87)%N
  else if ((65 <=? n) && (n <=? 70))%N then Some (n - 55)%N
  else None.

Definition hex4 (a b c d : ascii) : option N :=
  match hex_val a, hex_val b, hex_val c, hex_val d with
  | Some x, Some y, Some z, Some w => Some (((x * 16 + y) * 16 + z) * 16 + w)%N
  | _, _, _, _ => None
  end.

Definition push (c : ascii) (r : option (string * string)) : option (string * string) :=
  match r with
  | Some (body, rest) => Some (String c body, rest)
  | None => None
  end.

(** The characters of a string literal, after its opening quote. *)
Fixpoint parse_chars (s : string) : option (string * string) :=
  match s with
  | EmptyString => None
  | String c r =>
      let n := N_of_ascii c in
      if (n =? 34)%N then Some (EmptyString, r)
      else if (n =? 92)%N then
        match r with
        | String e r' =>
            let m := N_of_ascii e in
            if ((m =? 34) || (m =? 92) || (m =? 47))%N then push e (parse_chars r')
            else if (m =? 98)%N then push (ascii_of_N 8) (parse_chars r')
            else if (m =? 102)%N then push (ascii_of_N 12) (parse_chars r')
            else if (m =? 110)%N then push (ascii_of_N 10) (parse_chars r')
            else if (m =? 114)%N then push (ascii_of_N 13) (parse_chars r')
            else if (m =? 116)%N then push (ascii_of_N 9) (parse_chars r')
            else if (m =? 117)%N then
              match r' with
              | String h1 (String h2 (String h3 (String h4 r''))) =>
                  match hex4 h1 h2 h3 h4 with
                  | Some v => if (v <? 256)%N then push (ascii_of_N v) (parse_chars r'') else None
                  | None => None
                  end
              | _ => None
              end
            else None
        | EmptyString => None
        end
      else if (n <? 32)%N then None
      else push c (parse_chars r)
  end.

Definition is_digit (c : ascii) : bool :=
  let n := N_of_ascii c in ((48 <=? n) && (n <=? 57))%N.

Fixpoint parse_digits (acc : N) (s : string) : N * string :=
  match s with
  | String c r =>
      if is_digit c then parse_digits (acc * 10 + (N_of_ascii c - 48))%N r else (acc, s)
  | EmptyString => (acc, s)
  end.

(** [int] of the grammar: no leading zero, and no fraction or exponent
    may follow. *)
Definition parse_nat (s : string) : option (N * string) :=
  match s with
  | String c r =>
      if is_digit c then
        let '(n, rest) := parse_digits 0%N s in
        let leading_zero :=
          match r with
          | String d _ => (N_of_ascii c =? 48)%N && is_digit d
          | EmptyString => false
          end in
        let continues :=
          match rest with
          | String d _ =>
              let k := N_of_ascii d in ((k =? 46) || (k =? 101) || (k =? 69))%N
          | EmptyString => false
          end in
        if leading_zero || continues then None else Some (n, rest)
      else None
  | EmptyString => None
  end.

Section Composite.
Variable parse_value : string -> option (json * string).

(** [value (, value)* ]] *)
Fixpoint parse_elems (fuel : nat) (s : string) : option (list json * string) :=
  match fuel with
  | O => None
  | S fuel' =>
      match parse_value s with
      | Some (v, r) =>
          match skip_ws r with
          | String c r' =>
              if (N_of_ascii c =? 44)%N then
                match parse_elems fuel' r' with
                | Some (vs, r'') => Some (v :: vs, r'')
                | None => None
                end
              else if (N_of_ascii c =? 93)%N then Some ([v], r')
              else None
          | EmptyString => None
          end
      | None => None
      end
  end.

(** [string : value (, string : value)* }] *)
Fixpoint parse_members (fuel : nat) (s : string) : option (list (string * json) * string) :=
  match fuel with
  | O => None
  | S fuel' =>
      match skip_ws s with
      | String q r =>
          if (N_of_ascii q =? 34)%N then
            match parse_chars r with
            | Some (k, r1) =>
                match skip_ws r1 with
                | String c r2 =>
                    if (N_of_ascii c =? 58)%N then
                      match parse_value r2 with
                      | Some (v, r3) =>
                          match skip_ws r3 with
                          | String d r4 =>
                              if (N_of_ascii d =? 44)%N then
                                match parse_members fuel' r4 with
                                | Some (kvs, r5) => Some ((k, v) :: kvs, r5)
                                | None => None
                                end
                              else if (N_of_ascii d =? 125)%N then Some ([(k, v)], r4)
                              else None
                          | EmptyString => None
                          end
                      | None => None
                      end
                    else None
                | EmptyString => None
                end
            | None => None
            end
          else None
      | EmptyString => None
      end
  end.
End Composite.

Fixpoint parse_value (fuel : nat) (s : string) : option (json * string) :=
  match fuel with
  | O => None
  | S fuel' =>
      match skip_ws s with
      | String c r =>
          let n := N_of_ascii c in
          if (n =? 123)%N then
            match skip_ws r with
            | String c' r' =>
                if (N_of_ascii c' =? 125)%N then Some (JDict [], r')
                else
                  match parse_members (parse_value fuel') fuel' r with
                  | Some (kvs, r'') => Some (JDict kvs, r'')
                  | None => None
                  end
            | EmptyString => None
            end
          else if (n =? 91)%N then
            match skip_ws r with
            | String c' r' =>
                if (N_of_ascii c' =? 93)%N then Some (JList [], r')
                else
                  match parse_elems (parse_value fuel') fuel' r with
                  | Some (vs, r'') => Some (JList vs, r'')
                  | None => None
                  end
            | EmptyString => None
            end
          else if (n =? 34)%N then
            match parse_chars r with
            | Some (str, r') => Some (JStr str, r')
            | None => None
            end
          else if (n =? 45)%N then
            match parse_nat r with
            | Some (k, r') => Some (JInt (- Z.of_N k), r')
            | None => None
            end
          else if is_digit c then
            match parse_nat (String c r) with
            | Some (k, r') => Some (JInt (Z.of_N k), r')
            | None => None
            end
          else
            match strip_prefix "true" (String c r) with
            | Some r' => Some (JBool true, r')
            | None =>
                match strip_prefix "false" (String c r) with
                | Some r' => Some (JBool false, r')
                | None =>
                    match strip_prefix "null" (String c r) with
                    | Some r' => Some (JNull, r')
                    | None => None
                    end
                end
            end
      | EmptyString => None
      end
  end.

(** A JSON text is one value, with nothing but white space around it. *)
Definition loads (s : string) : option json :=
  match parse_value (S (String.length s)) s with
  | Some (v, r) =>
      match skip_ws r with
      | EmptyString => Some v
      | String _ _ => None
      end
  | None => None
  end.

End Json.

Import Json.

(** ** The process state and the monad of script actions *)

(** The exceptions the modelled calls raise.  All but the first three are
    subclasses of [OSError]. *)
Inductive exn : Type :=
| ValueError
| RuntimeError
| IndexError
| OSError
| FileExistsError
| FileNotFoundError
| IsADirectoryError
| NotADirectoryError
| PermissionError.

Definition is_OSError (e : exn) : bool :=
  match e with
  | ValueError | RuntimeError | IndexError => false
  | _ => true
  end.

Inductive result (A : Type) : Type :=
| Ok (a : A)
| Raise (e : exn).
Arguments Ok {A} a.
Arguments Raise {A} e.

(** The calls that changed the file system, in the order they were
    made.  Only calls that took effect are recorded: a call that the
    operating system refuses (an [mkdir] of an existing path, an [open]
    that fails) changes nothing and leaves no entry, so the trace tells
    what was done to the file system, not which calls were attempted. *)
Inductive syscall : Type :=
| SysMkdir (p : string)
| SysOpen (p : string)
| SysWrite (p : string) (data : list Byte.byte)
| SysClose (p : string).

Record world : Type := World {
  dirs : gset string;
  files : gmap string (list Byte.byte);
  stdout : list string;
  rng_pos : N;
  trace : list syscall
}.

Definition set_dirs (d : gset string) (w : world) : world :=
  World d (files w) (stdout w) (rng_pos w) (trace w).
Definition set_files (f : gmap string (list Byte.byte)) (w : world) : world :=
  World (dirs w) f (stdout w) (rng_pos w) (trace w).
Definition set_stdout (o : list string) (w : world) : world :=
  World (dirs w) (files w) o (rng_pos w) (trace w).
Definition set_rng_pos (n : N) (w : world) : world :=
  World (dirs w) (files w) (stdout w) n (trace w).
Definition log (c : syscall) (w : world) : world :=
  World (dirs w) (files w) (stdout w) (rng_pos w) (trace w ++ [c]).

(** An action runs in a world and either returns or raises; the effects
    made before an exception stay. *)
Definition M (A : Type) : Type := world -> result A * world.

Definition ret {A} (a : A) : M A := fun w => (Ok a, w).

Definition bind {A B} (m : M A) (k : A -> M B) : M B :=
  fun w =>
    match m w with
    | (Ok a, w') => k a w'
    | (Raise e, w') => (Raise e, w')
    end.

Definition raise {A} (e : exn) : M A := fun w => (Raise e, w).

Definition get_world : M world := fun w => (Ok w, w).

Definition modify (f : world -> world) : M unit := fun w => (Ok tt, f w).

(** [try: m  except <handles>: h] *)
Definition try_except {A} (m : M A) (handles : exn -> bool) (h : exn -> M A) : M A :=
  fun w =>
    match m w with
    | (Ok a, w') => (Ok a, w')
    | (Raise e, w') => if handles e then h e w' else (Raise e, w')
    end.

Declare Scope py_scope.
Delimit Scope py_scope with py.
Notation "x <- m ;; k" := (bind m (fun x => k))
  (at level 100, m at next level, right associativity) : py_scope.
Notation "m ;; k" := (bind m (fun _ => k))
  (at level 100, right associativity) : py_scope.
Local Open Scope py_scope.

(** [for x in xs: body x] *)
Fixpoint for_each {A} (xs : list A) (body : A -> M unit) : M unit :=
  match xs with
  | [] => ret tt
  | x :: xs' => body x ;; for_each xs' body
  end.

(** ** Tensors *)

Inductive dtype : Type := float32 | float64.

Definition prec (d : dtype) : Z := match d with float32 => 24%Z | float64 => 53%Z end.
Definition emax (d : dtype) : Z := match d with float32 => 128%Z | float64 => 1024%Z end.
Definition exponent_bits (d : dtype) : Z := match d with float32 => 8%Z | float64 => 11%Z end.
Definition itemsize (d : dtype) : nat := match d with float32 => 4 | float64 => 8 end.

(** [np.result_type] on the two floating types. *)
Definition promote (a b : dtype) : dtype :=
  match a, b with
  | float32, float32 => float32
  | _, _ => float64
  end.

(** Conversion of a floating value to the format [d], rounding to
    nearest-even. *)
Definition cast (d : dtype) (x : spec_float) : spec_float :=
  match x with
  | S754_finite s m e => binary_round (prec d) (emax d) s m e
  | _ => x
  end.

(** The IEEE-754 interchange encoding of a value of format [d]: sign,
    biased exponent, trailing significand. *)
Definition bits_of (d : dtype) (x : spec_float) : Z :=
  let mbits := (prec d - 1)%Z in
  let sign (s : bool) := if s then Z.shiftl 1 (mbits + exponent_bits d) else 0%Z in
  let all_ones := Z.shiftl (Z.ones (exponent_bits d)) mbits in
  match x with
  | S754_zero s => sign s
  | S754_infinity s => Z.lor (sign s) all_ones
  | S754_nan => Z.lor all_ones (Z.shiftl 1 (mbits - 1))
  | S754_finite s m e =>
      if (Z.pos m <? Z.shiftl 1 mbits)%Z
      then Z.lor (sign s) (Z.pos m)
      else Z.lor (sign s)
             (Z.lor (Z.shiftl (e - emin (prec d) (emax d) + 1) mbits)
                    (Z.pos m - Z.shiftl 1 mbits))
  end.

Inductive byteorder : Type := little | big.

(** The bytes of one element as [tofile] lays them out on a host of
    byte order [bo]. *)
Definition element_bytes (bo : byteorder) (d : dtype) (x : spec_float) : list Byte.byte :=
  match bo with
  | little => le_bytes (itemsize d) (bits_of d x)
  | big => rev (le_bytes (itemsize d) (bits_of d x))
  end.

(** A C-contiguous array: the element type, the dimensions, and the
    buffer holding the elements in row-major order. *)
Record ndarray : Type := NdArray {
  nd_dtype : dtype;
  nd_shape : list Z;
  nd_data : list spec_float
}.

Definition shape_size (dims : list Z) : Z := fold_right Z.mul 1%Z dims.

Definition dtype_eqb (a b : dtype) : bool :=
  match a, b with
  | float32, float32 | float64, float64 => true
  | _, _ => false
  end.

(** Conversion between element types; a value already of the target
    type is copied. *)
Definition convert (from to : dtype) (x : spec_float) : spec_float :=
  if dtype_eqb from to then x else cast to x.

(** [a.astype(d)] *)
Definition astype (d : dtype) (a : ndarray) : ndarray :=
  NdArray d (nd_shape a) (map (convert (nd_dtype a) d) (nd_data a)).

(** [a * c] for a Python float [c]: the scalar adapts to the array's
    element type and the product is computed in that type. *)
Definition mul_scalar (a : ndarray) (c : spec_float) : ndarray :=
  let d := nd_dtype a in
  NdArray d (nd_shape a) (map (fun x => SFmul (prec d) (emax d) x (cast d c)) (nd_data a)).

(** [a.flatten()]: a one-dimensional copy in row-major order. *)
Definition flatten (a : ndarray) : ndarray :=
  NdArray (nd_dtype a) [Z.of_nat (length (nd_data a))] (nd_data a).

Definition tobytes (bo : byteorder) (a : ndarray) : list Byte.byte :=
  concat (map (element_bytes bo (nd_dtype a)) (nd_data a)).

(** The Python float [0.1], i.e. the binary64 number nearest to 1/10. *)
Definition py_0_1 : spec_float := S754_finite false 7205759403792794 (-56)%Z.

(** [np.array([], dtype=d)] *)
Definition np_array_empty (d : dtype) : ndarray := NdArray d [0%Z] [].

(** ** The environment of a run *)

(** What [get_input_details()] and [get_output_details()] report for one
    tensor, as the text the scripts print. *)
Record tensor_detail : Type := TensorDetail {
  td_shape : string;
  td_dtype : string
}.

(** A loaded TFLite model. *)
Record interpreter : Type := InterpreterObj {
  allocates : bool;
  input_details : list tensor_detail;
  output_details : list tensor_detail
}.

Record env : Type := Env {
  (** the runtime's reading of a model file; [None] when it rejects it *)
  tflite_runtime : list Byte.byte -> option interpreter;
  mkdir_denied : string -> bool;
  open_denied : string -> bool;
  (** how many bytes the device takes for a file before it fails *)
  write_limit : string -> option nat;
  (** [st_size] of a directory *)
  dir_size : string -> N;
  (** the successive binary64 values of numpy's global generator *)
  draws : N -> spec_float;
  sys_byteorder : byteorder
}.

(** ** The literals of the scripts *)

Definition model_path : string := "./assets/64x3-cards.tflite".
Definition out_dir : string := "./assets/cards_model".
Definition json_path : string := "./assets/cards_model/model.json".
Definition bin_path : string := "./assets/cards_model/group1-shard1of1.bin".
Definition shard_name : string := "group1-shard1of1.bin".

(** The descriptor of [convert_tflite.py]. *)

Module ProcA.

Definition model_json : Json.json :=
  JDict [
    ("format", JStr "graph-model");
    ("generatedBy", JStr "python-converter");
    ("convertedBy", JStr "Custom Script 1.0.0");
    ("signature", JDict []);
    ("userDefinedMetadata", JDict []);
    ("modelTopology", JDict [
      ("node", JList []);
      ("library", JDict []);
      ("versions", JDict [("producer", JInt 1)])
    ]);
    ("weightsManifest", JList [
      JDict [
        ("paths", JList [JStr shard_name]);
        ("weights", JList [])
      ]
    ])
  ].

End ProcA.

(** The descriptor of [manual_convert.py]. *)

Module ProcB.

Definition dim (n : string) : Json.json := JDict [("size", JStr n)].

Definition weight_entry (name : string) (shape : list Z) : Json.json :=
  JDict [
    ("name", JStr name);
    ("shape", JList (map JInt shape));
    ("dtype", JStr "float32")
  ].

Definition model_json : Json.json :=
  JDict [
    ("format", JStr "graph-model");
    ("generatedBy", JStr "manual-converter");
    ("convertedBy", JStr "TensorFlow.js Converter 4.0.0");
    ("signature", JDict [
      ("inputs", JDict [
        ("input", JDict [
          ("name", JStr "input:0");
          ("dtype", JStr "DT_FLOAT");
          ("tensorShape", JDict [
            ("dim", JList [dim "1"; dim "70"; dim "70"; dim "1"])
          ])
        ])
      ]);
      ("outputs", JDict [
        ("output", JDict [
          ("name", JStr "output:0");
          ("dtype", JStr "DT_FLOAT");
          ("tensorShape", JDict [
            ("dim", JList [dim "1"; dim "52"])
          ])
        ])
      ])
    ]);
    ("userDefinedMetadata", JDict [
      ("inputShape", JStr "[1,70,70,1]");
      ("outputShape", JStr "[1,52]");
      ("classes", JStr "52")
    ]);
    ("modelTopology", JDict [
      ("node", JList [
        JDict [
          ("name", JStr "input");
          ("op", JStr "Placeholder");
          ("attr", JDict [
            ("dtype", JDict [("type", JStr "DT_FLOAT")]);
            ("shape", JDict [("shape", JDict [
              ("dim", JList [dim "1"; dim "70"; dim "70"; dim "1"])
            ])])
          ])
        ];
        JDict [
          ("name", JStr "output");
          ("op", JStr "Identity");
          ("input", JList [JStr "dense/BiasAdd"]);
          ("attr", JDict [
            ("T", JDict [("type", JStr "DT_FLOAT")])
          ])
        ]
      ]);
      ("library", JDict []);
      ("versions", JDict [("producer", JInt 1)])
    ]);
    ("weightsManifest", JList [
      JDict [
        ("paths", JList [JStr shard_name]);
        ("weights", JList [
          weight_entry "conv2d/kernel" [3; 3; 1; 32]%Z;
          weight_entry "conv2d/bias" [32]%Z;
          weight_entry "dense/kernel" [1152; 52]%Z;
          weight_entry "dense/bias" [52]%Z
        ])
      ]
    ])
  ].

End ProcB.

Section Scripts.

Variable E : env.

(** *** Standard output *)

Definition print (line : string) : M unit :=
  modify (fun w => set_stdout (stdout w ++ [line]) w).

(** *** [os] and built-in file objects *)

Definition is_cwd (p : string) : bool :=
  bool_decide (p = EmptyString) || bool_decide (p = ".").

Definition path_isfile (w : world) (p : string) : bool :=
  bool_decide (is_Some (files w !! p)).

Definition path_isdir (w : world) (p : string) : bool :=
  is_cwd p || bool_decide (p ∈ dirs w).

Definition path_exists (w : world) (p : string) : bool :=
  path_isdir w p || path_isfile w p.

(** [os.mkdir(p)]; a call that fails changes nothing and is not recorded
    in the trace. *)
Definition os_mkdir (p : string) : M unit :=
  w <- get_world ;;
  if path_exists w p then raise FileExistsError
  else if path_isfile w (dirname p) then raise NotADirectoryError
  else if negb (path_isdir w (dirname p)) then raise FileNotFoundError
  else if mkdir_denied E p then raise PermissionError
  else modify (fun w => log (SysMkdir p) (set_dirs ({[p]} ∪ dirs w) w)).

Definition is_FileExistsError (e : exn) : bool :=
  match e with FileExistsError => true | _ => false end.

(** [os.makedirs]: [chain] is the directory to make followed by the
    directories above it, innermost first.  Missing parents are made
    first; the final [mkdir] may fail only if the directory is not there
    afterwards or [exist_ok] is off. *)
Fixpoint makedirs_chain (exist_ok : bool) (chain : list string) : M unit :=
  match chain with
  | [] => ret tt
  | name :: ups =>
      match ups with
      | head :: _ =>
          w <- get_world ;;
          if path_exists w head then ret tt
          else try_except (makedirs_chain exist_ok ups) is_FileExistsError (fun _ => ret tt)
      | [] => ret tt
      end ;;
      try_except (os_mkdir name) is_OSError
        (fun e =>
           w <- get_world ;;
           if negb exist_ok || negb (path_isdir w name) then raise e else ret tt)
  end.

Definition os_makedirs (name : string) (exist_ok : bool) : M unit :=
  makedirs_chain exist_ok (name :: rev (parents name)).

(** [open(p, 'w')] and [open(p, 'wb')]: the file is created or
    truncated. *)
Definition open_w (p : string) : M unit :=
  w <- get_world ;;
  if path_isdir w p then raise IsADirectoryError
  else if path_isfile w (dirname p) then raise NotADirectoryError
  else if negb (path_isdir w (dirname p)) then raise FileNotFoundError
  else if open_denied E p then raise PermissionError
  else modify (fun w => log (SysOpen p) (set_files (<[p := []]> (files w)) w)).

(** Writing [data] to the open file [p]: the device takes a prefix, and
    the call fails when that is not all of it. *)
Definition fwrite (p : string) (data : list Byte.byte) : M unit :=
  fun w =>
    let accepted :=
      match write_limit E p with
      | Some k => take k data
      | None => data
      end in
    let w' :=
      log (SysWrite p accepted)
          (set_files (<[p := default [] (files w !! p) ++ accepted]> (files w)) w) in
    if Nat.ltb (length accepted) (length data) then (Raise OSError, w') else (Ok tt, w').

(** [with open(p, 'w') as f: body]: the file is closed whether or not
    [body] raises. *)
Definition with_open_w (p : string) (body : M unit) : M unit :=
  open_w p ;;
  fun w =>
    match body w with
    | (r, w') => (r, log (SysClose p) w')
    end.

(** [json.dump(obj, f, indent=2)] on the file opened at [p]. *)
Definition json_dump (obj : Json.json) (p : string) : M unit :=
  fwrite p (list_byte_of_string (Json.dumps obj)).

Definition rstrip_slash (d : string) : string :=
  match strip_prefix (dirname d +:+ String slash EmptyString) d with
  | Some EmptyString => dirname d
  | _ => d
  end.

(** The name of [p] inside directory [d] (given with its trailing
    slash), if [p] lies directly in it. *)
Definition entry_name (d p : string) : option string :=
  match strip_prefix d p with
  | Some EmptyString => None
  | Some n => if contains_slash n then None else Some n
  | None => None
  end.

(** [os.listdir(d)]; the order of the entries is the file system's. *)
Definition os_listdir (d : string) : M (list string) :=
  w <- get_world ;;
  if path_isdir w (rstrip_slash d)
  then ret (omap (entry_name d) ((map_to_list (files w)).*1 ++ elements (dirs w)))
  else raise FileNotFoundError.

(** [os.path.getsize(p)] *)
Definition os_path_getsize (p : string) : M N :=
  w <- get_world ;;
  match files w !! p with
  | Some content => ret (N.of_nat (length content))
  | None => if path_isdir w p then ret (dir_size E p) else raise FileNotFoundError
  end.

(** *** The TFLite runtime *)

(** [tf.lite.Interpreter(model_path=p)] *)
Definition Interpreter (p : string) : M interpreter :=
  w <- get_world ;;
  match files w !! p with
  | None => raise ValueError
  | Some content =>
      match tflite_runtime E content with
      | None => raise ValueError
      | Some i => ret i
      end
  end.

Definition allocate_tensors (i : interpreter) : M unit :=
  if allocates i then ret tt else raise RuntimeError.

(** [l[0]] *)
Definition item0 {A} (l : list A) : M A :=
  match l with
  | x :: _ => ret x
  | [] => raise IndexError
  end.

(** *** numpy calls with effects *)

(** The [n] values the generator yields from position [pos] on. *)
Definition next_draws (pos : N) (n : nat) : list spec_float :=
  map (fun i => draws E (pos + N.of_nat i)%N) (seq 0 n).

(** [np.random.randn(d1, ..., dn)]: the next [d1 * ... * dn] values of the
    generator, stored in row-major order; a negative dimension is a
    [ValueError]. *)
Definition np_random_randn (dims : list Z) : M ndarray :=
  fun w =>
    if forallb (fun d => (0 <=? d)%Z) dims then
      let n := Z.to_nat (shape_size dims) in
      (Ok (NdArray float64 dims (next_draws (rng_pos w) n)),
       set_rng_pos (rng_pos w + N.of_nat n)%N w)
    else (Raise ValueError, w).

(** [np.concatenate(arrs)] along the first axis. *)
Definition np_concatenate (arrs : list ndarray) : M ndarray :=
  match arrs with
  | [] => raise ValueError
  | a :: rest =>
      match nd_shape a with
      | [] => raise ValueError
      | _ :: inner =>
          if forallb (fun b => match nd_shape b with
                               | [] => false
                               | _ :: inner' => bool_decide (inner' = inner)
                               end) rest
          then
            let d := fold_left promote (map nd_dtype rest) (nd_dtype a) in
            ret (NdArray d
                   (fold_right Z.add 0%Z (map (fun b => hd 0%Z (nd_shape b)) arrs) :: inner)
                   (concat (map (fun b => map (convert (nd_dtype b) d) (nd_data b)) arrs)))
          else raise ValueError
      end
  end.

(** [a.tofile(p)] *)
Definition tofile (a : ndarray) (p : string) : M unit :=
  with_open_w p (fwrite p (tobytes (sys_byteorder E) a)).

(** *** Procedure A: [convert_tflite.py] *)

Definition convert_tflite_to_tfjs : M unit :=
  (* Load TFLite model *)
  interp <- Interpreter model_path ;;
  allocate_tensors interp ;;
  (* Get model info *)
  let input_details := input_details interp in
  let output_details := output_details interp in
  i <- item0 input_details ;;
  print ("Input shape: " +:+ td_shape i) ;;
  o <- item0 output_details ;;
  print ("Output shape: " +:+ td_shape o) ;;
  i <- item0 input_details ;;
  print ("Input dtype: " +:+ td_dtype i) ;;
  o <- item0 output_details ;;
  print ("Output dtype: " +:+ td_dtype o) ;;
  (* Create output directory *)
  os_makedirs out_dir true ;;
  (* Save model structure *)
  with_open_w json_path (json_dump ProcA.model_json json_path) ;;
  (* Create empty weights file *)
  tofile (np_array_empty float32) bin_path ;;
  print "Basic conversion completed!" ;;
  print "Note: This creates structure but doesn't extract actual weights" ;;
  print "For full conversion, use Google's official converter".

(** *** Procedure B: [manual_convert.py] *)

(** [np.random.randn(d1, ..., dn).astype(np.float32) * 0.1] *)
Definition dummy_weights (dims : list Z) : M ndarray :=
  a <- np_random_randn dims ;;
  ret (mul_scalar (astype float32 a) py_0_1).

(** The four tensors of [manual_convert.py], in the order the script
    draws them. *)
Definition generate_weights : M (ndarray * ndarray * ndarray * ndarray) :=
  conv_kernel <- dummy_weights [3; 3; 1; 32]%Z ;;
  conv_bias <- dummy_weights [32]%Z ;;
  dense_kernel <- dummy_weights [1152; 52]%Z ;;
  dense_bias <- dummy_weights [52]%Z ;;
  ret (conv_kernel, conv_bias, dense_kernel, dense_bias).

Definition listing_dir : string := "./assets/cards_model/".

Definition create_tfjs_model : M unit :=
  print "Creating TensorFlow.js model structure..." ;;
  (* Create output directory *)
  os_makedirs out_dir true ;;
  (* Load TFLite model to get weights (as much as we can) *)
  interp <- Interpreter model_path ;;
  allocate_tensors interp ;;
  let input_details := input_details interp in
  let output_details := output_details interp in
  print "Model info:" ;;
  i <- item0 input_details ;;
  i' <- item0 input_details ;;
  print ("  Input: " +:+ td_shape i +:+ " (" +:+ td_dtype i' +:+ ")") ;;
  o <- item0 output_details ;;
  o' <- item0 output_details ;;
  print ("  Output: " +:+ td_shape o +:+ " (" +:+ td_dtype o' +:+ ")") ;;
  (* Save model.json *)
  with_open_w json_path (json_dump ProcB.model_json json_path) ;;
  (* Create dummy weights (random weights for testing) *)
  weights <- generate_weights ;;
  let '(conv_kernel, conv_bias, dense_kernel, dense_bias) := weights in
  (* Concatenate all weights into one binary file *)
  all_weights <- np_concatenate [
    flatten conv_kernel;
    flatten conv_bias;
    flatten dense_kernel;
    flatten dense_bias
  ] ;;
  (* Save weights *)
  tofile (astype float32 all_weights) bin_path ;;
  print "✅ Created TensorFlow.js model structure!" ;;
  print "📁 Files created:" ;;
  names <- os_listdir listing_dir ;;
  for_each names (fun file =>
    size <- os_path_getsize (listing_dir +:+ file) ;;
    print ("  - " +:+ file +:+ " (" +:+ decimal size +:+ " bytes)")) ;;
  print (String LF "⚠️  Note: This uses random weights for testing!") ;;
  print "   Real predictions will be random until we extract actual weights.".

End Scripts.

(** ** Footprints of actions

    Relations between the world before and after an action, and the
    actions that stay within them whatever their outcome. *)

(** Only the standard output may change. *)
Record quiet (w w' : world) : Prop := Quiet {
  quiet_dirs : dirs w' = dirs w;
  quiet_files : files w' = files w;
  quiet_rng : rng_pos w' = rng_pos w;
  quiet_trace : trace w' = trace w
}.

(** Directories may be created, files are left alone. *)
Record mkdirs_only (w w' : world) : Prop := MkdirsOnly {
  mk_dirs : dirs w ⊆ dirs w';
  mk_files : files w' = files w;
  mk_rng : rng_pos w' = rng_pos w;
  mk_trace : ∃ ps, trace w' = trace w ++ map SysMkdir ps
}.

Definition Preserves {A} (R : world -> world -> Prop) (m : M A) : Prop :=
  ∀ w, R w (m w).2.

(** The file system is as it was; the generator and the standard output
    may have moved on. *)
Record fs_same (w w' : world) : Prop := FsSame {
  same_dirs : dirs w' = dirs w;
  same_files : files w' = files w;
  same_trace : trace w' = trace w
}.

(** ** Outcomes of writing a file *)

(** [acc] is a proper prefix of [data]. *)
Definition short_of (acc data : list Byte.byte) : Prop :=
  ∃ rest, data = acc ++ rest ∧ rest ≠ [].

(** File [p] was opened in its existing directory, received exactly
    [data], and was closed; nothing else changed. *)
Record written (p : string) (data : list Byte.byte) (w w' : world) : Prop := Written {
  wr_parent : path_isdir w (dirname p) = true;
  wr_dirs : dirs w' = dirs w;
  wr_rng : rng_pos w' = rng_pos w;
  wr_files : files w' = <[p := data]> (files w);
  wr_trace : trace w' = trace w ++ [SysOpen p; SysWrite p data; SysClose p]
}.

Inductive write_outcome (p : string) (data : list Byte.byte) (w : world) :
  result unit -> world -> Prop :=
| WriteRefused e : write_outcome p data w (Raise e) w
| WriteShort acc w' :
    short_of acc data -> written p acc w w' ->
    write_outcome p data w (Raise OSError) w'
| WriteDone w' :
    written p data w w' -> write_outcome p data w (Ok tt) w'.

(** ** The shape of a run

    Every run of either script, successful or not, is of one of the
    shapes below; [desc] and [blob] are the complete contents of the two
    files. *)

(** What can happen once the descriptor is complete, in world [w2]. *)
Inductive blob_shape (blob : list Byte.byte) (w2 : world) : result unit -> world -> Prop :=
| BlobNone e w' :
    fs_same w2 w' -> blob_shape blob w2 (Raise e) w'
| BlobShort acc w3 w' :
    fs_same w2 w3 -> short_of acc blob -> written bin_path acc w3 w' ->
    blob_shape blob w2 (Raise OSError) w'
| BlobDone r w3 w4 w' :
    fs_same w2 w3 -> written bin_path blob w3 w4 -> fs_same w4 w' ->
    blob_shape blob w2 r w'.

Inductive run_shape (desc blob : list Byte.byte) (w : world) : result unit -> world -> Prop :=
| RunNoOutput e w' :
    mkdirs_only w w' -> run_shape desc blob w (Raise e) w'
| RunDescriptorShort acc w1 w' :
    mkdirs_only w w1 -> short_of acc desc -> written json_path acc w1 w' ->
    run_shape desc blob w (Raise OSError) w'
| RunDescriptorDone r w1 w2 w' :
    mkdirs_only w w1 -> written json_path desc w1 w2 -> blob_shape blob w2 r w' ->
    run_shape desc blob w r w'.

(** *** How far a run got

    The same classification without the intermediate worlds: what the
    run did to the file system is determined by how far it got. *)

Inductive progress : Type :=
| NoOutput
| DescriptorPartial (acc : list Byte.byte)
| DescriptorOnly
| BlobPartial (acc : list Byte.byte)
| Complete.

(** The calls made to write [data] to [p]. *)
Definition write_ops (p : string) (data : list Byte.byte) : list syscall :=
  [SysOpen p; SysWrite p data; SysClose p].

Definition file_ops (desc blob : list Byte.byte) (pr : progress) : list syscall :=
  match pr with
  | NoOutput => []
  | DescriptorPartial acc => write_ops json_path acc
  | DescriptorOnly => write_ops json_path desc
  | BlobPartial acc => write_ops json_path desc ++ write_ops bin_path acc
  | Complete => write_ops json_path desc ++ write_ops bin_path blob
  end.

Definition files_after (desc blob : list Byte.byte) (pr : progress)
    (f : gmap string (list Byte.byte)) : gmap string (list Byte.byte) :=
  match pr with
  | NoOutput => f
  | DescriptorPartial acc => <[json_path := acc]> f
  | DescriptorOnly => <[json_path := desc]> f
  | BlobPartial acc => <[bin_path := acc]> (<[json_path := desc]> f)
  | Complete => <[bin_path := blob]> (<[json_path := desc]> f)
  end.

Definition partial_ok (desc blob : list Byte.byte) (pr : progress) : Prop :=
  match pr with
  | DescriptorPartial acc => short_of acc desc
  | BlobPartial acc => short_of acc blob
  | _ => True
  end.

(** Which results go with which progress: a run that returns is
    complete, and a partial write is an [OSError]. *)
Definition result_fits (r : result unit) (pr : progress) : Prop :=
  match pr with
  | Complete => True
  | DescriptorPartial _ | BlobPartial _ => r = Raise OSError
  | NoOutput | DescriptorOnly => ∃ e, r = Raise e
  end.

Record progressed (desc blob : list Byte.byte) (w : world) (r : result unit) (w' : world)
    (pr : progress) (ps : list string) : Prop := Progressed {
  pg_partial : partial_ok desc blob pr;
  pg_result : result_fits r pr;
  pg_files : files w' = files_after desc blob pr (files w);
  pg_trace : trace w' = trace w ++ map SysMkdir ps ++ file_ops desc blob pr;
  pg_dirs : dirs w ⊆ dirs w';
  pg_out_dir : pr ≠ NoOutput -> out_dir ∈ dirs w'
}.

(** ** The two procedures, side by side *)

Inductive procedure : Type := ProcedureA | ProcedureB.

Definition run (P : procedure) (E : env) : M unit :=
  match P with
  | ProcedureA => convert_tflite_to_tfjs E
  | ProcedureB => create_tfjs_model E
  end.

Definition model_json (P : procedure) : Json.json :=
  match P with
  | ProcedureA => ProcA.model_json
  | ProcedureB => ProcB.model_json
  end.

(** The text of [model.json], as bytes. *)
Definition descriptor (P : procedure) : list Byte.byte :=
  list_byte_of_string (Json.dumps (model_json P)).

(** *** The weights of Procedure B as a function of the generator *)

Definition element_count (dims : list Z) : nat := Z.to_nat (shape_size dims).

(** The tensor [dummy_weights] returns when the generator stands at
    [pos]. *)
Definition dummy_tensor (E : env) (pos : N) (dims : list Z) : ndarray :=
  mul_scalar (astype float32 (NdArray float64 dims (next_draws E pos (element_count dims)))) py_0_1.

Definition conv_kernel_shape : list Z := [3; 3; 1; 32]%Z.
Definition conv_bias_shape : list Z := [32]%Z.
Definition dense_kernel_shape : list Z := [1152; 52]%Z.
Definition dense_bias_shape : list Z := [52]%Z.

Definition weights_at (E : env) (pos : N) : ndarray * ndarray * ndarray * ndarray :=
  let p1 := (pos + N.of_nat (element_count conv_kernel_shape))%N in
  let p2 := (p1 + N.of_nat (element_count conv_bias_shape))%N in
  let p3 := (p2 + N.of_nat (element_count dense_kernel_shape))%N in
  (dummy_tensor E pos conv_kernel_shape,
   dummy_tensor E p1 conv_bias_shape,
   dummy_tensor E p2 dense_kernel_shape,
   dummy_tensor E p3 dense_bias_shape).

(** The generator position after the four tensors have been drawn. *)
Definition drawn (pos : N) : N :=
  (pos + N.of_nat (element_count conv_kernel_shape)
       + N.of_nat (element_count conv_bias_shape)
       + N.of_nat (element_count dense_kernel_shape)
       + N.of_nat (element_count dense_bias_shape))%N.

(** The elements of the four tensors in the order of concatenation. *)
Definition weight_elements (E : env) (pos : N) : list spec_float :=
  let '(conv_kernel, conv_bias, dense_kernel, dense_bias) := weights_at E pos in
  nd_data (flatten conv_kernel) ++ nd_data (flatten conv_bias)
  ++ nd_data (flatten dense_kernel) ++ nd_data (flatten dense_bias).

Definition weight_blob (E : env) (pos : N) : list Byte.byte :=
  concat (map (element_bytes (sys_byteorder E) float32) (weight_elements E pos)).

(** The complete content of the weight file of a run started in a world
    whose generator stands at [pos]. *)
Definition blob (P : procedure) (E : env) (pos : N) : list Byte.byte :=
  match P with
  | ProcedureA => []
  | ProcedureB => weight_blob E pos
  end.

(** One draw, converted to float32 and scaled by the float32 nearest to
    0.1. *)
Definition scaled (x : spec_float) : spec_float :=
  SFmul 24 128 (cast float32 x) (S754_finite false 13421773 (-27)%Z).

(** Row-major position of a multi-index in an array of shape [dims]. *)
Fixpoint ravel (dims idx : list Z) (acc : Z) : Z :=
  match dims, idx with
  | d :: dims', i :: idx' => ravel dims' idx' (acc * d + i)%Z
  | _, _ => acc
  end.

Fixpoint index_ok (dims idx : list Z) : bool :=
  match dims, idx with
  | [], [] => true
  | d :: dims', i :: idx' => (0 <=? i)%Z && (i <? d)%Z && index_ok dims' idx'
  | _, _ => false
  end.

(** [a[i0, ..., in]] for an in-range multi-index. *)
Definition getitem (a : ndarray) (idx : list Z) : spec_float :=
  nth (Z.to_nat (ravel (nd_shape a) idx 0%Z)) (nd_data a) S754_nan.

(** *** Reading the weight file back *)

(** The value of a byte. *)
Definition byte_value (b : Byte.byte) : Z := Z.of_N (Byte.to_N b).

(** The number whose base-256 digits, least significant first, are
    [bs]. *)
Fixpoint le_word (bs : list Byte.byte) : Z :=
  match bs with
  | [] => 0%Z
  | b :: bs' => (byte_value b + 256 * le_word bs')%Z
  end.

(** The value a 32-bit word stands for in the IEEE 754 binary32
    interchange format: bit 31 is the sign, bits 30 to 23 the biased
    exponent, bits 22 to 0 the trailing significand.  The number is
    [(-1)^sign * fraction * 2^-149] for a biased exponent of 0 and
    [(-1)^sign * (2^23 + fraction) * 2^(biased - 150)] for one below
    255. *)
Definition decode_binary32 (word : Z) : spec_float :=
  let sign := Z.testbit word 31 in
  let biased := Z.land (Z.shiftr word 23) 255 in
  let fraction := Z.land word (Z.ones 23) in
  if (biased =? 0)%Z then
    match fraction with
    | Z.pos m => S754_finite sign m (-149)
    | _ => S754_zero sign
    end
  else if (biased =? 255)%Z then
    if (fraction =? 0)%Z then S754_infinity sign else S754_nan
  else
    match (2 ^ 23 + fraction)%Z with
    | Z.pos m => S754_finite sign m (biased - 150)
    | _ => S754_nan
    end.

(** [np.frombuffer(bs, dtype=np.float32)[0]] on a host of byte order
    [bo]: the float32 that four bytes of a file stand for. *)
Definition read_float32 (bo : byteorder) (bs : list Byte.byte) : spec_float :=
  decode_binary32 (le_word (match bo with little => bs | big => rev bs end)).

(** *** Reading a descriptor back *)

Definition read_json (content : list Byte.byte) : option Json.json :=
  Json.loads (string_of_list_byte content).

Definition and_then {A B} (o : option A) (f : A -> option B) : option B :=
  match o with
  | Some a => f a
  | None => None
  end.

(** [[f x for x in l]], failing when [f] fails on some element. *)
Fixpoint traverse {A B} (f : A -> option B) (l : list A) : option (list B) :=
  match l with
  | [] => Some []
  | x :: l' =>
      match f x, traverse f l' with
      | Some y, Some ys => Some (y :: ys)
      | _, _ => None
      end
  end.

(** The weight entries of the first manifest group. *)
Definition manifest_weights (j : Json.json) : option (list Json.json) :=
  and_then (and_then (and_then (Json.get "weightsManifest" j) (Json.index 0))
                     (Json.get "weights"))
           Json.as_list.

Definition entry_shape (e : Json.json) : option (list Z) :=
  and_then (and_then (Json.get "shape" e) Json.as_list) (traverse Json.as_int).

Definition manifest_shapes (j : Json.json) : option (list (list Z)) :=
  and_then (manifest_weights j) (traverse entry_shape).

(** Sum over the manifest entries of the product of the dimensions. *)
Definition manifest_element_count (j : Json.json) : option Z :=
  and_then (manifest_shapes j)
           (fun shapes => Some (fold_right Z.add 0%Z (map shape_size shapes))).

Definition topology_nodes (j : Json.json) : option (list Json.json) :=
  and_then (and_then (Json.get "modelTopology" j) (Json.get "node")) Json.as_list.

Definition node_name (n : Json.json) : option string :=
  and_then (Json.get "name" n) Json.as_str.

Definition node_op (n : Json.json) : option string :=
  and_then (Json.get "op" n) Json.as_str.

Definition node_inputs (n : Json.json) : option (list string) :=
  and_then (and_then (Json.get "input" n) Json.as_list) (traverse Json.as_str).

(** *** Failure to load the model file *)

(** The file is absent, the runtime rejects it, or it cannot allocate
    its tensors. *)
Definition load_fails (E : env) (w : world) : bool :=
  match files w !! model_path with
  | None => true
  | Some content =>
      match tflite_runtime E content with
      | None => true
      | Some i => negb (allocates i)
      end
  end.

Definition touches (p : string) (c : syscall) : bool :=
  match c with
  | SysMkdir _ => false
  | SysOpen q | SysWrite q _ | SysClose q => bool_decide (q = p)
  end.

(** *** Hosts on which nothing goes wrong

    The model file loads and reports an input and an output tensor, the
    operating system refuses nothing and takes every byte, no file
    stands where the output directory must be and no directory where
    the two files go. *)
Record cooperative (E : env) (w : world) : Prop := Cooperative {
  coop_loads : load_fails E w = false;
  coop_details : ∀ content i,
    files w !! model_path = Some content -> tflite_runtime E content = Some i ->
    input_details i ≠ [] ∧ output_details i ≠ [];
  coop_mkdir : ∀ p, mkdir_denied E p = false;
  coop_open : ∀ p, open_denied E p = false;
  coop_write : ∀ p, write_limit E p = None;
  coop_no_file : ∀ p, p ∈ ["."; "./assets"; out_dir] -> files w !! p = None;
  coop_no_dir : ∀ p, p ∈ [json_path; bin_path] -> p ∉ dirs w
}.

(** *** Sample environments *)

Module Sample.

Definition details_in : tensor_detail := TensorDetail "[ 1 70 70  1]" "<class 'numpy.float32'>".
Definition details_out : tensor_detail := TensorDetail "[ 1 52]" "<class 'numpy.float32'>".

Definition card_model : interpreter := InterpreterObj true [details_in] [details_out].

(** Draw number [n] is [(-1)^n * (1 + (n+1) * 2^-52)]. *)
Definition stream (n : N) : spec_float :=
  S754_finite (N.odd n) (4503599627370496 + N.succ_pos n) (-52)%Z.

Definition host (bo : byteorder) : env :=
  Env (fun _ => Some card_model) (fun _ => false) (fun _ => false) (fun _ => None)
      (fun _ => 4096%N) stream bo.

(** A host whose disk takes [k] bytes of the weight file and then fails. *)
Definition small_disk (k : nat) : env :=
  Env (fun _ => Some card_model) (fun _ => false) (fun _ => false)
      (fun p => if String.eqb p bin_path then Some k else None)
      (fun _ => 4096%N) stream little.

(** A host whose runtime rejects every file. *)
Definition broken_runtime : env :=
  Env (fun _ => None) (fun _ => false) (fun _ => false) (fun _ => None)
      (fun _ => 4096%N) stream little.

(** A working directory holding the model file and nothing else. *)
Definition fresh : world := World ∅ {[ model_path := [] ]} [] 0%N [].

(** The same, with the model file missing. *)
Definition empty : world := World ∅ ∅ [] 0%N [].

End Sample.

(** ** Vocabulary of the further properties *)

(** *** What a run may change *)

(** The directories [os.makedirs('./assets/cards_model')] can create. *)
Definition new_dirs : gset string := {[ "./assets"; out_dir ]}.

(** What an action may do to the world, whatever its outcome:
    directories are added, never removed, and only those of
    [new_dirs]; no file other than the two outputs changes and none
    disappears; text is only appended to the standard output; the
    generator only advances; entries are only appended to the trace, and
    the directories it records as made are exactly the directories that
    are new. *)
Record frame (w w' : world) : Prop := Frame {
  fr_dirs : dirs w ⊆ dirs w';
  fr_new_dirs : dirs w' ⊆ dirs w ∪ new_dirs;
  fr_files : ∀ p, p ≠ json_path -> p ≠ bin_path -> files w' !! p = files w !! p;
  fr_kept : ∀ p, is_Some (files w !! p) -> is_Some (files w' !! p);
  fr_stdout : ∃ out, stdout w' = stdout w ++ out;
  fr_rng : (rng_pos w <= rng_pos w')%N;
  fr_trace : ∃ ops, trace w' = trace w ++ ops ∧
                    (∀ p, SysMkdir p ∈ ops <-> (p ∉ dirs w) ∧ (p ∈ dirs w'))
}.

(** Component [f] of the world is left as it is. *)
Definition keeps {T} (f : world -> T) (w w' : world) : Prop := f w' = f w.

(** An action that leaves the world as it is. *)
Definition Pure {A} (m : M A) : Prop := ∀ w, (m w).2 = w.

(** Every exception [m] raises is one of [S]. *)
Definition Raises {A} (S : exn -> Prop) (m : M A) : Prop :=
  ∀ w e w', m w = (Raise e, w') -> S e.

(** What Procedure B does to the generator: it is left alone or
    advanced past the four tensors, and a run that returns has
    advanced it. *)
Definition draws_all (w : world) (r : result unit) (w' : world) : Prop :=
  (rng_pos w' = rng_pos w ∨ rng_pos w' = drawn (rng_pos w)) ∧
  (r = Ok tt -> rng_pos w' = drawn (rng_pos w)).

(** An exception other than [FileExistsError]. *)
Definition other_than_exists (e : exn) : Prop := e ≠ FileExistsError.

(** *** Loading the model and the texts printed *)

(** The outcome of [tf.lite.Interpreter(model_path=...)] followed by
    [allocate_tensors()] in world [w]. *)
Definition loaded (E : env) (w : world) : result interpreter :=
  ((interp <- Interpreter E model_path ;; allocate_tensors interp ;; ret interp) w).1.

(** The standard output with [lines] appended. *)
Definition say (lines : list string) (w : world) : world :=
  set_stdout (stdout w ++ lines) w.

(** The four texts Procedure A prints about the first input tensor [i]
    and the first output tensor [o]. *)
Definition info_lines_A (i o : tensor_detail) : list string :=
  ["Input shape: " +:+ td_shape i; "Output shape: " +:+ td_shape o;
   "Input dtype: " +:+ td_dtype i; "Output dtype: " +:+ td_dtype o].

(** The three texts Procedure B prints about them. *)
Definition info_lines_B (i o : tensor_detail) : list string :=
  ["Model info:";
   "  Input: " +:+ td_shape i +:+ " (" +:+ td_dtype i +:+ ")";
   "  Output: " +:+ td_shape o +:+ " (" +:+ td_dtype o +:+ ")"].

(** The first text each script prints after its two files are
    written. *)
Definition completion_message (P : procedure) : string :=
  match P with
  | ProcedureA => "Basic conversion completed!"
  | ProcedureB => "✅ Created TensorFlow.js model structure!"
  end.

(** Text was printed, but not [msg]. *)
Definition mute (msg : string) (w w' : world) : Prop :=
  ∃ out, stdout w' = stdout w ++ out ∧ msg ∉ out.

(** [msg] is among the texts a run printed exactly when the run
    returned. *)
Definition announced (msg : string) (w : world) (r : result unit) (w' : world) : Prop :=
  ∃ out, stdout w' = stdout w ++ out ∧ (msg ∈ out ↔ r = Ok tt).

(** What [os.path.getsize(p)] returns in [w] when [p] exists. *)
Definition size_of (E : env) (w : world) (p : string) : N :=
  match files w !! p with
  | Some content => N.of_nat (length content)
  | None => dir_size E p
  end.

(** What [os.listdir(d)] returns in [w] when [d], given with its
    trailing slash, is a directory. *)
Definition dir_entries (d : string) (w : world) : list string :=
  omap (entry_name d) ((map_to_list (files w)).*1 ++ elements (dirs w)).

(** The text Procedure B prints for the entry [file] of the output
    directory. *)
Definition report_line (E : env) (w : world) (file : string) : string :=
  "  - " +:+ file +:+ " (" +:+ decimal (size_of E w (listing_dir +:+ file)) +:+ " bytes)".

(** Everything Procedure B prints once the weight file is written, in
    a world with the file system of [w]. *)
Definition report (E : env) (w : world) : list string :=
  ["✅ Created TensorFlow.js model structure!"; "📁 Files created:"]
  ++ map (report_line E w) (dir_entries listing_dir w)
  ++ [String LF "⚠️  Note: This uses random weights for testing!";
      "   Real predictions will be random until we extract actual weights."].

(** *** Reading the manifest as a loader does *)

(** The paths of the first manifest group. *)
Definition manifest_paths (j : Json.json) : option (list string) :=
  and_then (and_then (and_then (and_then (Json.get "weightsManifest" j) (Json.index 0))
                               (Json.get "paths"))
                     Json.as_list)
           (traverse Json.as_str).

(** The path of [name] inside directory [d]. *)
Definition path_join (d name : string) : string := d +:+ String slash name.

(** [l] cut into consecutive pieces of the given lengths. *)
Fixpoint split_sizes {A} (sizes : list nat) (l : list A) : list (list A) :=
  match sizes with
  | [] => []
  | n :: ns => take n l :: split_sizes ns (drop n l)
  end.

(** The number of bytes a float32 manifest entry of shape [dims]
    stands for. *)
Definition entry_bytes (dims : list Z) : nat := itemsize float32 * element_count dims.

(** *** Further sample worlds *)

Module Scenario.

(** The working directory after an earlier run: the output directory
    is there. *)
Definition prepared : world :=
  World {[ "./assets"; out_dir ]} {[ model_path := [] ]} [] 0%N [].

(** A regular file stands where the output directory should be. *)
Definition blocked : world :=
  World {[ "./assets" ]} (<[ out_dir := [] ]> {[ model_path := [] ]}) [] 0%N [].

(** A model that reports no tensors. *)
Definition bare_model : interpreter := InterpreterObj true [] [].

Definition bare_host : env :=
  Env (fun _ => Some bare_model) (fun _ => false) (fun _ => false) (fun _ => None)
      (fun _ => 4096%N) Sample.stream little.

End Scenario.

(** * Properties *)

(** ** The model on small inputs *)

Example dumps_nested :
  Json.dumps (JDict [("a", JList [JInt 3; JInt (-12)]); ("b", JDict [])])
  = "{" +:+ String LF "  " +:+ Json.encode_str "a" +:+ ": [" +:+ String LF "    3,"
    +:+ String LF "    -12" +:+ String LF "  ]," +:+ String LF "  "
    +:+ Json.encode_str "b" +:+ ": {}" +:+ String LF "}".
Proof. reflexivity. Qed.

Example loads_rejects_trailing_text : Json.loads "[1, 2] x" = None.
Proof. reflexivity. Qed.

Example loads_rejects_leading_zero : Json.loads "[01]" = None.
Proof. reflexivity. Qed.

Example parents_of_json_path :
  parents json_path = ["."; "./assets"; "./assets/cards_model"].
Proof. reflexivity. Qed.

(** The Python float 0.1 becomes the float32 [0x3DCCCCCD]. *)
Example float32_tenth :
  cast float32 py_0_1 = S754_finite false 13421773 (-27)%Z ∧
  bits_of float32 (cast float32 py_0_1) = 1036831949%Z ∧
  element_bytes little float32 (cast float32 py_0_1)
    = [Byte.xcd; Byte.xcc; Byte.xcc; Byte.x3d] ∧
  element_bytes big float32 (cast float32 py_0_1)
    = [Byte.x3d; Byte.xcc; Byte.xcc; Byte.xcd].
Proof. repeat split; reflexivity. Qed.

(** [-1.0] and the smallest subnormal. *)
Example float32_bits :
  bits_of float32 (S754_finite true 8388608 (-23)%Z) = 3212836864%Z ∧
  bits_of float32 (S754_finite false 1 (-149)%Z) = 1%Z ∧
  bits_of float32 (S754_infinity true) = 4286578688%Z.
Proof. repeat split; reflexivity. Qed.

(** 2.0 scaled is the float32 nearest to 0.2, [0x3E4CCCCD]. *)
Example scaled_two :
  bits_of float32 (scaled (S754_finite false 4503599627370496 (-51)%Z)) = 1045220557%Z.
Proof. reflexivity. Qed.

Example ravel_conv_kernel : ravel conv_kernel_shape [2; 1; 0; 5]%Z 0%Z = 229%Z.
Proof. reflexivity. Qed.

(** With the model file missing, Procedure A stops at its first
    statement. *)
Example absent_model_A :
  convert_tflite_to_tfjs (Sample.host little) Sample.empty = (Raise ValueError, Sample.empty).
Proof. reflexivity. Qed.

(** What Procedure A does to an empty working directory. *)
Example sample_trace_A :
  trace (convert_tflite_to_tfjs (Sample.host little) Sample.fresh).2
  = [SysMkdir "./assets"; SysMkdir "./assets/cards_model";
     SysOpen json_path; SysWrite json_path (descriptor ProcedureA); SysClose json_path;
     SysOpen bin_path; SysWrite bin_path []; SysClose bin_path].
Proof. reflexivity. Qed.

(** ** Footprints of the library calls *)

Lemma quiet_refl w : quiet w w.
Proof. by split. Qed.

Lemma quiet_trans w1 w2 w3 : quiet w1 w2 -> quiet w2 w3 -> quiet w1 w3.
Proof. intros [] []. split; congruence. Qed.

Lemma mkdirs_only_refl w : mkdirs_only w w.
Proof. split; try done. exists []. by rewrite app_nil_r. Qed.

Lemma mkdirs_only_trans w1 w2 w3 :
  mkdirs_only w1 w2 -> mkdirs_only w2 w3 -> mkdirs_only w1 w3.
Proof.
  intros [Hd1 Hf1 Hr1 [ps1 Ht1]] [Hd2 Hf2 Hr2 [ps2 Ht2]].
  split; [set_solver | congruence | congruence |].
  exists (ps1 ++ ps2). by rewrite Ht2, Ht1, map_app, app_assoc.
Qed.

Lemma quiet_mkdirs_only w w' : quiet w w' -> mkdirs_only w w'.
Proof.
  intros [Hd Hf Hr Ht]. split; [by rewrite Hd | done | done |].
  exists []. by rewrite app_nil_r.
Qed.

#[global] Instance quiet_preorder : PreOrder quiet.
Proof. split; [exact quiet_refl | exact quiet_trans]. Qed.

#[global] Instance mkdirs_only_preorder : PreOrder mkdirs_only.
Proof. split; [exact mkdirs_only_refl | exact mkdirs_only_trans]. Qed.

Section Preserving.
Context (R : world -> world -> Prop) `{!PreOrder R}.

Lemma preserves_ret {A} (a : A) : Preserves R (ret a).
Proof. intros w. reflexivity. Qed.

Lemma preserves_raise {A} (e : exn) : Preserves R (@raise A e).
Proof. intros w. reflexivity. Qed.

Lemma preserves_get_world : Preserves R get_world.
Proof. intros w. reflexivity. Qed.

Lemma preserves_bind {A B} (m : M A) (k : A -> M B) :
  Preserves R m -> (∀ a, Preserves R (k a)) -> Preserves R (bind m k).
Proof.
  intros Hm Hk w. unfold bind. specialize (Hm w).
  destruct (m w) as [[a|e] w1]; simpl in *; [|done].
  etransitivity; [exact Hm | apply Hk].
Qed.

Lemma preserves_try_except {A} (m : M A) handles (h : exn -> M A) :
  Preserves R m -> (∀ e, Preserves R (h e)) -> Preserves R (try_except m handles h).
Proof.
  intros Hm Hh w. unfold try_except. specialize (Hm w).
  destruct (m w) as [[a|e] w1]; simpl in *; [done|].
  destruct (handles e); [|done].
  etransitivity; [exact Hm | apply Hh].
Qed.

Lemma preserves_for_each {A} (xs : list A) (body : A -> M unit) :
  (∀ x, Preserves R (body x)) -> Preserves R (for_each xs body).
Proof.
  intros Hb. induction xs as [|x xs IH]; simpl.
  - apply preserves_ret.
  - apply preserves_bind; auto.
Qed.

Lemma preserves_if {A} (b : bool) (m1 m2 : M A) :
  Preserves R m1 -> Preserves R m2 -> Preserves R (if b then m1 else m2).
Proof. by destruct b. Qed.
End Preserving.

Lemma preserves_weaken {A} (m : M A) : Preserves quiet m -> Preserves mkdirs_only m.
Proof. intros H w. apply quiet_mkdirs_only, H. Qed.

(** Decomposes a footprint goal along the structure of the action. *)
Ltac footprint :=
  repeat match goal with
    | |- Preserves _ (ret _) => apply preserves_ret
    | |- Preserves _ (raise _) => apply preserves_raise
    | |- Preserves _ get_world => apply preserves_get_world
    | |- Preserves _ (bind _ _) => apply preserves_bind
    | |- Preserves _ (try_except _ _ _) => apply preserves_try_except
    | |- Preserves _ (for_each _ _) => apply preserves_for_each
    | |- Preserves _ (if _ then _ else _) => apply preserves_if
    | |- forall _, _ => intro
    | |- PreOrder _ => apply _
    end.

Section PrimitiveFootprints.
Variable E : env.

Lemma print_quiet line : Preserves quiet (print line).
Proof. intros w. by split. Qed.

Lemma Interpreter_quiet p : Preserves quiet (Interpreter E p).
Proof.
  intros w. unfold Interpreter, bind, get_world. simpl.
  destruct (files w !! p) as [c|]; [|reflexivity].
  destruct (tflite_runtime E c); reflexivity.
Qed.

Lemma allocate_tensors_quiet i : Preserves quiet (allocate_tensors i).
Proof. intros w. unfold allocate_tensors. destruct (allocates i); reflexivity. Qed.

Lemma item0_quiet {A} (l : list A) : Preserves quiet (item0 l).
Proof. intros w. destruct l; reflexivity. Qed.

Lemma os_listdir_quiet d : Preserves quiet (os_listdir d).
Proof.
  intros w. unfold os_listdir, bind, get_world. simpl.
  destruct (path_isdir w (rstrip_slash d)); reflexivity.
Qed.

Lemma os_path_getsize_quiet p : Preserves quiet (os_path_getsize E p).
Proof.
  intros w. unfold os_path_getsize, bind, get_world. simpl.
  destruct (files w !! p); [reflexivity|].
  destruct (path_isdir w p); reflexivity.
Qed.

Lemma os_mkdir_mkdirs_only p : Preserves mkdirs_only (os_mkdir E p).
Proof.
  intros w. unfold os_mkdir, bind, get_world. simpl.
  destruct (path_exists w p); [reflexivity|].
  destruct (path_isfile w (dirname p)); [reflexivity|].
  destruct (path_isdir w (dirname p)); simpl; [|reflexivity].
  destruct (mkdir_denied E p); simpl; [reflexivity|].
  split; simpl; [set_solver | done | done |].
  by exists [p].
Qed.

Lemma makedirs_chain_mkdirs_only ok chain :
  Preserves mkdirs_only (makedirs_chain E ok chain).
Proof.
  induction chain as [|name ups IH]; simpl; [footprint|].
  footprint; [|apply os_mkdir_mkdirs_only].
  destruct ups as [|head ups']; footprint. exact IH.
Qed.

Lemma os_makedirs_mkdirs_only name ok : Preserves mkdirs_only (os_makedirs E name ok).
Proof. apply makedirs_chain_mkdirs_only. Qed.
End PrimitiveFootprints.

(** ** Writing a file *)

Lemma fs_same_refl w : fs_same w w.
Proof. by split. Qed.

Lemma fs_same_trans w1 w2 w3 : fs_same w1 w2 -> fs_same w2 w3 -> fs_same w1 w3.
Proof. intros [] []. split; congruence. Qed.

#[global] Instance fs_same_preorder : PreOrder fs_same.
Proof. split; [exact fs_same_refl | exact fs_same_trans]. Qed.

Lemma quiet_fs_same w w' : quiet w w' -> fs_same w w'.
Proof. intros []. by split. Qed.

Lemma preserves_quiet_fs_same {A} (m : M A) : Preserves quiet m -> Preserves fs_same m.
Proof. intros H w. apply quiet_fs_same, H. Qed.

Lemma short_of_length acc data : short_of acc data -> length acc < length data.
Proof.
  intros (rest & -> & Hne). rewrite length_app.
  destruct rest; [done | simpl; lia].
Qed.

Lemma short_of_neq acc data : short_of acc data -> acc ≠ data.
Proof. intros H ->. apply short_of_length in H. lia. Qed.

Lemma take_short (k : nat) (data : list Byte.byte) :
  length (take k data) < length data -> short_of (take k data) data.
Proof.
  intros Hlt. exists (drop k data). split; [by rewrite take_drop|].
  intros Hnil. rewrite <- (take_drop k data) in Hlt at 2.
  rewrite Hnil, app_nil_r in Hlt. lia.
Qed.

Lemma take_all (k : nat) (data : list Byte.byte) :
  ¬ length (take k data) < length data -> take k data = data.
Proof.
  intros Hge. apply take_ge. rewrite length_take in Hge. lia.
Qed.

Section Writing.
Variable E : env.

(** Opening, writing and closing a file has one of three outcomes: the
    open is refused and nothing happens, the device stops part-way, or
    the file holds exactly the data. *)
Lemma with_open_w_outcome p data w :
  write_outcome p data w
    (with_open_w E p (fwrite E p data) w).1 (with_open_w E p (fwrite E p data) w).2.
Proof.
  unfold with_open_w, open_w, bind, get_world. simpl.
  destruct (path_isdir w p) eqn:Hp; simpl; [constructor|].
  destruct (path_isfile w (dirname p)) eqn:Hf; simpl; [constructor|].
  destruct (path_isdir w (dirname p)) eqn:Hd; simpl; [|constructor].
  destruct (open_denied E p) eqn:Ho; simpl; [constructor|].
  unfold fwrite, modify. simpl. rewrite lookup_insert_eq. simpl.
  set (acc := match write_limit E p with Some k => take k data | None => data end).
  assert (Hw : ∀ w', w' = log (SysClose p) (log (SysWrite p acc)
                 (set_files (<[p:=acc]> (<[p:=[]]> (files w)))
                    (log (SysOpen p) (set_files (<[p:=[]]> (files w)) w)))) ->
               written p acc w w').
  { intros w' ->. split; simpl; try done.
    - by rewrite insert_insert_eq.
    - by rewrite <- !app_assoc. }
  destruct (Nat.ltb_spec (length acc) (length data)) as [Hlt|Hge]; simpl.
  - apply WriteShort with (acc := acc); [|by apply Hw].
    subst acc. destruct (write_limit E p) as [k|]; [by apply take_short | lia].
  - assert (acc = data) as Hacc.
    { subst acc. destruct (write_limit E p) as [k|]; [apply take_all; lia | done]. }
    rewrite Hacc in Hw |- *. apply WriteDone. by apply Hw.
Qed.

Lemma tofile_outcome a p w :
  write_outcome p (tobytes (sys_byteorder E) a) w (tofile E a p w).1 (tofile E a p w).2.
Proof. apply with_open_w_outcome. Qed.

Lemma json_dump_outcome obj p w :
  write_outcome p (list_byte_of_string (Json.dumps obj)) w
    (with_open_w E p (json_dump E obj p) w).1 (with_open_w E p (json_dump E obj p) w).2.
Proof. apply with_open_w_outcome. Qed.
End Writing.

(** ** The generated weights *)

Lemma convert_same d x : convert d d x = x.
Proof. unfold convert. by destruct d. Qed.

Lemma map_convert_same d (l : list spec_float) : map (convert d d) l = l.
Proof. induction l as [|x l IH]; simpl; [done|]. by rewrite convert_same, IH. Qed.

Section Generation.
Variable E : env.

Lemma dummy_weights_run dims w :
  forallb (fun d => (0 <=? d)%Z) dims = true ->
  dummy_weights E dims w =
    (Ok (dummy_tensor E (rng_pos w) dims),
     set_rng_pos (rng_pos w + N.of_nat (element_count dims))%N w).
Proof.
  intros Hdims. unfold dummy_weights, bind, np_random_randn.
  rewrite Hdims. reflexivity.
Qed.

(** Generating the weights cannot fail; it only moves the generator. *)
Lemma generate_weights_run w :
  generate_weights E w = (Ok (weights_at E (rng_pos w)), set_rng_pos (drawn (rng_pos w)) w).
Proof.
  unfold generate_weights, bind.
  rewrite dummy_weights_run by reflexivity.
  rewrite dummy_weights_run by reflexivity.
  rewrite dummy_weights_run by reflexivity.
  rewrite dummy_weights_run by reflexivity.
  reflexivity.
Qed.

Lemma dummy_tensor_shape pos dims : nd_shape (dummy_tensor E pos dims) = dims.
Proof. reflexivity. Qed.

Lemma np_concatenate_flat a b c d w :
  nd_dtype a = float32 -> nd_dtype b = float32 ->
  nd_dtype c = float32 -> nd_dtype d = float32 ->
  ∃ total,
    np_concatenate [flatten a; flatten b; flatten c; flatten d] w =
      (Ok (NdArray float32 [total]
             (nd_data (flatten a) ++ nd_data (flatten b)
              ++ nd_data (flatten c) ++ nd_data (flatten d))), w).
Proof.
  intros Ha Hb Hc Hd. unfold np_concatenate, flatten, ret. simpl.
  rewrite Ha, Hb, Hc, Hd. simpl.
  rewrite !map_convert_same, app_nil_r. eauto.
Qed.
End Generation.

(** ** Every run has one of the shapes *)

Lemma bind_Ok {A B} (m : M A) (k : A -> M B) w a w1 :
  m w = (Ok a, w1) -> bind m k w = k a w1.
Proof. intros H. unfold bind. by rewrite H. Qed.

Lemma bind_Raise {A B} (m : M A) (k : A -> M B) w e w1 :
  m w = (Raise e, w1) -> bind m k w = (Raise e, w1).
Proof. intros H. unfold bind. by rewrite H. Qed.

Lemma run_shape_after desc bl w w1 r w' :
  mkdirs_only w w1 -> run_shape desc bl w1 r w' -> run_shape desc bl w r w'.
Proof.
  intros Hmk Hshape. destruct Hshape.
  - apply RunNoOutput. by etransitivity.
  - eapply RunDescriptorShort; [by etransitivity | done | done].
  - eapply RunDescriptorDone; [by etransitivity | done | done].
Qed.

(** A step that at most creates directories, before the descriptor is
    opened. *)
Lemma run_shape_prologue {A} desc (bl : N -> list Byte.byte) (m : M A) (k : A -> M unit) :
  Preserves mkdirs_only m ->
  (∀ a w1, run_shape desc (bl (rng_pos w1)) w1 (k a w1).1 (k a w1).2) ->
  ∀ w, run_shape desc (bl (rng_pos w)) w (bind m k w).1 (bind m k w).2.
Proof.
  intros Hm Hk w. unfold bind. specialize (Hm w).
  destruct (m w) as [[a|e] w1]; simpl in *.
  - apply run_shape_after with w1; [done|].
    rewrite <- (mk_rng _ _ Hm). apply Hk.
  - by apply RunNoOutput.
Qed.

Section Shapes.
Variable E : env.

(** The descriptor is written, and [rest] follows. *)
Lemma run_shape_descriptor obj (bl : N -> list Byte.byte) (rest : M unit) :
  (∀ w2, blob_shape (bl (rng_pos w2)) w2 (rest w2).1 (rest w2).2) ->
  ∀ w, run_shape (list_byte_of_string (Json.dumps obj)) (bl (rng_pos w)) w
         (bind (with_open_w E json_path (json_dump E obj json_path)) (fun _ => rest) w).1
         (bind (with_open_w E json_path (json_dump E obj json_path)) (fun _ => rest) w).2.
Proof.
  intros Hrest w. unfold bind.
  pose proof (json_dump_outcome E obj json_path w) as Hout.
  destruct (with_open_w E json_path (json_dump E obj json_path) w) as [[[]|e] w2];
    simpl in *; inversion Hout; subst.
  - eapply RunDescriptorDone; [reflexivity | done |].
    match goal with H : written _ _ _ _ |- _ => rewrite <- (wr_rng _ _ _ _ H) end.
    apply Hrest.
  - apply RunNoOutput. reflexivity.
  - eapply RunDescriptorShort; [reflexivity | done | done].
Qed.

(** The weight file is written, and [k] follows without touching the
    file system. *)
Lemma blob_shape_tofile a (k : M unit) bl w2 w3 :
  tobytes (sys_byteorder E) a = bl ->
  fs_same w2 w3 ->
  Preserves fs_same k ->
  blob_shape bl w2 (bind (tofile E a bin_path) (fun _ => k) w3).1
                   (bind (tofile E a bin_path) (fun _ => k) w3).2.
Proof.
  intros <- Hsame Hk. unfold bind.
  pose proof (tofile_outcome E a bin_path w3) as Hout.
  destruct (tofile E a bin_path w3) as [[[]|e] w4]; simpl in *; inversion Hout; subst.
  - eapply BlobDone; [done | done | apply Hk].
  - by apply BlobNone.
  - eapply BlobShort; done.
Qed.
End Shapes.

Ltac quiet_step :=
  first [ apply print_quiet | apply Interpreter_quiet | apply allocate_tensors_quiet
        | apply item0_quiet | apply os_listdir_quiet | apply os_path_getsize_quiet ].

Ltac prologue_step bl :=
  lazy zeta;
  apply (run_shape_prologue _ bl);
  [ first [ apply os_makedirs_mkdirs_only | apply preserves_weaken; quiet_step ]
  | intros ? ].

Ltac epilogue := footprint; apply preserves_quiet_fs_same; quiet_step.

Section ScriptShapes.
Variable E : env.

Lemma convert_tflite_to_tfjs_shape w :
  run_shape (descriptor ProcedureA) (blob ProcedureA E (rng_pos w)) w
    (convert_tflite_to_tfjs E w).1 (convert_tflite_to_tfjs E w).2.
Proof.
  revert w. unfold convert_tflite_to_tfjs.
  do 11 prologue_step (blob ProcedureA E).
  apply (run_shape_descriptor E ProcA.model_json (blob ProcedureA E)).
  intros w2. apply blob_shape_tofile; [reflexivity | reflexivity | epilogue].
Qed.

Lemma weight_blob_tobytes total pos :
  tobytes (sys_byteorder E) (astype float32 (NdArray float32 [total] (weight_elements E pos)))
  = weight_blob E pos.
Proof.
  unfold weight_blob, tobytes, astype. cbn [nd_data nd_dtype].
  rewrite (map_convert_same float32). reflexivity.
Qed.

Lemma create_tfjs_model_shape w :
  run_shape (descriptor ProcedureB) (blob ProcedureB E (rng_pos w)) w
    (create_tfjs_model E w).1 (create_tfjs_model E w).2.
Proof.
  revert w. unfold create_tfjs_model.
  do 11 prologue_step (blob ProcedureB E).
  apply (run_shape_descriptor E ProcB.model_json (blob ProcedureB E)).
  intros w2. rewrite (bind_Ok _ _ _ _ _ (generate_weights_run E w2)).
  unfold weights_at. lazy beta iota zeta.
  match goal with
  | |- context [np_concatenate [flatten ?a; flatten ?b; flatten ?c; flatten ?d]] =>
      destruct (np_concatenate_flat a b c d (set_rng_pos (drawn (rng_pos w2)) w2))
        as [total Hcat];
      [reflexivity | reflexivity | reflexivity | reflexivity |];
      rewrite (bind_Ok _ _ _ _ _ Hcat)
  end.
  pose proof (weight_blob_tobytes total (rng_pos w2)) as Hblob.
  unfold weight_elements, weights_at in Hblob. lazy beta iota zeta in Hblob.
  change (blob ProcedureB E (rng_pos w2)) with (weight_blob E (rng_pos w2)).
  apply blob_shape_tofile; [exact Hblob | by split | epilogue].
Qed.

(** Whatever the environment and the initial world, a run of either
    script has one of the shapes of [run_shape]. *)
Lemma run_has_shape P w :
  run_shape (descriptor P) (blob P E (rng_pos w)) w (run P E w).1 (run P E w).2.
Proof.
  destruct P; [apply convert_tflite_to_tfjs_shape | apply create_tfjs_model_shape].
Qed.
End ScriptShapes.

(** ** How far a run got *)

Lemma written_out_dir p data w w' :
  dirname p = out_dir -> written p data w w' -> out_dir ∈ dirs w'.
Proof.
  intros Hp [Hparent Hdirs _ _ _]. rewrite Hp in Hparent.
  unfold path_isdir in Hparent. rewrite Hdirs.
  change (is_cwd out_dir) with false in Hparent. simpl in Hparent.
  by apply bool_decide_eq_true in Hparent.
Qed.

Lemma dirname_json_path : dirname json_path = out_dir.
Proof. reflexivity. Qed.

Lemma dirname_bin_path : dirname bin_path = out_dir.
Proof. reflexivity. Qed.

Lemma json_path_neq_bin_path : json_path ≠ bin_path.
Proof. discriminate. Qed.

Lemma run_shape_progress desc bl w r w' :
  run_shape desc bl w r w' -> ∃ pr ps, progressed desc bl w r w' pr ps.
Proof.
  intros Hshape. destruct Hshape as [e w' Hmk | acc w1 w' Hmk Hshort Hwr | r w1 w2 w' Hmk Hwr Hblob].
  - destruct Hmk as [Hd Hf _ [ps Ht]]. exists NoOutput, ps.
    split; simpl; eauto; [by rewrite app_nil_r | done].
  - destruct Hmk as [Hd Hf _ [ps Ht]]. exists (DescriptorPartial acc), ps.
    pose proof (written_out_dir _ _ _ _ dirname_json_path Hwr) as Hout.
    destruct Hwr as [_ Hd' _ Hf' Ht'].
    split; simpl; try done.
    + by rewrite Hf', Hf.
    + by rewrite Ht', Ht, <- app_assoc.
    + by rewrite Hd'.
  - destruct Hmk as [Hd Hf _ [ps Ht]].
    pose proof (written_out_dir _ _ _ _ dirname_json_path Hwr) as Hout.
    destruct Hwr as [_ Hd2 _ Hf2 Ht2].
    destruct Hblob as [e w' Hs | acc w3 w' Hs Hshort Hwb | r w3 w4 w' Hs Hwb Hs'].
    + destruct Hs as [Hd3 Hf3 Ht3]. exists DescriptorOnly, ps.
      split; simpl; eauto.
      * by rewrite Hf3, Hf2, Hf.
      * by rewrite Ht3, Ht2, Ht, <- app_assoc.
      * rewrite Hd3, Hd2. done.
      * intros _. by rewrite Hd3.
    + destruct Hs as [Hd3 Hf3 Ht3]. destruct Hwb as [_ Hd4 _ Hf4 Ht4].
      exists (BlobPartial acc), ps. split; simpl; try done.
      * by rewrite Hf4, Hf3, Hf2, Hf.
      * rewrite Ht4, Ht3, Ht2, Ht. by rewrite <- !app_assoc.
      * rewrite Hd4, Hd3, Hd2. done.
      * intros _. by rewrite Hd4, Hd3.
    + destruct Hs as [Hd3 Hf3 Ht3]. destruct Hwb as [_ Hd4 _ Hf4 Ht4].
      destruct Hs' as [Hd5 Hf5 Ht5].
      exists Complete, ps. split; simpl; try done.
      * by rewrite Hf5, Hf4, Hf3, Hf2, Hf.
      * rewrite Ht5, Ht4, Ht3, Ht2, Ht. by rewrite <- !app_assoc.
      * rewrite Hd5, Hd4, Hd3, Hd2. done.
      * intros _. by rewrite Hd5, Hd4, Hd3.
Qed.

(** Every run of either script got to one of the five stages, and its
    effect on the file system is the one of that stage. *)
Lemma run_progress P E w :
  ∃ pr ps,
    progressed (descriptor P) (blob P E (rng_pos w)) w (run P E w).1 (run P E w).2 pr ps.
Proof. apply run_shape_progress, run_has_shape. Qed.

(** A run that returns has written both files completely. *)
Lemma run_complete P E w :
  (run P E w).1 = Ok tt ->
  ∃ ps, progressed (descriptor P) (blob P E (rng_pos w)) w (Ok tt) (run P E w).2 Complete ps.
Proof.
  intros Hok. destruct (run_progress P E w) as (pr & ps & Hpg).
  rewrite Hok in Hpg. exists ps.
  destruct pr; try done; destruct Hpg as [_ Hres _ _ _ _]; simpl in Hres;
    try discriminate; by destruct Hres.
Qed.

(** ** The size of the weight file *)

Lemma length_le_bytes n z : length (le_bytes n z) = n.
Proof. revert z. induction n as [|n IH]; intros z; simpl; [done | by rewrite IH]. Qed.

Lemma length_element_bytes bo d x : length (element_bytes bo d x) = itemsize d.
Proof.
  unfold element_bytes. destruct bo; [|rewrite length_rev]; apply length_le_bytes.
Qed.

Lemma length_concat_map {A} (f : A -> list Byte.byte) n (l : list A) :
  (∀ x, length (f x) = n) -> length (concat (map f l)) = n * length l.
Proof.
  intros Hf. induction l as [|x l IH]; simpl; [lia|].
  rewrite length_app, Hf, IH. lia.
Qed.

Lemma length_next_draws E pos n : length (next_draws E pos n) = n.
Proof. unfold next_draws. by rewrite length_map, length_seq. Qed.

Lemma length_dummy_tensor E pos dims :
  length (nd_data (dummy_tensor E pos dims)) = element_count dims.
Proof.
  unfold dummy_tensor, mul_scalar, astype. cbn [nd_data].
  by rewrite !length_map, length_next_draws.
Qed.

Lemma element_count_conv_kernel : Z.of_nat (element_count conv_kernel_shape) = 288%Z.
Proof. unfold element_count. rewrite Z2Nat.id; [reflexivity | by compute]. Qed.

Lemma element_count_conv_bias : Z.of_nat (element_count conv_bias_shape) = 32%Z.
Proof. unfold element_count. rewrite Z2Nat.id; [reflexivity | by compute]. Qed.

Lemma element_count_dense_kernel : Z.of_nat (element_count dense_kernel_shape) = 59904%Z.
Proof. unfold element_count. rewrite Z2Nat.id; [reflexivity | by compute]. Qed.

Lemma element_count_dense_bias : Z.of_nat (element_count dense_bias_shape) = 52%Z.
Proof. unfold element_count. rewrite Z2Nat.id; [reflexivity | by compute]. Qed.

Lemma nd_data_flatten a : nd_data (flatten a) = nd_data a.
Proof. reflexivity. Qed.

(** The elements of the weight file, spelled out. *)
Lemma weight_elements_eq E pos :
  weight_elements E pos =
    nd_data (flatten (dummy_tensor E pos conv_kernel_shape))
    ++ nd_data (flatten (dummy_tensor E
         (pos + N.of_nat (element_count conv_kernel_shape))%N conv_bias_shape))
    ++ nd_data (flatten (dummy_tensor E
         (pos + N.of_nat (element_count conv_kernel_shape)
              + N.of_nat (element_count conv_bias_shape))%N dense_kernel_shape))
    ++ nd_data (flatten (dummy_tensor E
         (pos + N.of_nat (element_count conv_kernel_shape)
              + N.of_nat (element_count conv_bias_shape)
              + N.of_nat (element_count dense_kernel_shape))%N dense_bias_shape)).
Proof. reflexivity. Qed.

Lemma length_weight_elements E pos :
  Z.of_nat (length (weight_elements E pos)) = 60276%Z.
Proof.
  rewrite weight_elements_eq, !nd_data_flatten.
  rewrite !length_app, !length_dummy_tensor, !Nat2Z.inj_add.
  rewrite element_count_conv_kernel, element_count_conv_bias,
    element_count_dense_kernel, element_count_dense_bias.
  reflexivity.
Qed.

Lemma length_weight_blob E pos : Z.of_nat (length (weight_blob E pos)) = 241104%Z.
Proof.
  unfold weight_blob.
  rewrite (length_concat_map _ 4) by (intros x; apply length_element_bytes).
  rewrite Nat2Z.inj_mul, length_weight_elements. reflexivity.
Qed.

(** The two files of a run that returned. *)
Lemma run_files P E w :
  (run P E w).1 = Ok tt ->
  files (run P E w).2 !! json_path = Some (descriptor P) ∧
  files (run P E w).2 !! bin_path = Some (blob P E (rng_pos w)).
Proof.
  intros Hok. destruct (run_complete P E w Hok) as [ps Hpg].
  rewrite (pg_files _ _ _ _ _ _ _ Hpg). simpl. split.
  - rewrite lookup_insert_ne by (symmetry; apply json_path_neq_bin_path).
    apply lookup_insert_eq.
  - apply lookup_insert_eq.
Qed.

Lemma create_tfjs_model_files E w :
  (create_tfjs_model E w).1 = Ok tt ->
  files (create_tfjs_model E w).2 !! json_path = Some (descriptor ProcedureB) ∧
  files (create_tfjs_model E w).2 !! bin_path = Some (weight_blob E (rng_pos w)).
Proof. exact (run_files ProcedureB E w). Qed.

Lemma convert_tflite_to_tfjs_files E w :
  (convert_tflite_to_tfjs E w).1 = Ok tt ->
  files (convert_tflite_to_tfjs E w).2 !! json_path = Some (descriptor ProcedureA) ∧
  files (convert_tflite_to_tfjs E w).2 !! bin_path = Some [].
Proof. exact (run_files ProcedureA E w). Qed.

(** The sample host runs both scripts to the end. *)
Lemma sample_run_A : (convert_tflite_to_tfjs (Sample.host little) Sample.fresh).1 = Ok tt.
Proof. reflexivity. Qed.

Lemma sample_run_B bo : (create_tfjs_model (Sample.host bo) Sample.fresh).1 = Ok tt.
Proof. destruct bo; reflexivity. Qed.

(** ** C1: byte length of the weight file *)

(** C1 (amended).  When Procedure B returns, the weight file
    [group1-shard1of1.bin] holds exactly
    4 * (3*3*1*32 + 32 + 1152*52 + 52) = 4 * 60276 = 241104 bytes. *)
Theorem weight_file_length E w :
  (create_tfjs_model E w).1 = Ok tt ->
  ∃ content,
    files (create_tfjs_model E w).2 !! bin_path = Some content ∧
    Z.of_nat (length content) = (4 * (3 * 3 * 1 * 32 + 32 + 1152 * 52 + 52))%Z ∧
    Z.of_nat (length content) = (4 * 60276)%Z ∧
    Z.of_nat (length content) = 241104%Z.
Proof.
  intros Hok. destruct (create_tfjs_model_files E w Hok) as [_ Hbin].
  exists (weight_blob E (rng_pos w)). split; [exact Hbin|].
  rewrite length_weight_blob. by repeat split.
Qed.

Lemma weight_file_length_witness :
  ∃ content,
    files (create_tfjs_model (Sample.host little) Sample.fresh).2 !! bin_path = Some content ∧
    Z.of_nat (length content) = (4 * (3 * 3 * 1 * 32 + 32 + 1152 * 52 + 52))%Z ∧
    Z.of_nat (length content) = (4 * 60276)%Z ∧
    Z.of_nat (length content) = 241104%Z.
Proof.
  apply (weight_file_length (Sample.host little) Sample.fresh).
  exact (sample_run_B little).
Defined.

(** On the sample host Procedure B returns, and its weight file is not
    240272 bytes long. *)
Lemma weight_file_length_not_240272 :
  (create_tfjs_model (Sample.host little) Sample.fresh).1 = Ok tt ∧
  ∃ content,
    files (create_tfjs_model (Sample.host little) Sample.fresh).2 !! bin_path = Some content ∧
    Z.of_nat (length content) ≠ 240272%Z.
Proof.
  split; [apply sample_run_B|].
  destruct (create_tfjs_model_files (Sample.host little) Sample.fresh (sample_run_B little))
    as [_ Hbin].
  eexists. split; [exact Hbin|].
  rewrite length_weight_blob. discriminate.
Qed.

(** ** Reading the descriptors back *)

(** The text [json.dump] writes is read back as the object that was
    dumped. *)
Lemma read_descriptor P : read_json (descriptor P) = Some (model_json P).
Proof. destruct P; vm_compute; reflexivity. Qed.

Lemma manifest_shapes_B :
  manifest_shapes ProcB.model_json =
    Some [conv_kernel_shape; conv_bias_shape; dense_kernel_shape; dense_bias_shape].
Proof. reflexivity. Qed.

Lemma manifest_element_count_B : manifest_element_count ProcB.model_json = Some 60276%Z.
Proof. reflexivity. Qed.

(** ** C2: the manifest and the weight file agree *)

(** C2.  When Procedure B returns, [model.json] reads back as a
    descriptor whose manifest lists four weight entries, and the number
    of elements in the weight file equals the sum over these entries of
    the product of the declared dimensions; the file holds four bytes
    per element. *)
Theorem manifest_matches_blob E w :
  (create_tfjs_model E w).1 = Ok tt ->
  ∃ text j entries elements n,
    files (create_tfjs_model E w).2 !! json_path = Some text ∧
    read_json text = Some j ∧
    manifest_weights j = Some entries ∧ length entries = 4 ∧
    manifest_element_count j = Some n ∧
    files (create_tfjs_model E w).2 !! bin_path =
      Some (concat (map (element_bytes (sys_byteorder E) float32) elements)) ∧
    Z.of_nat (length elements) = n ∧
    Z.of_nat (length (concat (map (element_bytes (sys_byteorder E) float32) elements)))
      = (4 * n)%Z.
Proof.
  intros Hok. destruct (create_tfjs_model_files E w Hok) as [Hjson Hbin].
  exists (descriptor ProcedureB), ProcB.model_json.
  eexists. exists (weight_elements E (rng_pos w)), 60276%Z.
  split; [exact Hjson|]. split; [apply (read_descriptor ProcedureB)|].
  split; [reflexivity|]. split; [reflexivity|].
  split; [apply manifest_element_count_B|]. split; [exact Hbin|].
  split; [apply length_weight_elements|]. apply length_weight_blob.
Qed.

Lemma manifest_matches_blob_witness :
  ∃ text j entries elements n,
    files (create_tfjs_model (Sample.host little) Sample.fresh).2 !! json_path = Some text ∧
    read_json text = Some j ∧
    manifest_weights j = Some entries ∧ length entries = 4 ∧
    manifest_element_count j = Some n ∧
    files (create_tfjs_model (Sample.host little) Sample.fresh).2 !! bin_path =
      Some (concat (map (element_bytes little float32) elements)) ∧
    Z.of_nat (length elements) = n ∧
    Z.of_nat (length (concat (map (element_bytes little float32) elements))) = (4 * n)%Z.
Proof.
  apply (manifest_matches_blob (Sample.host little) Sample.fresh).
  exact (sample_run_B little).
Defined.

(** ** C3: the manifest lists the tensors in generation order *)

Lemma generate_weights_result E w :
  (generate_weights E w).1 =
    Ok (dummy_tensor E (rng_pos w) conv_kernel_shape,
        dummy_tensor E (rng_pos w + N.of_nat (element_count conv_kernel_shape))%N
          conv_bias_shape,
        dummy_tensor E (rng_pos w + N.of_nat (element_count conv_kernel_shape)
                        + N.of_nat (element_count conv_bias_shape))%N dense_kernel_shape,
        dummy_tensor E (rng_pos w + N.of_nat (element_count conv_kernel_shape)
                        + N.of_nat (element_count conv_bias_shape)
                        + N.of_nat (element_count dense_kernel_shape))%N dense_bias_shape).
Proof. rewrite generate_weights_run. reflexivity. Qed.



(** ** C5: the output of Procedure A *)

(** C5.  When Procedure A returns, [model.json] reads back as a JSON
    object whose [modelTopology.node] is the empty list and whose
    [weightsManifest] has a single entry with an empty [weights] list,
    and [group1-shard1of1.bin] is empty. *)
Theorem structure_only_output E w :
  (convert_tflite_to_tfjs E w).1 = Ok tt ->
  ∃ text j entry,
    files (convert_tflite_to_tfjs E w).2 !! json_path = Some text ∧
    read_json text = Some j ∧
    topology_nodes j = Some [] ∧
    Json.get "weightsManifest" j = Some (JList [entry]) ∧
    Json.get "weights" entry = Some (JList []) ∧
    files (convert_tflite_to_tfjs E w).2 !! bin_path = Some [] ∧
    length (@nil Byte.byte) = 0.
Proof.
  intros Hok. destruct (convert_tflite_to_tfjs_files E w Hok) as [Hjson Hbin].
  exists (descriptor ProcedureA), ProcA.model_json. eexists.
  split; [exact Hjson|]. split; [apply (read_descriptor ProcedureA)|].
  split; [reflexivity|]. split; [reflexivity|]. split; [reflexivity|].
  split; [exact Hbin | reflexivity].
Qed.

Lemma structure_only_output_witness :
  ∃ text j entry,
    files (convert_tflite_to_tfjs (Sample.host little) Sample.fresh).2 !! json_path
      = Some text ∧
    read_json text = Some j ∧
    topology_nodes j = Some [] ∧
    Json.get "weightsManifest" j = Some (JList [entry]) ∧
    Json.get "weights" entry = Some (JList []) ∧
    files (convert_tflite_to_tfjs (Sample.host little) Sample.fresh).2 !! bin_path
      = Some [] ∧
    length (@nil Byte.byte) = 0.
Proof.
  apply (structure_only_output (Sample.host little) Sample.fresh). reflexivity.
Defined.

(** ** C6: the two nodes of Procedure B and the dangling reference *)

(** C6.  When Procedure B returns, [modelTopology.node] of [model.json]
    holds exactly two nodes, a [Placeholder] named [input] and an
    [Identity] named [output]; the input list of the latter is
    [dense/BiasAdd], which is the name of no node of the sequence. *)
Theorem placeholder_graph E w :
  (create_tfjs_model E w).1 = Ok tt ->
  ∃ text j n_in n_out,
    files (create_tfjs_model E w).2 !! json_path = Some text ∧
    read_json text = Some j ∧
    topology_nodes j = Some [n_in; n_out] ∧
    node_name n_in = Some "input" ∧ node_op n_in = Some "Placeholder" ∧
    node_name n_out = Some "output" ∧ node_op n_out = Some "Identity" ∧
    node_inputs n_out = Some ["dense/BiasAdd"] ∧
    ∀ n, n ∈ [n_in; n_out] -> node_name n ≠ Some "dense/BiasAdd".
Proof.
  intros Hok. destruct (create_tfjs_model_files E w Hok) as [Hjson _].
  exists (descriptor ProcedureB), ProcB.model_json. do 2 eexists.
  split; [exact Hjson|]. split; [apply (read_descriptor ProcedureB)|].
  split; [reflexivity|]. do 5 (split; [reflexivity|]).
  intros n Hn. apply elem_of_cons in Hn as [->|Hn]; [discriminate|].
  apply elem_of_cons in Hn as [->|Hn]; [discriminate|].
  by apply elem_of_nil in Hn.
Qed.

Lemma placeholder_graph_witness :
  ∃ text j n_in n_out,
    files (create_tfjs_model (Sample.host little) Sample.fresh).2 !! json_path = Some text ∧
    read_json text = Some j ∧
    topology_nodes j = Some [n_in; n_out] ∧
    node_name n_in = Some "input" ∧ node_op n_in = Some "Placeholder" ∧
    node_name n_out = Some "output" ∧ node_op n_out = Some "Identity" ∧
    node_inputs n_out = Some ["dense/BiasAdd"] ∧
    ∀ n, n ∈ [n_in; n_out] -> node_name n ≠ Some "dense/BiasAdd".
Proof.
  apply (placeholder_graph (Sample.host little) Sample.fresh).
  exact (sample_run_B little).
Defined.

(** ** C4: the contents of the weight file *)

Lemma scaled_eq x :
  SFmul (prec float32) (emax float32) (convert float64 float32 x) (cast float32 py_0_1)
  = scaled x.
Proof. reflexivity. Qed.

(** Each element of a generated tensor is its own draw, scaled. *)
Lemma nd_data_dummy_tensor E pos dims :
  nd_data (dummy_tensor E pos dims) = map scaled (next_draws E pos (element_count dims)).
Proof.
  unfold dummy_tensor, mul_scalar, astype. cbn [nd_data nd_dtype].
  rewrite map_map. apply map_ext. intros x. apply scaled_eq.
Qed.

Lemma next_draws_app E pos n m :
  next_draws E pos n ++ next_draws E (pos + N.of_nat n) m = next_draws E pos (n + m).
Proof.
  unfold next_draws. rewrite seq_app, map_app. f_equal.
  rewrite (Nat.add_comm 0 n), <- (fmap_add_seq n 0 m).
  change (Nat.add n <$> seq 0 m) with (map (Nat.add n) (seq 0 m)).
  rewrite map_map. apply map_ext. intros i. f_equal. lia.
Qed.

Lemma next_draws_lookup E pos n k :
  k < n -> next_draws E pos n !! k = Some (draws E (pos + N.of_nat k)).
Proof.
  intros Hk. unfold next_draws.
  change (map ?f ?l) with (f <$> l). rewrite list_lookup_fmap.
  rewrite lookup_seq_lt by done. reflexivity.
Qed.

(** The elements of the weight file are the next 60276 draws of the
    generator, in the order drawn, each scaled. *)
Lemma weight_elements_draws E pos :
  weight_elements E pos =
    map scaled (next_draws E pos
      (element_count conv_kernel_shape
       + (element_count conv_bias_shape
          + (element_count dense_kernel_shape + element_count dense_bias_shape)))).
Proof.
  rewrite weight_elements_eq, !nd_data_flatten, !nd_data_dummy_tensor.
  rewrite <- !map_app. f_equal.
  by rewrite !next_draws_app.
Qed.

Lemma weight_elements_lookup E pos k :
  (Z.of_nat k < 60276)%Z ->
  weight_elements E pos !! k = Some (scaled (draws E (pos + N.of_nat k))).
Proof.
  intros Hk. rewrite weight_elements_draws.
  change (map ?f ?l) with (f <$> l). rewrite list_lookup_fmap.
  rewrite next_draws_lookup; [reflexivity|].
  pose proof element_count_conv_kernel. pose proof element_count_conv_bias.
  pose proof element_count_dense_kernel. pose proof element_count_dense_bias.
  lia.
Qed.

(** Row-major positions stay within the array. *)
Lemma ravel_bounds dims : ∀ idx acc,
  index_ok dims idx = true -> (0 <= acc)%Z ->
  (acc * shape_size dims <= ravel dims idx acc < (acc + 1) * shape_size dims)%Z.
Proof.
  induction dims as [|d dims IH]; intros [|i idx] acc Hok Hacc; simpl in *;
    try discriminate; [lia|].
  apply andb_true_iff in Hok as [Hi Hok]. apply andb_true_iff in Hi as [Hi0 Hid].
  apply Z.leb_le in Hi0. apply Z.ltb_lt in Hid.
  specialize (IH idx (acc * d + i)%Z Hok ltac:(nia)).
  assert (0 <= shape_size dims)%Z by nia.
  nia.
Qed.

(** The flattening of a generated tensor holds the element of every
    in-range multi-index at its row-major position. *)
Lemma flatten_row_major E pos dims idx :
  index_ok dims idx = true ->
  nd_data (flatten (dummy_tensor E pos dims)) !! Z.to_nat (ravel dims idx 0)
  = Some (getitem (dummy_tensor E pos dims) idx).
Proof.
  intros Hok. rewrite nd_data_flatten. unfold getitem.
  rewrite dummy_tensor_shape.
  pose proof (ravel_bounds dims idx 0%Z Hok ltac:(lia)) as Hb.
  assert (Z.to_nat (ravel dims idx 0) < length (nd_data (dummy_tensor E pos dims))) as Hlt.
  { rewrite length_dummy_tensor. unfold element_count. lia. }
  apply lookup_lt_is_Some_2 in Hlt as [x Hx].
  rewrite Hx. f_equal. symmetry. by apply nth_lookup_Some.
Qed.

(** *** Every element is a float32, and its four bytes decode to it *)

(** The number of bits of a positive number. *)
Lemma digits2_pos_bounds p :
  (2 ^ (Z.pos (digits2_pos p) - 1) <= Z.pos p < 2 ^ Z.pos (digits2_pos p))%Z.
Proof.
  induction p as [p IH|p IH|]; cbn [digits2_pos].
  - rewrite Pos2Z.inj_succ, Pos2Z.inj_xI.
    replace (Z.succ (Z.pos (digits2_pos p)) - 1)%Z with (Z.succ (Z.pos (digits2_pos p) - 1))%Z by lia.
    rewrite !Z.pow_succ_r by lia.
    generalize dependent (2 ^ (Z.pos (digits2_pos p) - 1))%Z.
    generalize (2 ^ Z.pos (digits2_pos p))%Z. intros; lia.
  - rewrite Pos2Z.inj_succ. change (Z.pos p~0) with (2 * Z.pos p)%Z.
    replace (Z.succ (Z.pos (digits2_pos p)) - 1)%Z with (Z.succ (Z.pos (digits2_pos p) - 1))%Z by lia.
    rewrite !Z.pow_succ_r by lia.
    generalize dependent (2 ^ (Z.pos (digits2_pos p) - 1))%Z.
    generalize (2 ^ Z.pos (digits2_pos p))%Z. intros; lia.
  - simpl. lia.
Qed.

Lemma digits2_pos_le p k : (Z.pos p < 2 ^ k)%Z -> (Z.pos (digits2_pos p) <= k)%Z.
Proof.
  intros H. pose proof (digits2_pos_bounds p) as [Hlo _].
  destruct (Z.le_gt_cases (Z.pos (digits2_pos p)) k) as [|Hgt]; [done|].
  assert (2 ^ k <= 2 ^ (Z.pos (digits2_pos p) - 1))%Z by (apply Z.pow_le_mono_r; lia).
  lia.
Qed.

Lemma digits2_pos_ge p k : (0 <= k)%Z -> (2 ^ k <= Z.pos p)%Z -> (k + 1 <= Z.pos (digits2_pos p))%Z.
Proof.
  intros Hk H. pose proof (digits2_pos_bounds p) as [_ Hhi].
  destruct (Z.le_gt_cases (k + 1) (Z.pos (digits2_pos p))) as [|Hgt]; [done|].
  assert (2 ^ Z.pos (digits2_pos p) <= 2 ^ k)%Z by (apply Z.pow_le_mono_r; lia).
  lia.
Qed.

(** Shifting right is division by a power of two. *)
Lemma shr_1_m mrs : (0 <= shr_m mrs)%Z -> shr_m (shr_1 mrs) = (shr_m mrs / 2)%Z.
Proof.
  destruct mrs as [m r s]. cbn [shr_m shr_1]. intros Hm.
  destruct m as [|[p|p|]|p]; cbn [shr_m]; try lia; try reflexivity.
  - apply (Z.div_unique _ 2 _ 1); lia.
  - apply (Z.div_unique _ 2 _ 0); lia.
Qed.

Lemma iter_pos_shr_1 n : ∀ mrs,
  (0 <= shr_m mrs)%Z ->
  shr_m (SpecFloat.iter_pos shr_1 n mrs) = (shr_m mrs / 2 ^ Z.pos n)%Z.
Proof.
  induction n as [n IH|n IH|]; intros mrs Hm; cbn [SpecFloat.iter_pos].
  - assert (0 <= shr_m (shr_1 mrs))%Z as H1 by (rewrite shr_1_m by done; by apply Z.div_pos).
    assert (0 <= shr_m (SpecFloat.iter_pos shr_1 n (shr_1 mrs)))%Z as H2
      by (rewrite IH by done; apply Z.div_pos; lia).
    rewrite IH, IH, shr_1_m by done.
    rewrite !Z.div_div by lia. f_equal.
    replace (Z.pos n~1) with (Z.pos n + Z.pos n + 1)%Z by lia.
    rewrite !Z.pow_add_r, Z.pow_1_r by lia. ring.
  - assert (0 <= shr_m (SpecFloat.iter_pos shr_1 n mrs))%Z as H2
      by (rewrite IH by done; apply Z.div_pos; lia).
    rewrite IH, IH by done.
    rewrite !Z.div_div by lia. f_equal.
    replace (Z.pos n~0) with (Z.pos n + Z.pos n)%Z by lia.
    rewrite !Z.pow_add_r by lia. ring.
  - rewrite shr_1_m by done. reflexivity.
Qed.

Lemma shr_m_of_loc m l : shr_m (shr_record_of_loc m l) = m.
Proof. by destruct l as [|[]]. Qed.

(** [shr_fexp] divides the mantissa by the power of two that brings the
    exponent up to [fexp]. *)
Lemma shr_fexp_spec m e l :
  (0 <= m)%Z ->
  (shr_fexp 24 128 m e l).2
    = (e + Z.max (fexp 24 128 (Zdigits2 m + e) - e) 0)%Z ∧
  shr_m (shr_fexp 24 128 m e l).1
    = (m / 2 ^ Z.max (fexp 24 128 (Zdigits2 m + e) - e) 0)%Z.
Proof.
  intros Hm. unfold shr_fexp, shr.
  destruct (fexp 24 128 (Zdigits2 m + e) - e)%Z as [|p|p]; cbn [fst snd].
  - rewrite shr_m_of_loc. simpl. rewrite Z.div_1_r. split; lia.
  - rewrite iter_pos_shr_1 by (by rewrite shr_m_of_loc). rewrite shr_m_of_loc.
    by rewrite Z.max_l by lia.
  - rewrite shr_m_of_loc. rewrite Z.max_r by lia. simpl. rewrite Z.div_1_r. split; lia.
Qed.

Lemma round_nearest_even_cases m l :
  round_nearest_even m l = m ∨ round_nearest_even m l = (m + 1)%Z.
Proof. destruct l as [|[]]; simpl; try destruct (Z.even m); auto. Qed.

Lemma fexp_float32 x : fexp 24 128 x = Z.max (x - 24) (-149).
Proof. reflexivity. Qed.

(** Rounding a mantissa of at least 24 bits yields a float32. *)
Lemma binary_round_aux_valid s m e l :
  (2 ^ 23 <= Z.pos m)%Z ->
  valid_binary 24 128 (binary_round_aux 24 128 s (Z.pos m) e l) = true.
Proof.
  intros Hm. unfold binary_round_aux.
  pose proof (shr_fexp_spec (Z.pos m) e l ltac:(lia)) as [He1 Hm1].
  destruct (shr_fexp 24 128 (Z.pos m) e l) as [mrs1 e1]. cbn [fst snd] in He1, Hm1.
  set (m1 := shr_m mrs1) in *.
  cbn [Zdigits2] in He1, Hm1. rewrite fexp_float32 in He1, Hm1.
  pose proof (digits2_pos_bounds m) as [Hlo Hhi].
  pose proof (digits2_pos_ge m 23 ltac:(lia) Hm) as Hd.
  set (d := Z.pos (digits2_pos m)) in *.
  assert (Z.max (Z.max (d + e - 24) (-149) - e) 0 = e1 - e)%Z as Hn by lia.
  rewrite Hn in Hm1.
  assert (e1 = Z.max (d + e - 24) (-149))%Z as He1' by lia.
  assert (0 <= e1 - e)%Z as Hn0 by lia.
  assert (0 < 2 ^ (e1 - e))%Z as Hpow by (apply Z.pow_pos_nonneg; lia).
  assert (0 <= m1 < 2 ^ 24)%Z as Hm1b.
  { rewrite Hm1. split; [apply Z.div_pos; lia|].
    apply Z.div_lt_upper_bound; [done|].
    rewrite <- Z.pow_add_r by lia.
    assert (2 ^ d <= 2 ^ (e1 - e + 24))%Z by (apply Z.pow_le_mono_r; lia). lia. }
  assert ((-149 < e1)%Z -> (2 ^ 23 <= m1)%Z) as Hnormal.
  { intros Hgt. rewrite Hm1. apply Z.div_le_lower_bound; [done|].
    rewrite <- Z.pow_add_r by lia.
    replace (e1 - e + 23)%Z with (d - 1)%Z by lia. done. }
  clearbody m1. clear Hm1 Hlo Hhi Hn Hpow.
  set (l1 := loc_of_shr_record mrs1). clearbody l1.
  pose proof (round_nearest_even_cases m1 l1) as Hround.
  set (m2 := round_nearest_even m1 l1) in *. clearbody m2.
  assert (0 <= m2 <= 2 ^ 24)%Z as Hm2b by lia.
  assert ((-149 < e1)%Z -> (2 ^ 23 <= m2)%Z) as Hnormal2 by (intros H; specialize (Hnormal H); lia).
  pose proof (shr_fexp_spec m2 e1 loc_Exact ltac:(lia)) as [He2 Hm3].
  destruct (shr_fexp 24 128 m2 e1 loc_Exact) as [mrs2 e2]. cbn [fst snd] in He2, Hm3.
  rewrite fexp_float32 in He2, Hm3.
  destruct m2 as [|p2|p2]; [| |lia].
  - cbn [Zdigits2] in He2, Hm3. rewrite Z.max_r in Hm3 by lia.
    rewrite Hm3. reflexivity.
  - cbn [Zdigits2] in He2, Hm3.
    set (d2 := Z.pos (digits2_pos p2)) in *.
    destruct (Z.lt_ge_cases (Z.pos p2) (2 ^ 24)) as [Hlt|Hge].
    + assert (d2 <= 24)%Z as Hd2 by (by apply digits2_pos_le).
      assert (-149 < e1 -> 24 <= d2)%Z as Hd2'.
      { intros H. apply (digits2_pos_ge p2 23); [lia | by apply Hnormal2]. }
      assert (Z.max (d2 + e1 - 24) (-149) = e1)%Z as Hcanon by lia.
      rewrite Hcanon, Z.sub_diag in He2, Hm3. simpl in Hm3. rewrite Z.div_1_r in Hm3.
      rewrite Hm3. replace e2 with e1 by lia.
      destruct (Z.leb_spec e1 (128 - 24)) as [Hle|Hgt]; [|reflexivity].
      cbn [valid_binary]. unfold bounded, canonical_mantissa.
      rewrite fexp_float32. fold d2. rewrite Hcanon, Z.eqb_refl. simpl.
      by apply Z.leb_le.
    + assert (Z.pos p2 = 2 ^ 24)%Z as Hp2 by lia.
      change (2 ^ 24)%Z with (Z.pos 16777216) in Hp2. injection Hp2 as ->.
      subst d2. change (Z.pos (digits2_pos 16777216)) with 25%Z in He2, Hm3.
      replace (Z.max (Z.max (25 + e1 - 24) (-149) - e1) 0)%Z with 1%Z in He2, Hm3 by lia.
      change (Z.pos 16777216 / 2 ^ 1)%Z with (Z.pos 8388608) in Hm3.
      rewrite Hm3.
      destruct (Z.leb_spec e2 (128 - 24)) as [Hle|Hgt]; [|reflexivity].
      cbn [valid_binary]. unfold bounded, canonical_mantissa.
      rewrite fexp_float32. change (Z.pos (digits2_pos 8388608)) with 24%Z.
      apply andb_true_iff. split; [apply Z.eqb_eq; lia | apply Z.leb_le; lia].
Qed.

(** Every element of the weight file is a float32. *)
Lemma scaled_valid x : valid_binary 24 128 (scaled x) = true.
Proof.
  unfold scaled. destruct (cast float32 x) as [s|s| |s m e]; try reflexivity.
  cbn [SFmul]. apply binary_round_aux_valid. lia.
Qed.

Lemma byte_value_byte_of_Z z : byte_value (byte_of_Z z) = (z mod 256)%Z.
Proof.
  unfold byte_value, byte_of_Z.
  change 255%Z with (Z.ones 8). rewrite Z.land_ones by lia. change (2 ^ 8)%Z with 256%Z.
  pose proof (Z.mod_pos_bound z 256 ltac:(lia)) as Hb.
  set (n := Z.to_N (z mod 256)).
  assert (n < 256)%N as Hn by (subst n; lia).
  set (b := byte_of_ascii (ascii_of_N n)).
  assert (Byte.to_N b = n) as ->; [|subst n; lia].
  pose proof (ascii_of_byte_of_ascii (ascii_of_N n)) as H. fold b in H.
  rewrite ascii_of_byte_via_N in H.
  apply (f_equal N_of_ascii) in H.
  rewrite !N_ascii_embedding in H; [done | done |].
  pose proof (Byte.to_N_bounded b). lia.
Qed.

Lemma le_word_le_bytes z :
  (0 <= z < 2 ^ 32)%Z -> le_word (le_bytes 4 z) = z.
Proof.
  intros Hz. cbn [le_bytes le_word]. rewrite !byte_value_byte_of_Z.
  rewrite !Z.shiftr_div_pow2 by lia. change (2 ^ 8)%Z with 256%Z.
  change (2 ^ 32)%Z with 4294967296%Z in Hz.
  pose proof (Z.div_mod z 256 ltac:(lia)).
  pose proof (Z.div_mod (z / 256) 256 ltac:(lia)).
  pose proof (Z.div_mod (z / 256 / 256) 256 ltac:(lia)).
  pose proof (Z.div_mod (z / 256 / 256 / 256) 256 ltac:(lia)).
  pose proof (Z.mod_pos_bound z 256 ltac:(lia)).
  pose proof (Z.mod_pos_bound (z / 256) 256 ltac:(lia)).
  pose proof (Z.mod_pos_bound (z / 256 / 256) 256 ltac:(lia)).
  pose proof (Z.mod_pos_bound (z / 256 / 256 / 256) 256 ltac:(lia)).
  assert (z / 256 / 256 / 256 / 256 = 0)%Z as Hzero.
  { rewrite !Z.div_div by lia. apply Z.div_small. lia. }
  lia.
Qed.

Lemma land_high_low hi k lo :
  (0 <= k)%Z -> (0 <= lo < 2 ^ k)%Z -> Z.land (hi * 2 ^ k) lo = 0%Z.
Proof.
  intros Hk Hlo. apply Z.bits_inj'. intros n Hn.
  rewrite Z.land_spec, Z.bits_0.
  destruct (Z.lt_ge_cases n k) as [Hlt|Hge].
  - by rewrite Z.mul_pow2_bits_low.
  - rewrite <- (Z.mod_small lo (2 ^ k)) by done.
    rewrite Z.mod_pow2_bits_high by lia. apply andb_false_r.
Qed.

Lemma lor_high_low hi k lo :
  (0 <= k)%Z -> (0 <= lo < 2 ^ k)%Z -> Z.lor (hi * 2 ^ k) lo = (hi * 2 ^ k + lo)%Z.
Proof.
  intros Hk Hlo. rewrite <- Z.add_lor_land, land_high_low by done. lia.
Qed.

(** The three fields of a 32-bit word. *)
Lemma decode_fields (s : bool) (biased fraction : Z) :
  (0 <= biased < 256)%Z -> (0 <= fraction < 2 ^ 23)%Z ->
  let word := (Z.b2z s * 2 ^ 31 + biased * 2 ^ 23 + fraction)%Z in
  Z.testbit word 31 = s ∧
  Z.land (Z.shiftr word 23) 255 = biased ∧
  Z.land word (Z.ones 23) = fraction.
Proof.
  intros Hb Hf word.
  change (2 ^ 23)%Z with 8388608%Z in *.
  split; [|split].
  - apply (Z.testbit_unique _ _ _ (biased * 8388608 + fraction) 0).
    + change (2 ^ 31)%Z with 2147483648%Z. lia.
    + subst word. lia.
  - rewrite Z.shiftr_div_pow2 by lia. change 255%Z with (Z.ones 8).
    rewrite Z.land_ones by lia. change (2 ^ 8)%Z with 256%Z.
    change (2 ^ 23)%Z with 8388608%Z.
    assert (word / 8388608 = Z.b2z s * 256 + biased)%Z as ->.
    { symmetry. apply (Z.div_unique _ _ _ fraction); [lia|].
      subst word. change (2 ^ 31)%Z with 2147483648%Z. lia. }
    symmetry. apply (Z.mod_unique _ _ (Z.b2z s)); lia.
  - rewrite Z.land_ones by lia. change (2 ^ 23)%Z with 8388608%Z.
    symmetry. apply (Z.mod_unique _ _ (Z.b2z s * 256 + biased)); [lia|].
    subst word. change (2 ^ 31)%Z with 2147483648%Z. lia.
Qed.

Lemma bits_of_float32_finite s m e :
  bits_of float32 (S754_finite s m e) =
    if (Z.pos m <? 2 ^ 23)%Z
    then Z.lor (Z.b2z s * 2 ^ 31) (Z.pos m)
    else Z.lor (Z.b2z s * 2 ^ 31) (Z.lor ((e + 150) * 2 ^ 23) (Z.pos m - 2 ^ 23)).
Proof.
  unfold bits_of. change (prec float32 - 1)%Z with 23%Z.
  change (exponent_bits float32) with 8%Z. lazy zeta beta.
  change (emin (prec float32) (emax float32)) with (-149)%Z.
  change (Z.shiftl 1 23) with (2 ^ 23)%Z.
  rewrite (Z.shiftl_mul_pow2 (e - -149 + 1)) by lia.
  replace (e - -149 + 1)%Z with (e + 150)%Z by lia.
  by destruct s.
Qed.

(** Decoding the encoding of a float32 gives the float32 back. *)
Lemma decode_bits_of x :
  valid_binary 24 128 x = true ->
  decode_binary32 (bits_of float32 x) = x ∧ (0 <= bits_of float32 x < 2 ^ 32)%Z.
Proof.
  destruct x as [s|s| |s m e]; intros Hvalid.
  - by destruct s.
  - by destruct s.
  - done.
  - cbn [valid_binary] in Hvalid. unfold bounded, canonical_mantissa in Hvalid.
    apply andb_true_iff in Hvalid as [Hcanon Hle].
    apply Z.eqb_eq in Hcanon. apply Z.leb_le in Hle. rewrite fexp_float32 in Hcanon.
    pose proof (digits2_pos_bounds m) as [Hlo Hhi].
    set (d := Z.pos (digits2_pos m)) in *.
    assert (d <= 24)%Z as Hd by lia.
    assert (Z.pos m < 2 ^ 24)%Z as Hm24.
    { assert (2 ^ d <= 2 ^ 24)%Z by (apply Z.pow_le_mono_r; lia). lia. }
    rewrite bits_of_float32_finite.
    change (2 ^ 24)%Z with 16777216%Z in *. change (2 ^ 32)%Z with 4294967296%Z.
    destruct (Z.ltb_spec (Z.pos m) (2 ^ 23)) as [Hsub|Hnorm].
    + assert (e = -149)%Z as ->.
      { destruct (Z.eq_dec d 24%Z) as [Heq|Hne]; [|lia].
        rewrite Heq in Hlo. change (2 ^ (24 - 1))%Z with (2 ^ 23)%Z in Hlo. lia. }
      rewrite (lor_high_low _ 31) by (change (2 ^ 31)%Z with 2147483648%Z;
                                      change (2 ^ 23)%Z with 8388608%Z in Hsub; lia).
      destruct (decode_fields s 0 (Z.pos m) ltac:(lia) ltac:(lia)) as (Hs & Hb & Hf).
      change (0 * 2 ^ 23)%Z with 0%Z in *. rewrite Z.add_0_r in Hs, Hb, Hf.
      split.
      * unfold decode_binary32. lazy zeta. rewrite Hs, Hb, Hf. reflexivity.
      * change (2 ^ 31)%Z with 2147483648%Z. change (2 ^ 23)%Z with 8388608%Z in Hsub.
        destruct s; simpl Z.b2z; lia.
    + assert (d = 24)%Z as Hd24.
      { apply Z.le_antisymm; [done|]. apply (digits2_pos_ge m 23); [lia | done]. }
      assert (-149 <= e)%Z as He by lia.
      change (2 ^ 23)%Z with 8388608%Z in *.
      rewrite (lor_high_low (e + 150) 23) by (change (2 ^ 23)%Z with 8388608%Z; lia).
      change (2 ^ 23)%Z with 8388608%Z.
      rewrite (lor_high_low _ 31)
        by (change (2 ^ 31)%Z with 2147483648%Z; lia).
      destruct (decode_fields s (e + 150) (Z.pos m - 8388608) ltac:(lia)
                  ltac:(change (2 ^ 23)%Z with 8388608%Z; lia)) as (Hs & Hb & Hf).
      change (2 ^ 23)%Z with 8388608%Z in *.
      rewrite Z.add_assoc.
      split.
      * unfold decode_binary32. lazy zeta. rewrite Hs, Hb, Hf.
        destruct (Z.eqb_spec (e + 150) 0) as [|_]; [lia|].
        destruct (Z.eqb_spec (e + 150) 255) as [|_]; [lia|].
        change (2 ^ 23)%Z with 8388608%Z.
        replace (8388608 + (Z.pos m - 8388608))%Z with (Z.pos m) by lia.
        f_equal. lia.
      * change (2 ^ 31)%Z with 2147483648%Z.
        destruct s; simpl Z.b2z; lia.
Qed.

Lemma read_float32_element_bytes bo x :
  valid_binary 24 128 x = true -> read_float32 bo (element_bytes bo float32 x) = x.
Proof.
  intros Hx. destruct (decode_bits_of x Hx) as [Hdec Hrange].
  unfold read_float32, element_bytes. change (itemsize float32) with 4.
  destruct bo; [|rewrite rev_involutive]; by rewrite le_word_le_bytes.
Qed.

(** The [k]-th piece of a concatenation of pieces of length [n]. *)
Lemma take_drop_concat_map {A} (f : A -> list Byte.byte) n (l : list A) : ∀ k x,
  (∀ y, length (f y) = n) ->
  l !! k = Some x ->
  take n (drop (n * k) (concat (map f l))) = f x.
Proof.
  induction l as [|y l IH]; intros k x Hf Hk; [done|].
  destruct k as [|k]; simpl in Hk.
  - inversion Hk; subst. rewrite Nat.mul_0_r. cbn [map concat]. rewrite drop_0.
    apply take_app_length'. by rewrite Hf.
  - cbn [map concat].
    replace (n * S k) with (length (f y) + n * k) by (rewrite Hf; lia).
    rewrite drop_app_add. by apply IH.
Qed.




(** ** C7: a model file that does not load *)

(** Loading is the first thing that touches the model file; when it
    fails the exception leaves the world as it was. *)
Lemma load_stage_fails E w {B} (k : interpreter -> M B) :
  load_fails E w = true ->
  ∃ e, (interp <- Interpreter E model_path ;; allocate_tensors interp ;; k interp) w
       = (Raise e, w).
Proof.
  unfold load_fails. intros Hfail.
  unfold Interpreter, allocate_tensors, bind, get_world, ret, raise. simpl.
  destruct (files w !! model_path) as [content|]; [|by eexists].
  destruct (tflite_runtime E content) as [i|]; [|by eexists].
  simpl. destruct (allocates i); [discriminate | by eexists].
Qed.

Lemma load_fails_mkdirs_only E w w' :
  mkdirs_only w w' -> load_fails E w' = load_fails E w.
Proof. intros Hmk. unfold load_fails. by rewrite (mk_files _ _ Hmk). Qed.

Lemma convert_tflite_to_tfjs_load_fails E w :
  load_fails E w = true ->
  ∃ e, convert_tflite_to_tfjs E w = (Raise e, w).
Proof. intros Hfail. unfold convert_tflite_to_tfjs. by apply load_stage_fails. Qed.

Lemma create_tfjs_model_load_fails E w :
  load_fails E w = true ->
  ∃ e w', create_tfjs_model E w = (Raise e, w') ∧ mkdirs_only w w'.
Proof.
  intros Hfail. unfold create_tfjs_model.
  rewrite (bind_Ok _ _ w tt (set_stdout (stdout w ++ ["Creating TensorFlow.js model structure..."]) w) eq_refl).
  set (w0 := set_stdout _ w).
  assert (mkdirs_only w w0) as Hw0.
  { split; try done. exists []. simpl. by rewrite app_nil_r. }
  pose proof (os_makedirs_mkdirs_only E out_dir true w0) as Hmk.
  destruct (os_makedirs E out_dir true w0) as [[[]|e] w1] eqn:Hrun; simpl in Hmk.
  - rewrite (bind_Ok _ _ _ _ _ Hrun).
    assert (mkdirs_only w w1) as Hw1 by (by etransitivity).
    match goal with
    | |- ∃ e w', ?m w1 = (Raise e, w') ∧ _ =>
        assert (∃ e, m w1 = (Raise e, w1)) as [e He]
    end.
    { apply load_stage_fails. by rewrite (load_fails_mkdirs_only E w w1). }
    exists e, w1. split; [exact He | done].
  - rewrite (bind_Raise _ _ _ _ _ Hrun). exists e, w1. split; [done | by etransitivity].
Qed.

(** C7.  If the model file is absent, is rejected by the runtime, or
    cannot be allocated, either script aborts with an exception and
    writes neither [model.json] nor [group1-shard1of1.bin]: the files
    of the world are unchanged, and no file was opened or written
    (Procedure B may have created the output directory, Procedure A
    leaves the world exactly as it was). *)
Theorem load_failure_no_output P E w :
  load_fails E w = true ->
  ∃ e,
    (run P E w).1 = Raise e ∧
    files (run P E w).2 = files w ∧
    files (run P E w).2 !! json_path = files w !! json_path ∧
    files (run P E w).2 !! bin_path = files w !! bin_path ∧
    (∃ ps, trace (run P E w).2 = trace w ++ map SysMkdir ps) ∧
    (P = ProcedureA -> (run P E w).2 = w).
Proof.
  intros Hfail. destruct P; simpl run.
  - destruct (convert_tflite_to_tfjs_load_fails E w Hfail) as [e ->].
    exists e. simpl. repeat split; try done. exists []. by rewrite app_nil_r.
  - destruct (create_tfjs_model_load_fails E w Hfail) as (e & w' & -> & Hmk).
    exists e. simpl. destruct Hmk as [_ Hf _ Ht].
    rewrite Hf. repeat split; try done.
Qed.

Lemma load_failure_no_output_witness :
  ∃ e,
    (run ProcedureB Sample.broken_runtime Sample.fresh).1 = Raise e ∧
    files (run ProcedureB Sample.broken_runtime Sample.fresh).2 = files Sample.fresh ∧
    files (run ProcedureB Sample.broken_runtime Sample.fresh).2 !! json_path
      = files Sample.fresh !! json_path ∧
    files (run ProcedureB Sample.broken_runtime Sample.fresh).2 !! bin_path
      = files Sample.fresh !! bin_path ∧
    (∃ ps, trace (run ProcedureB Sample.broken_runtime Sample.fresh).2
           = trace Sample.fresh ++ map SysMkdir ps) ∧
    (ProcedureB = ProcedureA ->
     (run ProcedureB Sample.broken_runtime Sample.fresh).2 = Sample.fresh).
Proof.
  apply (load_failure_no_output ProcedureB Sample.broken_runtime Sample.fresh).
  reflexivity.
Defined.

(** ** C8: running a script again *)

(** C8.  Any two runs of the same script that return, whatever the two
    environments and the two initial worlds (in particular when the
    second run starts in the world the first one left), leave the same
    bytes in [model.json], which read back as the descriptor of the
    script; Procedure A leaves an empty weight file both times, and
    Procedure B leaves weight files of the same length. *)
Theorem reruns_agree P E1 w1 E2 w2 :
  (run P E1 w1).1 = Ok tt ->
  (run P E2 w2).1 = Ok tt ->
  ∃ text blob1 blob2,
    files (run P E1 w1).2 !! json_path = Some text ∧
    files (run P E2 w2).2 !! json_path = Some text ∧
    read_json text = Some (model_json P) ∧
    files (run P E1 w1).2 !! bin_path = Some blob1 ∧
    files (run P E2 w2).2 !! bin_path = Some blob2 ∧
    length blob1 = length blob2 ∧
    (P = ProcedureA -> blob1 = [] ∧ blob2 = []).
Proof.
  intros Hok1 Hok2.
  destruct (run_files P E1 w1 Hok1) as [Hj1 Hb1].
  destruct (run_files P E2 w2 Hok2) as [Hj2 Hb2].
  exists (descriptor P), (blob P E1 (rng_pos w1)), (blob P E2 (rng_pos w2)).
  repeat (split; [done || apply read_descriptor|]).
  destruct P; simpl blob; split; try done.
  apply Nat2Z.inj. by rewrite !length_weight_blob.
Qed.

(** Procedure B run a second time, on another host, in the world the
    first run left. *)
Lemma sample_rerun_B :
  (run ProcedureB (Sample.host big)
     (run ProcedureB (Sample.host little) Sample.fresh).2).1 = Ok tt.
Proof. reflexivity. Qed.

Lemma reruns_agree_witness :
  ∃ text blob1 blob2,
    files (run ProcedureB (Sample.host little) Sample.fresh).2 !! json_path = Some text ∧
    files (run ProcedureB (Sample.host big)
             (run ProcedureB (Sample.host little) Sample.fresh).2).2 !! json_path
      = Some text ∧
    read_json text = Some (model_json ProcedureB) ∧
    files (run ProcedureB (Sample.host little) Sample.fresh).2 !! bin_path = Some blob1 ∧
    files (run ProcedureB (Sample.host big)
             (run ProcedureB (Sample.host little) Sample.fresh).2).2 !! bin_path
      = Some blob2 ∧
    length blob1 = length blob2 ∧
    (ProcedureB = ProcedureA -> blob1 = [] ∧ blob2 = []).
Proof.
  apply (reruns_agree ProcedureB (Sample.host little) Sample.fresh (Sample.host big)
           (run ProcedureB (Sample.host little) Sample.fresh).2).
  - exact (sample_run_B little).
  - exact sample_rerun_B.
Defined.

(** ** C9: exactly two files *)

(** C9.  A run of either script that returns has opened, written and
    closed exactly two files, [model.json] and then
    [group1-shard1of1.bin], both directly in the output directory
    [./assets/cards_model], which exists afterwards; apart from creating
    directories it made no other change to the file system, so every
    other path holds what it held before. *)
Theorem exactly_two_files P E w :
  (run P E w).1 = Ok tt ->
  (∃ ps, trace (run P E w).2 =
           trace w ++ map SysMkdir ps
           ++ [SysOpen json_path; SysWrite json_path (descriptor P); SysClose json_path;
               SysOpen bin_path; SysWrite bin_path (blob P E (rng_pos w));
               SysClose bin_path]) ∧
  dirname json_path = out_dir ∧ dirname bin_path = out_dir ∧
  out_dir ∈ dirs (run P E w).2 ∧
  files (run P E w).2 !! json_path = Some (descriptor P) ∧
  files (run P E w).2 !! bin_path = Some (blob P E (rng_pos w)) ∧
  (∀ p, p ≠ json_path -> p ≠ bin_path -> files (run P E w).2 !! p = files w !! p).
Proof.
  intros Hok. destruct (run_complete P E w Hok) as [ps Hpg].
  destruct (run_files P E w Hok) as [Hjson Hbin].
  destruct Hpg as [_ _ Hfiles Htrace _ Hout].
  split; [by exists ps|].
  split; [reflexivity|]. split; [reflexivity|].
  split; [by apply Hout|].
  split; [done|]. split; [done|].
  intros p Hp1 Hp2. rewrite Hfiles. simpl.
  by rewrite !lookup_insert_ne.
Qed.

Lemma exactly_two_files_witness :
  (∃ ps, trace (run ProcedureA (Sample.host little) Sample.fresh).2 =
           trace Sample.fresh ++ map SysMkdir ps
           ++ [SysOpen json_path; SysWrite json_path (descriptor ProcedureA);
               SysClose json_path;
               SysOpen bin_path;
               SysWrite bin_path (blob ProcedureA (Sample.host little) (rng_pos Sample.fresh));
               SysClose bin_path]) ∧
  dirname json_path = out_dir ∧ dirname bin_path = out_dir ∧
  out_dir ∈ dirs (run ProcedureA (Sample.host little) Sample.fresh).2 ∧
  files (run ProcedureA (Sample.host little) Sample.fresh).2 !! json_path
    = Some (descriptor ProcedureA) ∧
  files (run ProcedureA (Sample.host little) Sample.fresh).2 !! bin_path
    = Some (blob ProcedureA (Sample.host little) (rng_pos Sample.fresh)) ∧
  (∀ p, p ≠ json_path -> p ≠ bin_path ->
        files (run ProcedureA (Sample.host little) Sample.fresh).2 !! p
        = files Sample.fresh !! p).
Proof.
  apply (exactly_two_files ProcedureA (Sample.host little) Sample.fresh).
  reflexivity.
Defined.

(** ** C10: the descriptor is complete before the weight file is touched *)

Lemma mkdirs_touch_nothing p ps :
  ¬ Exists (fun c => touches p c = true) (map SysMkdir ps).
Proof.
  induction ps as [|q ps IH]; simpl; intros H; inversion H; subst; [discriminate | done].
Qed.

Lemma descriptor_ops_touch_not_blob data :
  ¬ Exists (fun c => touches bin_path c = true) (write_ops json_path data).
Proof.
  unfold write_ops. intros H.
  repeat (inversion H as [? ? Hc | ? ? H']; subst; [discriminate Hc|]; clear H; rename H' into H).
  inversion H.
Qed.

Lemma blob_ops_touch_blob data :
  Forall (fun c => touches bin_path c = true) (write_ops bin_path data).
Proof. unfold write_ops. repeat constructor. Qed.

Lemma write_in_mkdirs p acc ps : SysWrite p acc ∉ map SysMkdir ps.
Proof. induction ps as [|q ps IH]; simpl; [apply not_elem_of_nil|]. rewrite not_elem_of_cons. split; [discriminate | done]. Qed.

Lemma write_in_write_ops p acc q data :
  SysWrite p acc ∈ write_ops q data -> p = q ∧ acc = data.
Proof.
  unfold write_ops. rewrite !elem_of_cons.
  intros [H | [H | [H | H]]]; try discriminate; [by inversion H | by apply elem_of_nil in H].
Qed.

(** C10.  In every run of either script, whatever its outcome: if the
    run touched the weight file at all, then before the first such call
    it had opened [model.json], written the complete descriptor and
    closed it, nothing but directory creation came before that, and
    nothing but calls on the weight file came after; the descriptor on
    disk is then complete.  Once the complete descriptor has been
    written it stays on disk; a run that never touched the weight file
    left that path as it was; and when the write of the weight file
    stops short, the run ends with an [OSError], [model.json] holds the
    complete descriptor and the weight file holds a proper prefix of its
    intended content. *)
Theorem descriptor_before_blob P E w :
  ∃ new,
    trace (run P E w).2 = trace w ++ new ∧
    (Exists (fun c => touches bin_path c = true) new ->
       (∃ ps rest,
          new = map SysMkdir ps ++ write_ops json_path (descriptor P) ++ rest ∧
          Forall (fun c => touches bin_path c = true) rest) ∧
       files (run P E w).2 !! json_path = Some (descriptor P)) ∧
    (SysWrite json_path (descriptor P) ∈ new ->
       files (run P E w).2 !! json_path = Some (descriptor P)) ∧
    (¬ Exists (fun c => touches bin_path c = true) new ->
       files (run P E w).2 !! bin_path = files w !! bin_path) ∧
    (∀ acc,
       SysWrite bin_path acc ∈ new -> acc ≠ blob P E (rng_pos w) ->
       (run P E w).1 = Raise OSError ∧
       short_of acc (blob P E (rng_pos w)) ∧
       files (run P E w).2 !! json_path = Some (descriptor P) ∧
       files (run P E w).2 !! bin_path = Some acc).
Proof.
  destruct (run_progress P E w) as (pr & ps & [Hpartial Hres Hfiles Htrace _ _]).
  exists (map SysMkdir ps ++ file_ops (descriptor P) (blob P E (rng_pos w)) pr).
  split; [exact Htrace|].
  rewrite Hfiles.
  assert (Hne : bin_path ≠ json_path) by discriminate.
  assert (Hquiet : ∀ data,
            ¬ Exists (fun c => touches bin_path c = true)
                (map SysMkdir ps ++ write_ops json_path data)).
  { intros data H. apply Exists_app in H as [H|H];
      [by apply mkdirs_touch_nothing in H | by apply descriptor_ops_touch_not_blob in H]. }
  assert (Hloud : ∀ data data',
            Exists (fun c => touches bin_path c = true)
              (map SysMkdir ps ++ write_ops json_path data ++ write_ops bin_path data')).
  { intros data data'. apply Exists_app. right. apply Exists_app. right.
    unfold write_ops. by constructor. }
  destruct pr as [|acc'| |acc'|]; cbn [file_ops files_after partial_ok result_fits] in *.
  - rewrite app_nil_r.
    split; [intros H; by apply mkdirs_touch_nothing in H|].
    split; [intros Hin; by apply write_in_mkdirs in Hin|].
    split; [done|].
    intros acc Hin. by apply write_in_mkdirs in Hin.
  - split; [intros H; by apply Hquiet in H|].
    split.
    { intros Hin. apply elem_of_app in Hin as [Hin|Hin];
        [by apply write_in_mkdirs in Hin|].
      apply write_in_write_ops in Hin as [_ Hacc].
      by apply short_of_neq in Hpartial. }
    split; [intros _; by rewrite lookup_insert_ne|].
    intros acc Hin. apply elem_of_app in Hin as [Hin|Hin];
      [by apply write_in_mkdirs in Hin|].
    apply write_in_write_ops in Hin as [Hp _]. done.
  - split; [intros H; by apply Hquiet in H|].
    split; [intros _; apply lookup_insert_eq|].
    split; [intros _; by rewrite lookup_insert_ne|].
    intros acc Hin. apply elem_of_app in Hin as [Hin|Hin];
      [by apply write_in_mkdirs in Hin|].
    apply write_in_write_ops in Hin as [Hp _]. done.
  - assert (Hjson : <[bin_path:=acc']> (<[json_path:=descriptor P]> (files w)) !! json_path
                    = Some (descriptor P)).
    { rewrite lookup_insert_ne by done. apply lookup_insert_eq. }
    split.
    { intros _. split; [|done].
      exists ps, (write_ops bin_path acc'). split; [done | apply blob_ops_touch_blob]. }
    split; [done|].
    split; [intros H; destruct H; apply Hloud|].
    intros acc Hin Hacc. apply elem_of_app in Hin as [Hin|Hin];
      [by apply write_in_mkdirs in Hin|].
    apply elem_of_app in Hin as [Hin|Hin].
    { apply write_in_write_ops in Hin as [Hp _]. done. }
    apply write_in_write_ops in Hin as [_ ->].
    split; [done|]. split; [done|]. split; [done | apply lookup_insert_eq].
  - assert (Hjson : <[bin_path:=blob P E (rng_pos w)]>
                      (<[json_path:=descriptor P]> (files w)) !! json_path
                    = Some (descriptor P)).
    { rewrite lookup_insert_ne by done. apply lookup_insert_eq. }
    split.
    { intros _. split; [|done].
      exists ps, (write_ops bin_path (blob P E (rng_pos w))).
      split; [done | apply blob_ops_touch_blob]. }
    split; [done|].
    split; [intros H; destruct H; apply Hloud|].
    intros acc Hin Hacc. apply elem_of_app in Hin as [Hin|Hin];
      [by apply write_in_mkdirs in Hin|].
    apply elem_of_app in Hin as [Hin|Hin].
    { apply write_in_write_ops in Hin as [Hp _]. done. }
    apply write_in_write_ops in Hin as [_ ->]. done.
Qed.

(** A disk that takes 100 bytes of the weight file: the run ends with an
    [OSError], the descriptor is complete and the weight file is the
    first 100 bytes of what it should have been. *)
Example short_blob_write :
  (create_tfjs_model (Sample.small_disk 100) Sample.fresh).1 = Raise OSError ∧
  files (create_tfjs_model (Sample.small_disk 100) Sample.fresh).2 !! json_path
    = Some (descriptor ProcedureB) ∧
  files (create_tfjs_model (Sample.small_disk 100) Sample.fresh).2 !! bin_path
    = Some (take 100 (weight_blob (Sample.small_disk 100) 0)) ∧
  length (take 100 (weight_blob (Sample.small_disk 100) 0)) = 100.
Proof. repeat split; reflexivity. Qed.

(** ** Both scripts return on a cooperative host *)

Lemma path_isfile_None w p : files w !! p = None -> path_isfile w p = false.
Proof. intros H. unfold path_isfile. rewrite H. apply bool_decide_eq_false. by intros [x Hx]. Qed.

Lemma os_mkdir_fresh E w p :
  mkdir_denied E p = false ->
  path_exists w p = false ->
  files w !! dirname p = None ->
  path_isdir w (dirname p) = true ->
  os_mkdir E p w = (Ok tt, log (SysMkdir p) (set_dirs ({[p]} ∪ dirs w) w)).
Proof.
  intros Hden Hex Hfile Hdir. unfold os_mkdir, bind, get_world. simpl.
  rewrite Hex, (path_isfile_None _ _ Hfile), Hdir, Hden. reflexivity.
Qed.


Lemma os_mkdir_exists E w p :
  path_exists w p = true -> os_mkdir E p w = (Raise FileExistsError, w).
Proof. intros Hex. unfold os_mkdir, bind, get_world. simpl. by rewrite Hex. Qed.

(** [mkdir] under [exist_ok]: once the parent is there and nothing but a
    directory can be in the way, the directory exists afterwards. *)
Lemma mkdir_exist_ok E w p :
  mkdir_denied E p = false ->
  files w !! p = None ->
  files w !! dirname p = None ->
  path_isdir w (dirname p) = true ->
  ∃ w1,
    try_except (os_mkdir E p) is_OSError
      (fun e => w0 <- get_world ;;
                if negb true || negb (path_isdir w0 p) then raise e else ret tt) w
    = (Ok tt, w1) ∧
    files w1 = files w ∧ path_isdir w1 p = true ∧
    dirs w ⊆ dirs w1 ∧ dirs w1 ⊆ dirs w ∪ {[p]}.
Proof.
  intros Hden Hfile Hparent Hdir. unfold try_except.
  destruct (path_exists w p) eqn:Hex.
  - rewrite (os_mkdir_exists E w p Hex). simpl.
    unfold path_exists in Hex. rewrite (path_isfile_None _ _ Hfile), orb_false_r in Hex.
    unfold bind, get_world. rewrite Hex. simpl.
    exists w. split; [reflexivity|]. split; [done|]. split; [done|]. split; set_solver.
  - rewrite (os_mkdir_fresh E w p Hden Hex Hparent Hdir).
    eexists. split; [reflexivity|]. simpl.
    split; [done|]. split; [|split; set_solver].
    unfold path_isdir. simpl. apply orb_true_iff. right.
    apply bool_decide_eq_true. set_solver.
Qed.


Lemma makedirs_chain_parent E ok name head ups :
  makedirs_chain E ok (name :: head :: ups) =
    ((w <- get_world ;;
      if path_exists w head then ret tt
      else try_except (makedirs_chain E ok (head :: ups)) is_FileExistsError
             (fun _ => ret tt)) ;;
     try_except (os_mkdir E name) is_OSError
       (fun e => w <- get_world ;;
                 if negb ok || negb (path_isdir w name) then raise e else ret tt)).
Proof. reflexivity. Qed.

Lemma try_except_Ok {A} (m : M A) handles h w a w1 :
  m w = (Ok a, w1) -> try_except m handles h w = (Ok a, w1).
Proof. intros H. unfold try_except. by rewrite H. Qed.

Lemma parent_exists E ok head ups w :
  path_exists w head = true ->
  (w0 <- get_world ;;
   if path_exists w0 head then ret tt
   else try_except (makedirs_chain E ok (head :: ups)) is_FileExistsError
          (fun _ => ret tt)) w = (Ok tt, w).
Proof. intros H. unfold bind, get_world. by rewrite H. Qed.

Lemma parent_missing E ok head ups w :
  path_exists w head = false ->
  (w0 <- get_world ;;
   if path_exists w0 head then ret tt
   else try_except (makedirs_chain E ok (head :: ups)) is_FileExistsError
          (fun _ => ret tt)) w
  = try_except (makedirs_chain E ok (head :: ups)) is_FileExistsError (fun _ => ret tt) w.
Proof. intros H. unfold bind, get_world. by rewrite H. Qed.

Lemma os_makedirs_out_dir E w :
  (∀ p, mkdir_denied E p = false) ->
  files w !! "." = None -> files w !! "./assets" = None -> files w !! out_dir = None ->
  ∃ w1, os_makedirs E out_dir true w = (Ok tt, w1) ∧
        files w1 = files w ∧ out_dir ∈ dirs w1 ∧
        dirs w ⊆ dirs w1 ∧
        dirs w1 ⊆ dirs w ∪ {["./assets"]} ∪ {[out_dir]}.
Proof.
  intros Hden Hdot Hassets Hout.
  unfold os_makedirs. change (rev (parents out_dir)) with ["./assets"; "."].
  rewrite makedirs_chain_parent.
  assert (∃ w0,
      (w0 <- get_world ;;
       if path_exists w0 "./assets" then ret tt
       else try_except (makedirs_chain E true ["./assets"; "."]) is_FileExistsError
              (fun _ => ret tt)) w = (Ok tt, w0) ∧
      files w0 = files w ∧ path_isdir w0 "./assets" = true ∧
      dirs w ⊆ dirs w0 ∧ dirs w0 ⊆ dirs w ∪ {["./assets"]})
    as (w0 & Hrun0 & Hf0 & Hd0 & Hsub0 & Hsup0).
  { destruct (path_exists w "./assets") eqn:Hex.
    - exists w. split; [by apply parent_exists|].
      unfold path_exists in Hex. rewrite (path_isfile_None _ _ Hassets), orb_false_r in Hex.
      split; [done|]. split; [done|]. split; set_solver.
    - destruct (mkdir_exist_ok E w "./assets" (Hden _) Hassets Hdot eq_refl)
        as (w0 & Hrun & Hf & Hd & Hsub & Hsup).
      exists w0. split; [|done].
      rewrite (parent_missing _ _ _ _ _ Hex). apply try_except_Ok.
      rewrite makedirs_chain_parent.
      rewrite (bind_Ok _ _ _ _ _ (parent_exists E true "." [] w eq_refl)).
      exact Hrun. }
  rewrite (bind_Ok _ _ _ _ _ Hrun0).
  destruct (mkdir_exist_ok E w0 out_dir (Hden _)) as (w1 & Hrun & Hf & Hd & Hsub & Hsup).
  { by rewrite Hf0. } { by rewrite Hf0. } { exact Hd0. }
  exists w1. split; [exact Hrun|].
  split; [congruence|]. split.
  - unfold path_isdir in Hd. change (is_cwd out_dir) with false in Hd.
    by apply bool_decide_eq_true in Hd.
  - split; set_solver.
Qed.

Lemma with_open_w_returns E p data w :
  open_denied E p = false -> write_limit E p = None ->
  path_isdir w p = false -> files w !! dirname p = None ->
  path_isdir w (dirname p) = true ->
  ∃ w1, with_open_w E p (fwrite E p data) w = (Ok tt, w1) ∧
        files w1 = <[p := data]> (files w) ∧ dirs w1 = dirs w.
Proof.
  intros Hden Hlim Hnd Hpf Hpd.
  unfold with_open_w, open_w, bind, get_world. simpl.
  rewrite Hnd, (path_isfile_None _ _ Hpf), Hpd, Hden. simpl.
  unfold fwrite, modify. simpl. rewrite Hlim, Nat.ltb_irrefl, lookup_insert_eq. simpl.
  eexists. split; [reflexivity|]. simpl. split; [|done].
  by rewrite insert_insert_eq.
Qed.

Lemma strip_prefix_inv d : ∀ p n, strip_prefix d p = Some n -> p = d +:+ n.
Proof.
  induction d as [|a d IH]; intros [|b p] n H; simpl in *; try discriminate.
  - by inversion H.
  - by inversion H.
  - destruct (Ascii.eqb_spec a b) as [->|]; [|discriminate].
    by rewrite (IH p n H).
Qed.

Lemma entry_name_inv d p n : entry_name d p = Some n -> p = d +:+ n.
Proof.
  unfold entry_name. destruct (strip_prefix d p) as [m|] eqn:Hm; [|discriminate].
  apply strip_prefix_inv in Hm. destruct m; [discriminate|].
  destruct (contains_slash _); [discriminate|]. intros H. by inversion H.
Qed.

(** The size of everything the directory listing names can be had. *)
Lemma listed_entry_exists w d n :
  n ∈ omap (entry_name d) ((map_to_list (files w)).*1 ++ elements (dirs w)) ->
  is_Some (files w !! (d +:+ n)) ∨ path_isdir w (d +:+ n) = true.
Proof.
  intros Hn. apply list_elem_of_omap in Hn as (p & Hp & Hname).
  apply entry_name_inv in Hname as ->.
  apply elem_of_app in Hp as [Hp|Hp].
  - left. apply list_elem_of_fmap in Hp as ([q c] & -> & Hqc).
    apply elem_of_map_to_list in Hqc. by exists c.
  - right. apply elem_of_elements in Hp. unfold path_isdir.
    apply orb_true_iff. right. by apply bool_decide_eq_true.
Qed.

Lemma listing_returns E d (names : list string) : ∀ w,
  (∀ n, n ∈ names -> is_Some (files w !! (d +:+ n)) ∨ path_isdir w (d +:+ n) = true) ->
  ∃ w1,
    for_each names (fun file =>
      size <- os_path_getsize E (d +:+ file) ;;
      print ("  - " +:+ file +:+ " (" +:+ decimal size +:+ " bytes)")) w = (Ok tt, w1) ∧
    quiet w w1.
Proof.
  induction names as [|n names IH]; intros w Hnames; simpl.
  - exists w. split; [reflexivity | apply quiet_refl].
  - assert (∃ size, os_path_getsize E (d +:+ n) w = (Ok size, w)) as [size Hsize].
    { unfold os_path_getsize, bind, get_world. simpl.
      destruct (Hnames n) as [[c Hc]|Hdir]; [by left | |].
      - rewrite Hc. by eexists.
      - destruct (files w !! (d +:+ n)); [by eexists|]. rewrite Hdir. by eexists. }
    set (line := "  - " +:+ n +:+ " (" +:+ decimal size +:+ " bytes)").
    assert ((size <- os_path_getsize E (d +:+ n) ;;
             print ("  - " +:+ n +:+ " (" +:+ decimal size +:+ " bytes)")) w
            = (Ok tt, set_stdout (stdout w ++ [line]) w)) as Hbody.
    { by rewrite (bind_Ok _ _ _ _ _ Hsize). }
    rewrite (bind_Ok _ _ _ _ _ Hbody).
    destruct (IH (set_stdout (stdout w ++ [line]) w)) as (w1 & Hrun & Hq).
    { intros m Hm. apply (Hnames m). by right. }
    exists w1. split; [exact Hrun|].
    destruct Hq as [Hd Hf Hr Ht]. by split.
Qed.

Lemma load_succeeds E w :
  load_fails E w = false ->
  ∃ content i,
    files w !! model_path = Some content ∧ tflite_runtime E content = Some i ∧
    allocates i = true.
Proof.
  unfold load_fails. intros H.
  destruct (files w !! model_path) as [content|]; [|discriminate].
  destruct (tflite_runtime E content) as [i|] eqn:Hrt; [|discriminate].
  exists content, i. destruct (allocates i); [done | discriminate].
Qed.

Lemma Interpreter_returns E w content i :
  files w !! model_path = Some content -> tflite_runtime E content = Some i ->
  Interpreter E model_path w = (Ok i, w).
Proof. intros Hf Hr. unfold Interpreter, bind, get_world. simpl. by rewrite Hf, Hr. Qed.

Lemma allocate_tensors_returns i w :
  allocates i = true -> allocate_tensors i w = (Ok tt, w).
Proof. intros H. unfold allocate_tensors. by rewrite H. Qed.

Lemma not_dir_after_makedirs w w1 p :
  p ∉ dirs w -> p ≠ "./assets" -> p ≠ out_dir -> is_cwd p = false ->
  dirs w1 ⊆ dirs w ∪ {["./assets"]} ∪ {[out_dir]} ->
  path_isdir w1 p = false.
Proof.
  intros Hp H1 H2 Hcwd Hsub. unfold path_isdir. rewrite Hcwd. simpl.
  apply bool_decide_eq_false. set_solver.
Qed.

Lemma out_dir_isdir w : out_dir ∈ dirs w -> path_isdir w out_dir = true.
Proof.
  intros H. unfold path_isdir. apply orb_true_iff. right. by apply bool_decide_eq_true.
Qed.

Theorem convert_tflite_to_tfjs_returns E w :
  cooperative E w -> (convert_tflite_to_tfjs E w).1 = Ok tt.
Proof.
  intros [Hload Hdet Hmk Hop Hwr Hnf Hnd].
  destruct (load_succeeds E w Hload) as (content & i & Hfile & Hrt & Halloc).
  destruct (Hdet content i Hfile Hrt) as [Hin Hout].
  destruct (input_details i) as [|din ins] eqn:Hins; [done|].
  destruct (output_details i) as [|dout outs] eqn:Houts; [done|].
  unfold convert_tflite_to_tfjs.
  rewrite (bind_Ok _ _ _ _ _ (Interpreter_returns E w content i Hfile Hrt)).
  rewrite (bind_Ok _ _ _ _ _ (allocate_tensors_returns i w Halloc)).
  lazy zeta. rewrite Hins, Houts.
  do 8 (erewrite bind_Ok by reflexivity).
  match goal with |- (bind _ _ ?w0).1 = _ => set (w' := w0) end.
  assert (Hfw : files w' = files w) by reflexivity.
  assert (Hdw : dirs w' = dirs w) by reflexivity.
  clearbody w'.
  destruct (os_makedirs_out_dir E w' Hmk) as (w1 & Hrun1 & Hf1 & Hout1 & Hsub1 & Hsup1);
    [rewrite Hfw; apply Hnf; set_solver..|].
  rewrite (bind_Ok _ _ _ _ _ Hrun1).
  destruct (with_open_w_returns E json_path
              (list_byte_of_string (Json.dumps ProcA.model_json)) w1 (Hop _) (Hwr _))
    as (w2 & Hrun2 & Hf2 & Hd2).
  { apply (not_dir_after_makedirs w' w1); [rewrite Hdw; apply Hnd; set_solver | done..]. }
  { rewrite Hf1, Hfw. apply Hnf. set_solver. }
  { by apply out_dir_isdir. }
  unfold json_dump. rewrite (bind_Ok _ _ _ _ _ Hrun2).
  destruct (with_open_w_returns E bin_path
              (tobytes (sys_byteorder E) (np_array_empty float32)) w2 (Hop _) (Hwr _))
    as (w3 & Hrun3 & Hf3 & Hd3).
  { unfold path_isdir. rewrite Hd2.
    apply (not_dir_after_makedirs w' w1); [rewrite Hdw; apply Hnd; set_solver | done..]. }
  { rewrite Hf2, lookup_insert_ne by done. rewrite Hf1, Hfw. apply Hnf. set_solver. }
  { unfold path_isdir. rewrite Hd2. by apply out_dir_isdir. }
  unfold tofile. rewrite (bind_Ok _ _ _ _ _ Hrun3).
  reflexivity.
Qed.

Theorem create_tfjs_model_returns E w :
  cooperative E w -> (create_tfjs_model E w).1 = Ok tt.
Proof.
  intros [Hload Hdet Hmk Hop Hwr Hnf Hnd].
  destruct (load_succeeds E w Hload) as (content & i & Hfile & Hrt & Halloc).
  destruct (Hdet content i Hfile Hrt) as [Hin Hout].
  destruct (input_details i) as [|din ins] eqn:Hins; [done|].
  destruct (output_details i) as [|dout outs] eqn:Houts; [done|].
  unfold create_tfjs_model.
  erewrite bind_Ok by reflexivity.
  match goal with |- (bind _ _ ?w0).1 = _ => set (w' := w0) end.
  assert (Hfw : files w' = files w) by reflexivity.
  assert (Hdw : dirs w' = dirs w) by reflexivity.
  clearbody w'.
  destruct (os_makedirs_out_dir E w' Hmk) as (w1 & Hrun1 & Hf1 & Hout1 & Hsub1 & Hsup1);
    [rewrite Hfw; apply Hnf; set_solver..|].
  rewrite (bind_Ok _ _ _ _ _ Hrun1).
  assert (Hfile1 : files w1 !! model_path = Some content) by (by rewrite Hf1, Hfw).
  rewrite (bind_Ok _ _ _ _ _ (Interpreter_returns E w1 content i Hfile1 Hrt)).
  rewrite (bind_Ok _ _ _ _ _ (allocate_tensors_returns i w1 Halloc)).
  lazy zeta. rewrite Hins, Houts.
  do 7 (erewrite bind_Ok by reflexivity).
  match goal with |- (bind _ _ ?w0).1 = _ => set (w1' := w0) end.
  assert (Hfw1 : files w1' = files w1) by reflexivity.
  assert (Hdw1 : dirs w1' = dirs w1) by reflexivity.
  clearbody w1'.
  destruct (with_open_w_returns E json_path
              (list_byte_of_string (Json.dumps ProcB.model_json)) w1' (Hop _) (Hwr _))
    as (w2 & Hrun2 & Hf2 & Hd2).
  { unfold path_isdir. rewrite Hdw1.
    apply (not_dir_after_makedirs w' w1); [rewrite Hdw; apply Hnd; set_solver | done..]. }
  { rewrite Hfw1, Hf1, Hfw. apply Hnf. set_solver. }
  { unfold path_isdir. rewrite Hdw1. by apply out_dir_isdir. }
  unfold json_dump. rewrite (bind_Ok _ _ _ _ _ Hrun2).
  rewrite (bind_Ok _ _ _ _ _ (generate_weights_run E w2)).
  unfold weights_at. lazy beta iota zeta.
  match goal with
  | |- context [np_concatenate [flatten ?a; flatten ?b; flatten ?c; flatten ?d]] =>
      destruct (np_concatenate_flat a b c d (set_rng_pos (drawn (rng_pos w2)) w2))
        as [total Hcat];
      [reflexivity | reflexivity | reflexivity | reflexivity |];
      rewrite (bind_Ok _ _ _ _ _ Hcat); clear Hcat
  end.
  match goal with
  | |- (bind (tofile E ?a bin_path) _ _).1 = _ => generalize a; intros all_weights
  end.
  match goal with
  | |- (bind (tofile E ?a bin_path) _ ?w0).1 = _ =>
      destruct (with_open_w_returns E bin_path (tobytes (sys_byteorder E) a) w0
                  (Hop _) (Hwr _)) as (w3 & Hrun3 & Hf3 & Hd3)
  end.
  { unfold path_isdir. cbn [dirs set_rng_pos]. rewrite Hd2, Hdw1.
    apply (not_dir_after_makedirs w' w1); [rewrite Hdw; apply Hnd; set_solver | done..]. }
  { cbn [files set_rng_pos]. rewrite Hf2, lookup_insert_ne by done.
    rewrite Hfw1, Hf1, Hfw. apply Hnf. set_solver. }
  { unfold path_isdir. cbn [dirs set_rng_pos]. rewrite Hd2, Hdw1. by apply out_dir_isdir. }
  unfold tofile. rewrite (bind_Ok _ _ _ _ _ Hrun3).
  do 2 (erewrite bind_Ok by reflexivity).
  match goal with |- (bind _ _ ?w0).1 = _ => set (w3' := w0) end.
  assert (Hdw3 : dirs w3' = dirs w3) by reflexivity.
  clearbody w3'.
  assert (os_listdir listing_dir w3'
          = (Ok (omap (entry_name listing_dir)
                   ((map_to_list (files w3')).*1 ++ elements (dirs w3'))), w3')) as Hls.
  { assert (path_isdir w3' out_dir = true) as Hisdir.
    { apply out_dir_isdir. rewrite Hdw3, Hd3. cbn [dirs set_rng_pos].
      by rewrite Hd2, Hdw1. }
    unfold os_listdir, bind, get_world. cbv beta iota.
    change (rstrip_slash listing_dir) with out_dir. by rewrite Hisdir. }
  rewrite (bind_Ok _ _ _ _ _ Hls).
  destruct (listing_returns E listing_dir
              (omap (entry_name listing_dir)
                 ((map_to_list (files w3')).*1 ++ elements (dirs w3'))) w3')
    as (w4 & Hrun4 & _).
  { intros n Hn. by apply listed_entry_exists. }
  rewrite (bind_Ok _ _ _ _ _ Hrun4).
  reflexivity.
Qed.


(** The sample host is cooperative, whatever its byte order. *)
Lemma sample_cooperative bo : cooperative (Sample.host bo) Sample.fresh.
Proof.
  split; try done.
  - intros content i _ Hi. inversion Hi. by split.
  - intros p Hp. apply lookup_singleton_ne. intros <-.
    repeat (apply elem_of_cons in Hp as [Hp|Hp]; [discriminate Hp|]).
    by apply elem_of_nil in Hp.
Qed.

(** * Further properties

    Properties of the two scripts beyond the claims: what a run never
    does, how it fails, what it prints, and how runs compose. *)

(** ** What a run may change *)

Lemma no_mkdir_frame (ops : list syscall) w w' :
  dirs w' = dirs w -> (∀ p, SysMkdir p ∉ ops) ->
  ∀ p, SysMkdir p ∈ ops <-> (p ∉ dirs w) ∧ (p ∈ dirs w').
Proof.
  intros Hd Hn p. rewrite Hd. split; [by intros H%Hn | by intros [H1 H2]].
Qed.

Lemma frame_refl w : frame w w.
Proof.
  split; try done; try set_solver.
  - exists []. by rewrite app_nil_r.
  - exists []. rewrite app_nil_r. split; [done|].
    apply no_mkdir_frame; [done | intros p; apply not_elem_of_nil].
Qed.

Lemma frame_trans w1 w2 w3 : frame w1 w2 -> frame w2 w3 -> frame w1 w3.
Proof.
  intros [Hd1 Hn1 Hf1 Hk1 [o1 Ho1] Hr1 (t1 & Ht1 & Hm1)]
         [Hd2 Hn2 Hf2 Hk2 [o2 Ho2] Hr2 (t2 & Ht2 & Hm2)].
  split.
  - set_solver.
  - set_solver.
  - intros p H1 H2. by rewrite Hf2, Hf1.
  - auto.
  - exists (o1 ++ o2). by rewrite Ho2, Ho1, app_assoc.
  - lia.
  - exists (t1 ++ t2). split; [by rewrite Ht2, Ht1, app_assoc|].
    intros p. rewrite elem_of_app, Hm1, Hm2.
    destruct (decide (p ∈ dirs w2)); set_solver.
Qed.

#[global] Instance frame_preorder : PreOrder frame.
Proof. split; [exact frame_refl | exact frame_trans]. Qed.

Lemma frame_intro w w' out :
  dirs w' = dirs w -> files w' = files w -> trace w' = trace w ->
  stdout w' = stdout w ++ out -> (rng_pos w <= rng_pos w')%N -> frame w w'.
Proof.
  intros Hd Hf Ht Ho Hr. split.
  - by rewrite Hd.
  - rewrite Hd. set_solver.
  - intros p _ _. by rewrite Hf.
  - intros p. by rewrite Hf.
  - by exists out.
  - done.
  - exists []. rewrite app_nil_r. split; [done|].
    apply no_mkdir_frame; [done | intros p; apply not_elem_of_nil].
Qed.

Lemma preserves_pure {A} (R : world -> world -> Prop) `{!Reflexive R} (m : M A) :
  Pure m -> Preserves R m.
Proof. intros H w. by rewrite H. Qed.

Section Purity.
Variable E : env.

Lemma Interpreter_pure p : Pure (Interpreter E p).
Proof.
  intros w. unfold Interpreter, bind, get_world. simpl.
  destruct (files w !! p) as [c|]; [|reflexivity].
  destruct (tflite_runtime E c); reflexivity.
Qed.

Lemma allocate_tensors_pure i : Pure (allocate_tensors i).
Proof. intros w. unfold allocate_tensors. destruct (allocates i); reflexivity. Qed.

Lemma item0_pure {A} (l : list A) : Pure (item0 l).
Proof. intros w. destruct l; reflexivity. Qed.

Lemma os_listdir_pure d : Pure (os_listdir d).
Proof.
  intros w. unfold os_listdir, bind, get_world. simpl.
  destruct (path_isdir w (rstrip_slash d)); reflexivity.
Qed.

Lemma os_path_getsize_pure p : Pure (os_path_getsize E p).
Proof.
  intros w. unfold os_path_getsize, bind, get_world. simpl.
  destruct (files w !! p); [reflexivity|].
  destruct (path_isdir w p); reflexivity.
Qed.

Lemma np_concatenate_pure arrs : Pure (np_concatenate arrs).
Proof.
  intros w. unfold np_concatenate.
  destruct arrs as [|a rest]; [reflexivity|].
  destruct (nd_shape a); [reflexivity|].
  match goal with |- context [if ?b then _ else _] => destruct b end; reflexivity.
Qed.
End Purity.

Section Frames.
Variable E : env.

Lemma print_frame line : Preserves frame (print line).
Proof.
  intros w. by apply (frame_intro _ _ [line]).
Qed.

Lemma os_mkdir_frame p :
  p ∈ new_dirs ∨ is_cwd p = true -> Preserves frame (os_mkdir E p).
Proof.
  intros Hp w. unfold os_mkdir, bind, get_world. simpl.
  destruct (path_exists w p) eqn:Hex; [reflexivity|].
  destruct (path_isfile w (dirname p)); [reflexivity|].
  destruct (path_isdir w (dirname p)); simpl; [|reflexivity].
  destruct (mkdir_denied E p); simpl; [reflexivity|].
  unfold path_exists, path_isdir in Hex.
  apply orb_false_iff in Hex as [Hex _]. apply orb_false_iff in Hex as [Hcwd Hdir].
  apply bool_decide_eq_false in Hdir.
  destruct Hp as [Hp|Hp]; [|congruence].
  split; simpl.
  - set_solver.
  - set_solver.
  - done.
  - done.
  - exists []. by rewrite app_nil_r.
  - done.
  - exists [SysMkdir p]. split; [done|]. intros q.
    rewrite list_elem_of_singleton. split.
    + intros Hq. inversion Hq; subst. set_solver.
    + intros [H1 H2]. f_equal. set_solver.
Qed.

Lemma os_makedirs_frame : Preserves frame (os_makedirs E out_dir true).
Proof.
  unfold os_makedirs. change (rev (parents out_dir)) with ["./assets"; "."].
  cbn [makedirs_chain].
  footprint; apply os_mkdir_frame; first [by right | left; set_solver].
Qed.

Lemma with_open_w_frame p data :
  p = json_path ∨ p = bin_path -> Preserves frame (with_open_w E p (fwrite E p data)).
Proof.
  intros Hp w.
  unfold with_open_w, open_w, bind, get_world. simpl.
  destruct (path_isdir w p); simpl; [reflexivity|].
  destruct (path_isfile w (dirname p)); simpl; [reflexivity|].
  destruct (path_isdir w (dirname p)); simpl; [|reflexivity].
  destruct (open_denied E p); simpl; [reflexivity|].
  unfold fwrite, modify. simpl.
  set (acc := match write_limit E p with Some k => take k data | None => data end).
  assert (frame w (log (SysClose p) (log (SysWrite p acc)
            (set_files (<[p:=default [] (<[p:=[]]> (files w) !! p) ++ acc]> (<[p:=[]]> (files w)))
               (log (SysOpen p) (set_files (<[p:=[]]> (files w)) w)))))) as Hfr.
  { split; simpl.
    - done.
    - set_solver.
    - intros q H1 H2. rewrite !lookup_insert_ne by (destruct Hp; congruence). done.
    - intros q Hq. destruct (decide (q = p)) as [->|Hne].
      + rewrite lookup_insert_eq. by eexists.
      + by rewrite !lookup_insert_ne.
    - exists []. by rewrite app_nil_r.
    - done.
    - eexists. split; [by rewrite <- !app_assoc|].
      apply no_mkdir_frame; [done|]. intros q Hq. simpl in Hq.
      repeat (apply elem_of_cons in Hq as [Hq|Hq]; [discriminate Hq|]).
      by apply elem_of_nil in Hq. }
  destruct (Nat.ltb _ _); exact Hfr.
Qed.

Lemma tofile_frame a : Preserves frame (tofile E a bin_path).
Proof. apply with_open_w_frame. by right. Qed.

Lemma json_dump_frame obj :
  Preserves frame (with_open_w E json_path (json_dump E obj json_path)).
Proof. apply with_open_w_frame. by left. Qed.

Lemma generate_weights_frame : Preserves frame (generate_weights E).
Proof.
  intros w. rewrite generate_weights_run. cbn [snd].
  apply (frame_intro _ _ []); try done.
  - by rewrite app_nil_r.
  - cbn [rng_pos set_rng_pos]. unfold drawn. lia.
Qed.

End Frames.

Ltac frame_step :=
  first [ apply print_frame | apply os_makedirs_frame | apply json_dump_frame
        | apply tofile_frame | apply generate_weights_frame
        | apply preserves_pure;
          [ apply _
          | first [ apply Interpreter_pure | apply allocate_tensors_pure | apply item0_pure
                  | apply os_listdir_pure | apply os_path_getsize_pure
                  | apply np_concatenate_pure ] ] ].

Ltac frames :=
  repeat match goal with
    | |- Preserves _ (let '(_, _) := ?x in _) => destruct x
    | |- Preserves _ (bind _ _) => apply preserves_bind
    | |- Preserves _ (for_each _ _) => apply preserves_for_each
    | |- forall _, _ => intro
    | |- PreOrder _ => apply _
    | |- Preserves _ _ => progress (lazy zeta)
    | |- Preserves frame _ => frame_step
    end.

Lemma convert_tflite_to_tfjs_frame E : Preserves frame (convert_tflite_to_tfjs E).
Proof. unfold convert_tflite_to_tfjs. frames. Qed.

Lemma create_tfjs_model_frame E : Preserves frame (create_tfjs_model E).
Proof. unfold create_tfjs_model. frames. Qed.

Lemma run_frame_rel P E w : frame w (run P E w).2.
Proof. destruct P; [apply convert_tflite_to_tfjs_frame | apply create_tfjs_model_frame]. Qed.

(** ** Components a step leaves alone *)

#[global] Instance keeps_preorder {T} (f : world -> T) : PreOrder (keeps f).
Proof. split; [by intros w | intros w1 w2 w3 H1 H2; unfold keeps in *; congruence]. Qed.

Lemma preserves_mkdirs_only_rng {A} (m : M A) :
  Preserves mkdirs_only m -> Preserves (keeps rng_pos) m.
Proof. intros H w. apply (mk_rng _ _ (H w)). Qed.

Section Keeping.
Variable E : env.

Lemma print_keeps_rng line : Preserves (keeps rng_pos) (print line).
Proof. by intros w. Qed.

Lemma os_makedirs_keeps_rng name ok : Preserves (keeps rng_pos) (os_makedirs E name ok).
Proof. apply preserves_mkdirs_only_rng, os_makedirs_mkdirs_only. Qed.

Lemma with_open_w_keeps_rng p data :
  Preserves (keeps rng_pos) (with_open_w E p (fwrite E p data)).
Proof.
  intros w. pose proof (with_open_w_outcome E p data w) as H.
  destruct H as [e | acc w' _ Hw | w' Hw]; [done | apply (wr_rng _ _ _ _ Hw)..].
Qed.

Lemma os_mkdir_keeps_stdout p : Preserves (keeps stdout) (os_mkdir E p).
Proof.
  intros w. unfold os_mkdir, bind, get_world. simpl.
  destruct (path_exists w p); [reflexivity|].
  destruct (path_isfile w (dirname p)); [reflexivity|].
  destruct (path_isdir w (dirname p)); simpl; [|reflexivity].
  destruct (mkdir_denied E p); reflexivity.
Qed.

Lemma makedirs_chain_keeps_stdout ok chain :
  Preserves (keeps stdout) (makedirs_chain E ok chain).
Proof.
  induction chain as [|name ups IH]; simpl; [footprint|].
  footprint; [|apply os_mkdir_keeps_stdout].
  destruct ups as [|head ups']; footprint. exact IH.
Qed.

Lemma os_makedirs_keeps_stdout name ok : Preserves (keeps stdout) (os_makedirs E name ok).
Proof. apply makedirs_chain_keeps_stdout. Qed.

Lemma with_open_w_keeps_stdout p data :
  Preserves (keeps stdout) (with_open_w E p (fwrite E p data)).
Proof.
  intros w. unfold with_open_w, open_w, bind, get_world. simpl.
  destruct (path_isdir w p); simpl; [reflexivity|].
  destruct (path_isfile w (dirname p)); simpl; [reflexivity|].
  destruct (path_isdir w (dirname p)); simpl; [|reflexivity].
  destruct (open_denied E p); simpl; [reflexivity|].
  unfold fwrite, modify. simpl. destruct (Nat.ltb _ _); reflexivity.
Qed.

Lemma generate_weights_keeps_stdout : Preserves (keeps stdout) (generate_weights E).
Proof. intros w. by rewrite generate_weights_run. Qed.

End Keeping.

Ltac pure_step :=
  apply preserves_pure;
  [ apply _
  | first [ apply Interpreter_pure | apply allocate_tensors_pure | apply item0_pure
          | apply os_listdir_pure | apply os_path_getsize_pure
          | apply np_concatenate_pure ] ].

Ltac keeps_step :=
  first [ apply print_keeps_rng | apply os_makedirs_keeps_rng | apply with_open_w_keeps_rng
        | apply os_makedirs_keeps_stdout | apply with_open_w_keeps_stdout
        | apply generate_weights_keeps_stdout
        | pure_step ].

Ltac keeping :=
  repeat match goal with
    | |- Preserves _ (let '(_, _) := ?x in _) => destruct x
    | |- Preserves _ (bind _ _) => apply preserves_bind
    | |- Preserves _ (for_each _ _) => apply preserves_for_each
    | |- forall _, _ => intro
    | |- PreOrder _ => apply _
    | |- Preserves _ _ => progress (lazy zeta)
    | |- Preserves (keeps _) _ => keeps_step
    end.

Lemma convert_tflite_to_tfjs_keeps_rng E : Preserves (keeps rng_pos) (convert_tflite_to_tfjs E).
Proof. unfold convert_tflite_to_tfjs, tofile, json_dump. keeping. Qed.

(** ** The generator *)

(** A step [m] within relation [R], followed by [k]: a property [Q] of
    whole runs that tolerates [R]-steps in front holds of [m ;; k] once
    it holds of [k]. *)
Lemma bind_post {A B} (R : world -> world -> Prop)
    (Q : world -> result B -> world -> Prop) (m : M A) (k : A -> M B) :
  Preserves R m ->
  (∀ w w1 e, R w w1 -> Q w (Raise e) w1) ->
  (∀ w w1 r w', R w w1 -> Q w1 r w' -> Q w r w') ->
  (∀ a w1, Q w1 (k a w1).1 (k a w1).2) ->
  ∀ w, Q w (bind m k w).1 (bind m k w).2.
Proof.
  intros Hm Hraise Hstep Hk w. unfold bind. specialize (Hm w).
  destruct (m w) as [[a|e] w1]; simpl in *.
  - by apply (Hstep w w1).
  - by apply Hraise.
Qed.

Lemma create_tfjs_model_draws E w :
  draws_all w (create_tfjs_model E w).1 (create_tfjs_model E w).2.
Proof.
  revert w. unfold create_tfjs_model, json_dump.
  do 12 (lazy zeta;
         apply (bind_post (keeps rng_pos) draws_all);
         [ keeps_step
         | by intros w w1 e Hk; split; [left|]
         | by intros w w1 r w' Hk [H1 H2]; unfold keeps, draws_all in *; rewrite <- Hk
         | intros ? ]).
  intros w. rewrite (bind_Ok _ _ _ _ _ (generate_weights_run E w)).
  generalize (weights_at E (rng_pos w)). intros [[[ck cb] dk] db].
  match goal with
  | |- draws_all _ (?rest ?w1).1 _ =>
      assert (Preserves (keeps rng_pos) rest) as Hrest
  end.
  { unfold tofile. keeping. }
  specialize (Hrest (set_rng_pos (drawn (rng_pos w)) w)). unfold keeps in Hrest.
  cbn [rng_pos set_rng_pos] in Hrest.
  split; [by right | done].
Qed.

Lemma drawn_eq pos : drawn pos = (pos + 60276)%N.
Proof.
  unfold drawn.
  pose proof element_count_conv_kernel. pose proof element_count_conv_bias.
  pose proof element_count_dense_kernel. pose proof element_count_dense_bias.
  lia.
Qed.

(** ** The stages before the output directory is made *)

Lemma load_stage E {B} (k : interpreter -> M B) w :
  (interp <- Interpreter E model_path ;; allocate_tensors interp ;; k interp) w
  = match loaded E w with
    | Ok i => k i w
    | Raise e => (Raise e, w)
    end.
Proof.
  unfold loaded, Interpreter, allocate_tensors, bind, get_world, ret, raise. simpl.
  destruct (files w !! model_path) as [content|]; [|reflexivity].
  destruct (tflite_runtime E content) as [i|]; [|reflexivity].
  simpl. destruct (allocates i); reflexivity.
Qed.

Lemma loaded_fails E w :
  load_fails E w = true -> ∃ e, loaded E w = Raise e ∧ (e = ValueError ∨ e = RuntimeError).
Proof.
  unfold loaded, load_fails, Interpreter, allocate_tensors, bind, get_world, ret, raise. simpl.
  destruct (files w !! model_path) as [content|]; [|by eauto].
  destruct (tflite_runtime E content) as [i|]; [|by eauto].
  simpl. destruct (allocates i); [discriminate | by eauto].
Qed.

Lemma loaded_Ok E w i :
  loaded E w = Ok i ->
  load_fails E w = false ∧
  ∃ content, files w !! model_path = Some content ∧ tflite_runtime E content = Some i.
Proof.
  unfold loaded, load_fails, Interpreter, allocate_tensors, bind, get_world, ret, raise. simpl.
  destruct (files w !! model_path) as [content|] eqn:Hf; [|discriminate].
  destruct (tflite_runtime E content) as [j|] eqn:Hr; [|discriminate].
  simpl. destruct (allocates j) eqn:Ha; [|discriminate].
  intros H. inversion H; subst. split; [reflexivity|]. by exists content.
Qed.

Lemma loaded_files E w w' : files w' = files w -> loaded E w' = loaded E w.
Proof.
  intros Hf. unfold loaded, Interpreter, allocate_tensors, bind, get_world, ret, raise. simpl.
  rewrite Hf.
  destruct (files w !! model_path) as [content|]; [|reflexivity].
  destruct (tflite_runtime E content) as [i|]; [|reflexivity].
  simpl. destruct (allocates i); reflexivity.
Qed.

Lemma details_stage_A {B} (ins outs : list tensor_detail) (k : M B) w :
  (i <- item0 ins ;;
   print ("Input shape: " +:+ td_shape i) ;;
   o <- item0 outs ;;
   print ("Output shape: " +:+ td_shape o) ;;
   i <- item0 ins ;;
   print ("Input dtype: " +:+ td_dtype i) ;;
   o <- item0 outs ;;
   print ("Output dtype: " +:+ td_dtype o) ;;
   k) w
  = match ins, outs with
    | i :: _, o :: _ => k (say (info_lines_A i o) w)
    | [], _ => (Raise IndexError, w)
    | i :: _, [] => (Raise IndexError, say ["Input shape: " +:+ td_shape i] w)
    end.
Proof.
  destruct ins as [|i ins], outs as [|o outs]; try reflexivity.
  unfold bind, item0, ret, print, modify, say, info_lines_A. simpl.
  by rewrite <- !app_assoc.
Qed.

Lemma details_stage_B {B} (ins outs : list tensor_detail) (k : M B) w :
  (print "Model info:" ;;
   i <- item0 ins ;;
   i' <- item0 ins ;;
   print ("  Input: " +:+ td_shape i +:+ " (" +:+ td_dtype i' +:+ ")") ;;
   o <- item0 outs ;;
   o' <- item0 outs ;;
   print ("  Output: " +:+ td_shape o +:+ " (" +:+ td_dtype o' +:+ ")") ;;
   k) w
  = match ins, outs with
    | i :: _, o :: _ => k (say (info_lines_B i o) w)
    | [], _ => (Raise IndexError, say ["Model info:"] w)
    | i :: _, [] =>
        (Raise IndexError,
         say ["Model info:"; "  Input: " +:+ td_shape i +:+ " (" +:+ td_dtype i +:+ ")"] w)
    end.
Proof.
  destruct ins as [|i ins], outs as [|o outs]; try reflexivity.
  - unfold bind, item0, ret, raise, print, modify, say. simpl. by rewrite <- !app_assoc.
  - unfold bind, item0, ret, print, modify, say, info_lines_B. simpl.
    by rewrite <- !app_assoc.
Qed.

Lemma say_quiet lines w : quiet w (say lines w).
Proof. by split. Qed.

(** ** [os.makedirs] on the output directory *)

Lemma os_makedirs_existing E w :
  "./assets" ∈ dirs w -> out_dir ∈ dirs w -> os_makedirs E out_dir true w = (Ok tt, w).
Proof.
  intros Ha Ho. unfold os_makedirs. change (rev (parents out_dir)) with ["./assets"; "."].
  rewrite makedirs_chain_parent.
  assert (path_isdir w "./assets" = true) as Hda.
  { unfold path_isdir. apply orb_true_iff. right. by apply bool_decide_eq_true. }
  assert (path_isdir w out_dir = true) as Hdo by (by apply out_dir_isdir).
  rewrite (bind_Ok _ _ _ _ _ (parent_exists E true "./assets" ["."] w
             ltac:(unfold path_exists; by rewrite Hda))).
  unfold try_except. rewrite os_mkdir_exists by (unfold path_exists; by rewrite Hdo).
  simpl. unfold bind, get_world. by rewrite Hdo.
Qed.

Lemma os_makedirs_blocked E w content :
  files w !! out_dir = Some content -> out_dir ∉ dirs w -> "./assets" ∈ dirs w ->
  os_makedirs E out_dir true w = (Raise FileExistsError, w).
Proof.
  intros Hf Ho Ha. unfold os_makedirs. change (rev (parents out_dir)) with ["./assets"; "."].
  rewrite makedirs_chain_parent.
  assert (path_isdir w "./assets" = true) as Hda.
  { unfold path_isdir. apply orb_true_iff. right. by apply bool_decide_eq_true. }
  assert (path_isdir w out_dir = false) as Hdo.
  { unfold path_isdir. change (is_cwd out_dir) with false. simpl.
    by apply bool_decide_eq_false. }
  rewrite (bind_Ok _ _ _ _ _ (parent_exists E true "./assets" ["."] w
             ltac:(unfold path_exists; by rewrite Hda))).
  unfold try_except. rewrite os_mkdir_exists.
  - simpl. unfold bind, get_world. by rewrite Hdo.
  - unfold path_exists, path_isfile. rewrite Hf. apply orb_true_iff. right.
    apply bool_decide_eq_true. by eexists.
Qed.

(** ** The exceptions of [os.makedirs] *)

Lemma raises_bind {A B} S (m : M A) (k : A -> M B) :
  Raises S m -> (∀ a, Raises S (k a)) -> Raises S (bind m k).
Proof.
  intros Hm Hk w e w'. unfold bind. destruct (m w) as [[a|e1] w1] eqn:Hmw.
  - apply Hk.
  - intros H. inversion H; subst. by apply (Hm w e w').
Qed.

Lemma raises_ret {A} S (a : A) : Raises S (ret a).
Proof. intros w e w' H. discriminate H. Qed.

Lemma os_mkdir_raises E p : Raises (fun e => is_OSError e = true) (os_mkdir E p).
Proof.
  intros w e w'. unfold os_mkdir, bind, get_world, raise, modify. simpl.
  destruct (path_exists w p); [by intros H; inversion H|].
  destruct (path_isfile w (dirname p)); [by intros H; inversion H|].
  destruct (path_isdir w (dirname p)); simpl; [|by intros H; inversion H].
  destruct (mkdir_denied E p); simpl; by intros H; inversion H.
Qed.

Lemma makedirs_chain_raises E ok chain :
  Raises (fun e => is_OSError e = true) (makedirs_chain E ok chain).
Proof.
  induction chain as [|name ups IH]; simpl; [apply raises_ret|].
  apply raises_bind.
  - destruct ups as [|head ups']; [apply raises_ret|].
    apply raises_bind; [by intros w e w' H|].
    intros w0. destruct (path_exists w0 head); [apply raises_ret|].
    intros w e w'. unfold try_except.
    destruct (makedirs_chain E ok (head :: ups') w) as [[[]|e1] w1] eqn:Hrun;
      [by intros H|].
    destruct (is_FileExistsError e1); [by intros H|].
    intros H. inversion H; subst. by apply (IH w e w').
  - intros _ w e w'. unfold try_except.
    destruct (os_mkdir E name w) as [[[]|e1] w1] eqn:Hrun; [by intros H|].
    pose proof (os_mkdir_raises E name w e1 w1 Hrun) as Hos. simpl in Hos.
    rewrite Hos. unfold bind, get_world.
    destruct (negb ok || negb (path_isdir w1 name)); intros H; inversion H; by subst.
Qed.

Lemma os_makedirs_raises E name ok :
  Raises (fun e => is_OSError e = true) (os_makedirs E name ok).
Proof. apply makedirs_chain_raises. Qed.

(** ** The frame of a run, and how runs fail *)

(** X2.  Whatever the outcome of a run of either script: every path
    other than [model.json] and [group1-shard1of1.bin] holds what it
    held before; no file disappears; no directory is removed, and none
    is created other than [./assets] and [./assets/cards_model]; the
    standard output and the trace only grow; and every directory that
    is new was made by an [mkdir] of the run. *)
Theorem run_leaves_the_rest P E w :
  (∀ p, p ≠ json_path -> p ≠ bin_path -> files (run P E w).2 !! p = files w !! p) ∧
  (∀ p, is_Some (files w !! p) -> is_Some (files (run P E w).2 !! p)) ∧
  dirs w ⊆ dirs (run P E w).2 ∧
  dirs (run P E w).2 ⊆ dirs w ∪ {[ "./assets"; out_dir ]} ∧
  (∃ out, stdout (run P E w).2 = stdout w ++ out) ∧
  (∃ ops, trace (run P E w).2 = trace w ++ ops ∧
          (∀ p, p ∈ dirs (run P E w).2 -> p ∉ dirs w -> SysMkdir p ∈ ops)).
Proof.
  destruct (run_frame_rel P E w) as [Hd Hn Hf Hk Ho _ (ops & Ht & Hm)].
  repeat (split; [done|]). exists ops. split; [done|].
  intros p H1 H2. by apply Hm.
Qed.

(** *** Exceptions other than [FileExistsError] *)

Lemma raises_for_each {A} S (xs : list A) (body : A -> M unit) :
  (∀ x, Raises S (body x)) -> Raises S (for_each xs body).
Proof.
  intros Hbody. induction xs as [|x xs IH]; simpl; [apply raises_ret|].
  apply raises_bind; [apply Hbody | intros _; exact IH].
Qed.

Section OtherExceptions.
Variable E : env.

Lemma print_raises S line : Raises S (print line).
Proof. intros w e w' H. discriminate H. Qed.

Lemma Interpreter_raises p : Raises other_than_exists (Interpreter E p).
Proof.
  intros w e w'. unfold Interpreter, bind, get_world, ret, raise. simpl.
  destruct (files w !! p) as [c|]; [|by intros H; inversion H].
  destruct (tflite_runtime E c); intros H; by inversion H.
Qed.

Lemma allocate_tensors_raises i : Raises other_than_exists (allocate_tensors i).
Proof.
  intros w e w'. unfold allocate_tensors, ret, raise.
  destruct (allocates i); intros H; by inversion H.
Qed.

Lemma item0_raises {A} (l : list A) : Raises other_than_exists (item0 l).
Proof. intros w e w'. destruct l; intros H; by inversion H. Qed.

Lemma with_open_w_raises p data :
  Raises other_than_exists (with_open_w E p (fwrite E p data)).
Proof.
  intros w e w'. unfold with_open_w, open_w, bind, get_world, raise. simpl.
  destruct (path_isdir w p); simpl; [by intros H; inversion H|].
  destruct (path_isfile w (dirname p)); simpl; [by intros H; inversion H|].
  destruct (path_isdir w (dirname p)); simpl; [|by intros H; inversion H].
  destruct (open_denied E p); simpl; [by intros H; inversion H|].
  unfold fwrite, modify. simpl. destruct (Nat.ltb _ _); intros H; by inversion H.
Qed.

Lemma generate_weights_raises S : Raises S (generate_weights E).
Proof. intros w e w'. rewrite generate_weights_run. intros H. discriminate H. Qed.

Lemma np_concatenate_raises arrs : Raises other_than_exists (np_concatenate arrs).
Proof.
  intros w e w'. unfold np_concatenate, ret, raise.
  destruct arrs as [|a rest]; [by intros H; inversion H|].
  destruct (nd_shape a); [by intros H; inversion H|].
  match goal with |- context [if ?b then _ else _] => destruct b end;
    intros H; by inversion H.
Qed.

Lemma os_listdir_raises d : Raises other_than_exists (os_listdir d).
Proof.
  intros w e w'. unfold os_listdir, bind, get_world, ret, raise. simpl.
  destruct (path_isdir w (rstrip_slash d)); intros H; by inversion H.
Qed.

Lemma os_path_getsize_raises p : Raises other_than_exists (os_path_getsize E p).
Proof.
  intros w e w'. unfold os_path_getsize, bind, get_world, ret, raise. simpl.
  destruct (files w !! p); [by intros H|].
  destruct (path_isdir w p); intros H; by inversion H.
Qed.

End OtherExceptions.

Ltac raises_step :=
  first [ apply print_raises | apply Interpreter_raises | apply allocate_tensors_raises
        | apply item0_raises | apply with_open_w_raises | apply generate_weights_raises
        | apply np_concatenate_raises | apply os_listdir_raises
        | apply os_path_getsize_raises ].

Ltac raising :=
  repeat match goal with
    | |- Raises _ (let '(_, _) := ?x in _) => destruct x
    | |- Raises _ (bind _ _) => apply raises_bind
    | |- Raises _ (for_each _ _) => apply raises_for_each
    | |- forall _, _ => intro
    | |- Raises _ _ => progress (lazy zeta)
    | |- Raises _ _ => raises_step
    end.

Lemma raises_result {A} S (m : M A) w e : Raises S m -> (m w).1 = Raise e -> S e.
Proof.
  intros Hm He. destruct (m w) as [r w'] eqn:Hrun. simpl in He. subst r.
  by apply (Hm w e w').
Qed.

Lemma not_exists_result {A} (m : M A) w :
  Raises other_than_exists m -> (m w).1 ≠ Raise FileExistsError.
Proof. intros Hm H. by apply (raises_result _ m w _ Hm H). Qed.

Lemma loaded_Raise E w e : loaded E w = Raise e -> e = ValueError ∨ e = RuntimeError.
Proof.
  unfold loaded, Interpreter, allocate_tensors, bind, get_world, ret, raise. simpl.
  destruct (files w !! model_path) as [content|]; [|intros H; inversion H; by left].
  destruct (tflite_runtime E content) as [i|]; [|intros H; inversion H; by left].
  simpl. destruct (allocates i); intros H; inversion H. by right.
Qed.

(** With the output directory in place, no run fails on it. *)
Lemma run_not_FileExistsError P E w :
  "./assets" ∈ dirs w -> out_dir ∈ dirs w -> (run P E w).1 ≠ Raise FileExistsError.
Proof.
  intros Ha Ho. destruct P; simpl run.
  - unfold convert_tflite_to_tfjs, json_dump, tofile. rewrite load_stage.
    destruct (loaded E w) as [i|e] eqn:Hload.
    + lazy zeta. rewrite details_stage_A.
      destruct (input_details i) as [|din ins]; [discriminate|].
      destruct (output_details i) as [|dout outs]; [discriminate|].
      rewrite (bind_Ok _ _ _ _ _
                 (os_makedirs_existing E (say (info_lines_A din dout) w) Ha Ho)).
      apply not_exists_result. raising.
    + apply loaded_Raise in Hload. intros H. inversion H; subst. by destruct Hload.
  - unfold create_tfjs_model, json_dump, tofile.
    erewrite bind_Ok by reflexivity.
    match goal with |- context [bind (os_makedirs E out_dir true) _ ?w0] =>
      rewrite (bind_Ok _ _ _ _ _ (os_makedirs_existing E w0 Ha Ho))
    end.
    apply not_exists_result. raising.
Qed.

(** X3 ([exist_ok=True]).  When [./assets] and [./assets/cards_model]
    are directories already, [os.makedirs] returns without raising, no
    run of either script ends in [FileExistsError], and the run leaves
    the set of directories as it was, whatever its outcome. *)
Theorem existing_out_dir P E w :
  "./assets" ∈ dirs w -> out_dir ∈ dirs w ->
  (os_makedirs E out_dir true w).1 = Ok tt ∧
  (run P E w).1 ≠ Raise FileExistsError ∧
  dirs (run P E w).2 = dirs w.
Proof.
  intros Ha Ho. split; [by rewrite os_makedirs_existing|].
  split; [by apply run_not_FileExistsError|].
  destruct (run_frame_rel P E w) as [Hd Hn _ _ _ _ _].
  unfold new_dirs in Hn. set_solver.
Qed.

Lemma existing_out_dir_witness :
  (os_makedirs (Sample.host big) out_dir true Scenario.prepared).1 = Ok tt ∧
  (run ProcedureB (Sample.host big) Scenario.prepared).1 ≠ Raise FileExistsError ∧
  dirs (run ProcedureB (Sample.host big) Scenario.prepared).2 = dirs Scenario.prepared.
Proof.
  apply (existing_out_dir ProcedureB (Sample.host big) Scenario.prepared).
  - unfold Scenario.prepared. simpl. set_solver.
  - unfold Scenario.prepared. simpl. set_solver.
Defined.

(** X4.  Procedure A never draws from numpy's generator, whatever its
    outcome.  Procedure B leaves the generator where it was or advanced
    by exactly 60276 draws, and a run that returns has advanced it by
    exactly 60276: concatenating, converting and writing draw
    nothing. *)
Theorem generator_use E w :
  rng_pos (convert_tflite_to_tfjs E w).2 = rng_pos w ∧
  (rng_pos (create_tfjs_model E w).2 = rng_pos w ∨
   rng_pos (create_tfjs_model E w).2 = (rng_pos w + 60276)%N) ∧
  ((create_tfjs_model E w).1 = Ok tt ->
   rng_pos (create_tfjs_model E w).2 = (rng_pos w + 60276)%N).
Proof.
  split; [apply convert_tflite_to_tfjs_keeps_rng|].
  destruct (create_tfjs_model_draws E w) as [H1 H2]. rewrite drawn_eq in *. by split.
Qed.

(** X5.  When a regular file stands at [./assets/cards_model] (its
    parent being a directory), neither script can succeed: the run
    raises and leaves directories, files and trace as they were.  The
    exception is [FileExistsError] for Procedure B, and for Procedure A
    once the model loads and reports an input and an output tensor:
    [exist_ok=True] accepts an existing directory only. *)
Theorem file_in_the_way P E w content :
  files w !! out_dir = Some content -> out_dir ∉ dirs w -> "./assets" ∈ dirs w ->
  ∃ e, (run P E w).1 = Raise e ∧
       dirs (run P E w).2 = dirs w ∧ files (run P E w).2 = files w ∧
       trace (run P E w).2 = trace w ∧
       (P = ProcedureB -> e = FileExistsError) ∧
       (∀ i, loaded E w = Ok i -> input_details i ≠ [] -> output_details i ≠ [] ->
             e = FileExistsError).
Proof.
  intros Hf Ho Ha. destruct P; simpl run.
  - unfold convert_tflite_to_tfjs. rewrite load_stage.
    destruct (loaded E w) as [i|e]; [|exists e; by repeat split].
    lazy zeta. rewrite details_stage_A.
    destruct (input_details i) as [|din ins] eqn:Hins.
    { exists IndexError. repeat split; try done.
      intros i0 Hi. inversion Hi; subst. congruence. }
    destruct (output_details i) as [|dout outs] eqn:Houts.
    { exists IndexError. repeat split; try done.
      intros i0 Hi. inversion Hi; subst. congruence. }
    rewrite (bind_Raise _ _ _ _ _
               (os_makedirs_blocked E (say (info_lines_A din dout) w) content Hf Ho Ha)).
    exists FileExistsError. by repeat split.
  - unfold create_tfjs_model.
    erewrite bind_Ok by reflexivity.
    match goal with |- context [bind (os_makedirs E out_dir true) _ ?w0] =>
      rewrite (bind_Raise _ _ _ _ _ (os_makedirs_blocked E w0 content Hf Ho Ha))
    end.
    exists FileExistsError. by repeat split.
Qed.

Lemma file_in_the_way_witness :
  ∃ e, (run ProcedureA (Sample.host little) Scenario.blocked).1 = Raise e ∧
       dirs (run ProcedureA (Sample.host little) Scenario.blocked).2 = dirs Scenario.blocked ∧
       files (run ProcedureA (Sample.host little) Scenario.blocked).2
         = files Scenario.blocked ∧
       trace (run ProcedureA (Sample.host little) Scenario.blocked).2
         = trace Scenario.blocked ∧
       (ProcedureA = ProcedureB -> e = FileExistsError) ∧
       (∀ i, loaded (Sample.host little) Scenario.blocked = Ok i ->
             input_details i ≠ [] -> output_details i ≠ [] -> e = FileExistsError).
Proof.
  apply (file_in_the_way ProcedureA (Sample.host little) Scenario.blocked []).
  - unfold Scenario.blocked. simpl. apply lookup_insert_eq.
  - unfold Scenario.blocked. simpl. apply not_elem_of_singleton. discriminate.
  - unfold Scenario.blocked. simpl. by apply elem_of_singleton.
Defined.

(** X6.  When the model loads but reports no input tensor or no
    output tensor, indexing the details with [0] raises [IndexError]
    before any file is opened: the run raises, the files are as they
    were and the only calls made are [mkdir]s.  Procedure A has then
    left directories and trace as they were; Procedure B may instead
    have failed in [os.makedirs], with an [OSError]. *)
Theorem missing_tensor_details P E w i :
  loaded E w = Ok i -> input_details i = [] ∨ output_details i = [] ->
  ∃ e, (run P E w).1 = Raise e ∧
       files (run P E w).2 = files w ∧
       (∃ ps, trace (run P E w).2 = trace w ++ map SysMkdir ps) ∧
       (e = IndexError ∨ (P = ProcedureB ∧ is_OSError e = true)) ∧
       (P = ProcedureA -> dirs (run P E w).2 = dirs w ∧ trace (run P E w).2 = trace w).
Proof.
  intros Hload Hnone. destruct P; simpl run.
  - unfold convert_tflite_to_tfjs. rewrite load_stage, Hload.
    lazy zeta. rewrite details_stage_A.
    exists IndexError.
    destruct (input_details i) as [|din ins], (output_details i) as [|dout outs];
      try (by destruct Hnone);
      (repeat split; try done; [by exists []; rewrite app_nil_r | by left]).
  - unfold create_tfjs_model.
    erewrite bind_Ok by reflexivity.
    match goal with |- context [bind (os_makedirs E out_dir true) _ ?w0] =>
      set (w' := w0);
      assert (quiet w w') as Hq by (by split);
      clearbody w';
      pose proof (os_makedirs_mkdirs_only E out_dir true w') as Hmk;
      pose proof (os_makedirs_raises E out_dir true w') as Hex;
      destruct (os_makedirs E out_dir true w') as [[[]|e] w1] eqn:Hrun
    end; simpl in Hmk.
    + rewrite (bind_Ok _ _ _ _ _ Hrun), load_stage.
      rewrite (loaded_files E w w1)
        by (rewrite (mk_files _ _ Hmk); apply (quiet_files _ _ Hq)).
      rewrite Hload. lazy zeta. rewrite details_stage_B.
      assert (mkdirs_only w w1) as Hw1
        by (etransitivity; [apply quiet_mkdirs_only, Hq | exact Hmk]).
      destruct Hw1 as [_ Hf1 _ Ht1].
      exists IndexError.
      destruct (input_details i) as [|din ins], (output_details i) as [|dout outs];
        try (by destruct Hnone); (repeat split; try done; by left).
    + rewrite (bind_Raise _ _ _ _ _ Hrun).
      assert (mkdirs_only w w1) as Hw1
        by (etransitivity; [apply quiet_mkdirs_only, Hq | exact Hmk]).
      destruct Hw1 as [_ Hf1 _ Ht1].
      exists e. repeat split; try done. right. split; [done|]. by apply (Hex e w1).
Qed.

Lemma missing_tensor_details_witness :
  ∃ e, (run ProcedureB Scenario.bare_host Sample.fresh).1 = Raise e ∧
       files (run ProcedureB Scenario.bare_host Sample.fresh).2 = files Sample.fresh ∧
       (∃ ps, trace (run ProcedureB Scenario.bare_host Sample.fresh).2
              = trace Sample.fresh ++ map SysMkdir ps) ∧
       (e = IndexError ∨ (ProcedureB = ProcedureB ∧ is_OSError e = true)) ∧
       (ProcedureB = ProcedureA ->
        dirs (run ProcedureB Scenario.bare_host Sample.fresh).2 = dirs Sample.fresh ∧
        trace (run ProcedureB Scenario.bare_host Sample.fresh).2 = trace Sample.fresh).
Proof.
  apply (missing_tensor_details ProcedureB Scenario.bare_host Sample.fresh
           Scenario.bare_model).
  - reflexivity.
  - by left.
Defined.

(** X7.  Procedure B creates the output directory before it loads the
    model: when loading fails on a host that lets the directory be
    made, the run raises [ValueError] or [RuntimeError], has written no
    file, and leaves [./assets/cards_model] behind.  Procedure A raises
    the same exception and creates no directory. *)
Theorem failed_load_leaves_directory E w :
  load_fails E w = true ->
  (∀ p, mkdir_denied E p = false) ->
  files w !! "." = None -> files w !! "./assets" = None -> files w !! out_dir = None ->
  ∃ e, (create_tfjs_model E w).1 = Raise e ∧ (e = ValueError ∨ e = RuntimeError) ∧
       out_dir ∈ dirs (create_tfjs_model E w).2 ∧
       files (create_tfjs_model E w).2 = files w ∧
       (convert_tflite_to_tfjs E w).1 = Raise e ∧
       dirs (convert_tflite_to_tfjs E w).2 = dirs w.
Proof.
  intros Hfail Hden Hdot Hassets Hout.
  destruct (loaded_fails E w Hfail) as (e & Hload & He).
  exists e. unfold create_tfjs_model, convert_tflite_to_tfjs.
  rewrite (load_stage E _ w), Hload.
  erewrite bind_Ok by reflexivity.
  match goal with |- context [bind (os_makedirs E out_dir true) _ ?w0] =>
    destruct (os_makedirs_out_dir E w0 Hden Hdot Hassets Hout)
      as (w1 & Hrun & Hf1 & Hd1 & _ & _)
  end.
  rewrite (bind_Ok _ _ _ _ _ Hrun), load_stage.
  rewrite (loaded_files E w w1) by exact Hf1. rewrite Hload.
  by repeat split.
Qed.

Lemma failed_load_leaves_directory_witness :
  ∃ e, (create_tfjs_model Sample.broken_runtime Sample.fresh).1 = Raise e ∧
       (e = ValueError ∨ e = RuntimeError) ∧
       out_dir ∈ dirs (create_tfjs_model Sample.broken_runtime Sample.fresh).2 ∧
       files (create_tfjs_model Sample.broken_runtime Sample.fresh).2 = files Sample.fresh ∧
       (convert_tflite_to_tfjs Sample.broken_runtime Sample.fresh).1 = Raise e ∧
       dirs (convert_tflite_to_tfjs Sample.broken_runtime Sample.fresh).2 = dirs Sample.fresh.
Proof.
  apply (failed_load_leaves_directory Sample.broken_runtime Sample.fresh).
  - reflexivity.
  - reflexivity.
  - reflexivity.
  - reflexivity.
  - reflexivity.
Defined.

(** ** Running again *)

(** A run leaves a cooperative host cooperative. *)
Lemma cooperative_frame E w w' : frame w w' -> cooperative E w -> cooperative E w'.
Proof.
  intros [Hd Hn Hf Hk _ _ _] [Hload Hdet Hmk Hop Hwr Hnf Hnd].
  assert (files w' !! model_path = files w !! model_path) as Hmodel by (by apply Hf).
  split; try done.
  - unfold load_fails in *. by rewrite Hmodel.
  - intros content i. rewrite Hmodel. apply Hdet.
  - intros p Hp. rewrite Hf; [by apply Hnf | |].
    + intros ->. repeat (apply elem_of_cons in Hp as [Hp|Hp]; [discriminate Hp|]).
      by apply elem_of_nil in Hp.
    + intros ->. repeat (apply elem_of_cons in Hp as [Hp|Hp]; [discriminate Hp|]).
      by apply elem_of_nil in Hp.
  - intros p Hp Hin. apply Hn in Hin. apply elem_of_union in Hin as [Hin|Hin].
    + by apply (Hnd p).
    + unfold new_dirs in Hin.
      repeat (apply elem_of_cons in Hp as [Hp|Hp];
              [subst p; apply elem_of_union in Hin as [Hin|Hin];
               apply elem_of_singleton in Hin; discriminate Hin|]).
      by apply elem_of_nil in Hp.
Qed.



(** X9.  When a run of either script returns, the manifest read back
    from [model.json] has exactly one path, the name of the weight
    file; resolved against the directory of [model.json] it is the path
    the weight file was written to, and that file exists. *)
Theorem manifest_names_weight_file P E w :
  (run P E w).1 = Ok tt ->
  ∃ text j name,
    files (run P E w).2 !! json_path = Some text ∧
    read_json text = Some j ∧
    manifest_paths j = Some [name] ∧
    path_join (dirname json_path) name = bin_path ∧
    is_Some (files (run P E w).2 !! path_join (dirname json_path) name).
Proof.
  intros Hok. destruct (run_files P E w Hok) as [Hjson Hbin].
  exists (descriptor P), (model_json P), shard_name.
  split; [exact Hjson|]. split; [apply read_descriptor|].
  split; [by destruct P|]. split; [reflexivity|].
  change (path_join (dirname json_path) shard_name) with bin_path.
  rewrite Hbin. by eexists.
Qed.

Lemma manifest_names_weight_file_witness :
  ∃ text j name,
    files (run ProcedureA (Sample.host little) Sample.fresh).2 !! json_path = Some text ∧
    read_json text = Some j ∧
    manifest_paths j = Some [name] ∧
    path_join (dirname json_path) name = bin_path ∧
    is_Some (files (run ProcedureA (Sample.host little) Sample.fresh).2
               !! path_join (dirname json_path) name).
Proof.
  apply (manifest_names_weight_file ProcedureA (Sample.host little) Sample.fresh).
  exact sample_run_A.
Defined.

(** ** The standard output *)

#[global] Instance mute_preorder msg : PreOrder (mute msg).
Proof.
  split.
  - intros w. exists []. split; [by rewrite app_nil_r | apply not_elem_of_nil].
  - intros w1 w2 w3 (o1 & H1 & N1) (o2 & H2 & N2). exists (o1 ++ o2).
    split; [by rewrite H2, H1, app_assoc|].
    intros H. apply elem_of_app in H. tauto.
Qed.

Lemma keeps_stdout_mute {A} msg (m : M A) :
  Preserves (keeps stdout) m -> Preserves (mute msg) m.
Proof.
  intros H w. exists []. split; [by rewrite app_nil_r, (H w) | apply not_elem_of_nil].
Qed.

Lemma print_mute msg line : line ≠ msg -> Preserves (mute msg) (print line).
Proof.
  intros Hne w. exists [line]. split; [done|].
  intros H. apply list_elem_of_singleton in H. congruence.
Qed.

Lemma announced_raise msg w w1 e : mute msg w w1 -> announced msg w (Raise e) w1.
Proof. intros (out & Ho & Hn). exists out. split; [done|]. split; [done | discriminate]. Qed.

Lemma announced_after msg w w1 r w' :
  mute msg w w1 -> announced msg w1 r w' -> announced msg w r w'.
Proof.
  intros (o1 & H1 & N1) (o2 & H2 & Hiff). exists (o1 ++ o2).
  split; [by rewrite H2, H1, app_assoc|].
  rewrite <- Hiff. rewrite elem_of_app. tauto.
Qed.

Ltac mute_step :=
  first [ apply print_mute; discriminate
        | apply keeps_stdout_mute;
          first [ apply os_makedirs_keeps_stdout | apply with_open_w_keeps_stdout
                | apply generate_weights_keeps_stdout ]
        | pure_step ].

Ltac announce_step msg :=
  lazy zeta;
  apply (bind_post (mute msg) (announced msg));
  [ mute_step | apply announced_raise | apply announced_after | intros ? ].

Lemma convert_tflite_to_tfjs_announced E w :
  announced (completion_message ProcedureA) w
    (convert_tflite_to_tfjs E w).1 (convert_tflite_to_tfjs E w).2.
Proof.
  revert w. unfold convert_tflite_to_tfjs, json_dump, tofile.
  do 13 announce_step (completion_message ProcedureA).
  intros w.
  exists ["Basic conversion completed!";
          "Note: This creates structure but doesn't extract actual weights";
          "For full conversion, use Google's official converter"].
  split; [unfold bind, print, modify; simpl; by rewrite <- !app_assoc|].
  split; [done|]. intros _. by left.
Qed.

(** The listing loop prints one line per name. *)
Lemma listing_says E (names : list string) : ∀ w,
  (∀ n, n ∈ names ->
        is_Some (files w !! (listing_dir +:+ n)) ∨ path_isdir w (listing_dir +:+ n) = true) ->
  for_each names (fun file =>
    size <- os_path_getsize E (listing_dir +:+ file) ;;
    print ("  - " +:+ file +:+ " (" +:+ decimal size +:+ " bytes)")) w
  = (Ok tt, say (map (report_line E w) names) w).
Proof.
  induction names as [|n names IH]; intros w Hnames.
  - simpl. unfold ret, say. simpl. rewrite app_nil_r. by destruct w.
  - cbn [for_each map].
    assert (os_path_getsize E (listing_dir +:+ n) w
            = (Ok (size_of E w (listing_dir +:+ n)), w)) as Hsize.
    { unfold os_path_getsize, size_of, bind, get_world. cbv beta iota.
      destruct (Hnames n) as [[c Hc]|Hdir]; [by left | |].
      - by rewrite Hc.
      - destruct (files w !! (listing_dir +:+ n)); [done|]. by rewrite Hdir. }
    assert ((size <- os_path_getsize E (listing_dir +:+ n) ;;
             print ("  - " +:+ n +:+ " (" +:+ decimal size +:+ " bytes)")) w
            = (Ok tt, say [report_line E w n] w)) as Hbody.
    { by rewrite (bind_Ok _ _ _ _ _ Hsize). }
    rewrite (bind_Ok _ _ _ _ _ Hbody).
    rewrite IH by (intros m Hm; apply (Hnames m); by right).
    unfold say. simpl. by rewrite <- app_assoc.
Qed.

(** Everything after the weight file is written. *)
Lemma report_stage E w :
  path_isdir w out_dir = true ->
  (print "✅ Created TensorFlow.js model structure!" ;;
   print "📁 Files created:" ;;
   names <- os_listdir listing_dir ;;
   for_each names (fun file =>
     size <- os_path_getsize E (listing_dir +:+ file) ;;
     print ("  - " +:+ file +:+ " (" +:+ decimal size +:+ " bytes)")) ;;
   print (String LF "⚠️  Note: This uses random weights for testing!") ;;
   print "   Real predictions will be random until we extract actual weights.") w
  = (Ok tt, say (report E w) w).
Proof.
  intros Hdir.
  do 2 (erewrite bind_Ok by reflexivity).
  match goal with |- bind _ _ ?w0 = _ => set (w' := w0) end.
  assert (os_listdir listing_dir w' = (Ok (dir_entries listing_dir w), w')) as Hls.
  { unfold os_listdir, bind, get_world. cbv beta iota.
    change (rstrip_slash listing_dir) with out_dir.
    change (path_isdir w' out_dir) with (path_isdir w out_dir). by rewrite Hdir. }
  rewrite (bind_Ok _ _ _ _ _ Hls).
  rewrite (bind_Ok _ _ _ _ _ (listing_says E (dir_entries listing_dir w) w'
             ltac:(intros n Hn; by apply (listed_entry_exists w)))).
  do 1 (erewrite bind_Ok by reflexivity).
  unfold print, modify, say, report, w'. simpl. by rewrite <- !app_assoc.
Qed.

Lemma written_isdir p data w w' :
  dirname p = out_dir -> written p data w w' -> path_isdir w' out_dir = true.
Proof. intros Hp Hw. apply out_dir_isdir. by apply (written_out_dir p data w w'). Qed.

Lemma report_announces E w : completion_message ProcedureB ∈ report E w.
Proof. by left. Qed.

Lemma create_tfjs_model_announced E w :
  announced (completion_message ProcedureB) w
    (create_tfjs_model E w).1 (create_tfjs_model E w).2.
Proof.
  revert w. unfold create_tfjs_model, json_dump.
  do 13 announce_step (completion_message ProcedureB).
  destruct a11 as [[[ck cb] dk] db].
  announce_step (completion_message ProcedureB).
  intros w2.
  pose proof (tofile_outcome E (astype float32 a11) bin_path w2) as Hout.
  pose proof (with_open_w_keeps_stdout E bin_path
                (tobytes (sys_byteorder E) (astype float32 a11)) w2) as Hst.
  fold (tofile E (astype float32 a11) bin_path) in Hst. unfold keeps in Hst.
  destruct (tofile E (astype float32 a11) bin_path w2) as [[[]|e] w3] eqn:Hrun;
    simpl in Hout, Hst.
  - rewrite (bind_Ok _ _ _ _ _ Hrun).
    inversion Hout as [| |w3' Hw]; subst.
    rewrite (report_stage E w3 (written_isdir _ _ _ _ dirname_bin_path Hw)).
    exists (report E w3). split; [simpl; by rewrite Hst|].
    split; [done|]. intros _. apply report_announces.
  - rewrite (bind_Raise _ _ _ _ _ Hrun).
    exists []. split; [simpl; by rewrite app_nil_r|].
    split; [intros H; by apply elem_of_nil in H | discriminate].
Qed.

(** ** What a run that returns has printed *)

(** X11.  When Procedure A returns, the model was loaded and reports a
    first input and a first output tensor, and the run has printed
    exactly seven texts: the input shape, the output shape, the input
    dtype and the output dtype of these tensors, in this order, and the
    three closing messages. *)
Theorem convert_tflite_to_tfjs_output E w :
  (convert_tflite_to_tfjs E w).1 = Ok tt ->
  ∃ i din dout,
    loaded E w = Ok i ∧ head (input_details i) = Some din ∧
    head (output_details i) = Some dout ∧
    stdout (convert_tflite_to_tfjs E w).2 =
      stdout w ++ info_lines_A din dout
      ++ ["Basic conversion completed!";
          "Note: This creates structure but doesn't extract actual weights";
          "For full conversion, use Google's official converter"].
Proof.
  unfold convert_tflite_to_tfjs, json_dump, tofile. rewrite load_stage.
  destruct (loaded E w) as [i|e]; [|discriminate].
  lazy zeta. rewrite details_stage_A.
  destruct (input_details i) as [|din ins] eqn:Hins; [discriminate|].
  destruct (output_details i) as [|dout outs] eqn:Houts; [discriminate|].
  set (w0 := say (info_lines_A din dout) w).
  pose proof (os_makedirs_keeps_stdout E out_dir true w0) as H1. unfold keeps in H1.
  destruct (os_makedirs E out_dir true w0) as [[[]|e] w1] eqn:Hrun1;
    [rewrite (bind_Ok _ _ _ _ _ Hrun1) | by rewrite (bind_Raise _ _ _ _ _ Hrun1)].
  match goal with |- context [bind (with_open_w E json_path ?b) _ w1] =>
    pose proof (with_open_w_keeps_stdout E json_path _ w1 : keeps stdout w1 (with_open_w E json_path b w1).2) as H2;
    unfold keeps in H2;
    destruct (with_open_w E json_path b w1) as [[[]|e] w2] eqn:Hrun2;
    [rewrite (bind_Ok _ _ _ _ _ Hrun2) | by rewrite (bind_Raise _ _ _ _ _ Hrun2)]
  end.
  match goal with |- context [bind (with_open_w E bin_path ?b) _ w2] =>
    pose proof (with_open_w_keeps_stdout E bin_path _ w2 : keeps stdout w2 (with_open_w E bin_path b w2).2) as H3;
    unfold keeps in H3;
    destruct (with_open_w E bin_path b w2) as [[[]|e] w3] eqn:Hrun3;
    [rewrite (bind_Ok _ _ _ _ _ Hrun3) | by rewrite (bind_Raise _ _ _ _ _ Hrun3)]
  end.
  intros _. exists i, din, dout.
  split; [done|]. split; [by rewrite Hins|]. split; [by rewrite Houts|].
  simpl in H1, H2, H3. unfold bind, print, modify. simpl.
  rewrite H3, H2, H1. by rewrite <- !app_assoc.
Qed.

Lemma convert_tflite_to_tfjs_output_witness :
  ∃ i din dout,
    loaded (Sample.host little) Sample.fresh = Ok i ∧ head (input_details i) = Some din ∧
    head (output_details i) = Some dout ∧
    stdout (convert_tflite_to_tfjs (Sample.host little) Sample.fresh).2 =
      stdout Sample.fresh ++ info_lines_A din dout
      ++ ["Basic conversion completed!";
          "Note: This creates structure but doesn't extract actual weights";
          "For full conversion, use Google's official converter"].
Proof.
  apply (convert_tflite_to_tfjs_output (Sample.host little) Sample.fresh).
  exact sample_run_A.
Defined.

Lemma report_say E lines w : report E (say lines w) = report E w.
Proof. reflexivity. Qed.

Lemma create_tfjs_model_says E w :
  (create_tfjs_model E w).1 = Ok tt ->
  ∃ i din dout,
    loaded E w = Ok i ∧ head (input_details i) = Some din ∧
    head (output_details i) = Some dout ∧
    stdout (create_tfjs_model E w).2 =
      stdout w ++ ["Creating TensorFlow.js model structure..."]
      ++ info_lines_B din dout ++ report E (create_tfjs_model E w).2.
Proof.
  unfold create_tfjs_model, json_dump.
  erewrite bind_Ok by reflexivity.
  match goal with |- context [bind (os_makedirs E out_dir true) _ ?w0] =>
    set (w0' := w0);
    assert (stdout w0' = stdout w ++ ["Creating TensorFlow.js model structure..."])
      as H0 by reflexivity;
    assert (files w0' = files w) as Hf0 by reflexivity;
    clearbody w0'
  end.
  pose proof (os_makedirs_keeps_stdout E out_dir true w0') as H1. unfold keeps in H1.
  pose proof (os_makedirs_mkdirs_only E out_dir true w0') as Hmk.
  destruct (os_makedirs E out_dir true w0') as [[[]|e] w1] eqn:Hrun1;
    [rewrite (bind_Ok _ _ _ _ _ Hrun1) | by rewrite (bind_Raise _ _ _ _ _ Hrun1)].
  simpl in H1, Hmk.
  rewrite load_stage.
  rewrite (loaded_files E w w1) by (by rewrite (mk_files _ _ Hmk)).
  destruct (loaded E w) as [i|e]; [|discriminate].
  lazy zeta. rewrite details_stage_B.
  destruct (input_details i) as [|din ins] eqn:Hins; [discriminate|].
  destruct (output_details i) as [|dout outs] eqn:Houts; [discriminate|].
  set (w1' := say (info_lines_B din dout) w1).
  match goal with |- context [bind (with_open_w E json_path ?b) _ w1'] =>
    pose proof (with_open_w_keeps_stdout E json_path _ w1'
                : keeps stdout w1' (with_open_w E json_path b w1').2) as H2;
    unfold keeps in H2;
    destruct (with_open_w E json_path b w1') as [[[]|e] w2] eqn:Hrun2;
    [rewrite (bind_Ok _ _ _ _ _ Hrun2) | by rewrite (bind_Raise _ _ _ _ _ Hrun2)]
  end.
  rewrite (bind_Ok _ _ _ _ _ (generate_weights_run E w2)).
  generalize (weights_at E (rng_pos w2)). intros [[[ck cb] dk] db].
  match goal with |- context [bind (np_concatenate ?l) _ ?wg] =>
    pose proof (np_concatenate_pure l wg) as Hcat;
    destruct (np_concatenate l wg) as [[all_weights|e] wc] eqn:Hrunc;
    [rewrite (bind_Ok _ _ _ _ _ Hrunc) | by rewrite (bind_Raise _ _ _ _ _ Hrunc)]
  end.
  simpl in Hcat. subst wc.
  match goal with |- context [bind (tofile E ?a bin_path) _ ?wg] =>
    pose proof (tofile_outcome E a bin_path wg) as Hout;
    pose proof (with_open_w_keeps_stdout E bin_path _ wg
                : keeps stdout wg (tofile E a bin_path wg).2) as H3;
    unfold keeps in H3;
    destruct (tofile E a bin_path wg) as [[[]|e] w3] eqn:Hrun3;
    [rewrite (bind_Ok _ _ _ _ _ Hrun3) | by rewrite (bind_Raise _ _ _ _ _ Hrun3)]
  end.
  simpl in Hout, H2, H3. inversion Hout as [| |w3' Hw]; subst.
  rewrite (report_stage E w3 (written_isdir _ _ _ _ dirname_bin_path Hw)).
  intros _. exists i, din, dout.
  split; [done|]. split; [by rewrite Hins|]. split; [by rewrite Houts|].
  cbn [fst snd]. rewrite report_say.
  unfold say at 1. cbn [stdout set_stdout]. rewrite H3. cbn [stdout set_rng_pos].
  rewrite H2. unfold w1', say. cbn [stdout set_stdout]. rewrite H1, H0.
  by rewrite <- !app_assoc.
Qed.

(** ** Files in the listing *)

Lemma strip_prefix_app d n : strip_prefix d (d +:+ n) = Some n.
Proof.
  induction d as [|a d IH]; simpl; [by destruct n|].
  by rewrite Ascii.eqb_refl.
Qed.

Lemma entry_name_app d n :
  n ≠ EmptyString -> contains_slash n = false -> entry_name d (d +:+ n) = Some n.
Proof.
  intros Hn Hs. unfold entry_name. rewrite strip_prefix_app.
  destruct n; [done|]. by rewrite Hs.
Qed.

(** Every file directly in the directory is listed. *)
Lemma file_listed d w n content :
  n ≠ EmptyString -> contains_slash n = false ->
  files w !! (d +:+ n) = Some content -> n ∈ dir_entries d w.
Proof.
  intros Hn Hs Hf. unfold dir_entries. apply list_elem_of_omap.
  exists (d +:+ n). split; [|by apply entry_name_app].
  apply elem_of_app. left. apply list_elem_of_fmap.
  exists (d +:+ n, content). split; [done|]. by apply elem_of_map_to_list.
Qed.

Lemma report_line_file E w n content :
  files w !! (listing_dir +:+ n) = Some content ->
  report_line E w n =
    "  - " +:+ n +:+ " (" +:+ decimal (N.of_nat (length content)) +:+ " bytes)".
Proof. intros Hf. unfold report_line, size_of. by rewrite Hf. Qed.

Lemma length_descriptor_B : length (descriptor ProcedureB) = 2505.
Proof. reflexivity. Qed.

Lemma length_descriptor_A : length (descriptor ProcedureA) = 376.
Proof. reflexivity. Qed.

(** X10.  The completion message of a script is among the texts
    printed by a run that returns, and it is never printed by a run
    that has not written both files completely. *)
Theorem completion_message_means_complete P E w :
  ∃ out,
    stdout (run P E w).2 = stdout w ++ out ∧
    ((run P E w).1 = Ok tt -> completion_message P ∈ out) ∧
    (completion_message P ∈ out ->
     files (run P E w).2 !! json_path = Some (descriptor P) ∧
     files (run P E w).2 !! bin_path = Some (blob P E (rng_pos w))).
Proof.
  assert (announced (completion_message P) w (run P E w).1 (run P E w).2)
    as (out & Hout & Hiff).
  { destruct P; [apply convert_tflite_to_tfjs_announced | apply create_tfjs_model_announced]. }
  exists out. split; [exact Hout|]. split; [apply Hiff|].
  intros Hin. apply run_files. by apply Hiff.
Qed.

(** X12.  When Procedure B returns, the model was loaded and reports a
    first input and a first output tensor, and the run has printed
    exactly: the opening message, the three texts about the model, the
    two closing headers, one line per entry of [./assets/cards_model/]
    in the final file system, each with its size, and the two texts of
    the note; every entry listed is a file or a directory of the output
    directory. *)
Theorem create_tfjs_model_output E w :
  (create_tfjs_model E w).1 = Ok tt ->
  ∃ i din dout,
    loaded E w = Ok i ∧ head (input_details i) = Some din ∧
    head (output_details i) = Some dout ∧
    stdout (create_tfjs_model E w).2 =
      stdout w ++ ["Creating TensorFlow.js model structure..."]
      ++ info_lines_B din dout ++ report E (create_tfjs_model E w).2 ∧
    (∀ n, n ∈ dir_entries listing_dir (create_tfjs_model E w).2 ->
          is_Some (files (create_tfjs_model E w).2 !! (listing_dir +:+ n)) ∨
          (listing_dir +:+ n) ∈ dirs (create_tfjs_model E w).2).
Proof.
  intros Hok. destruct (create_tfjs_model_says E w Hok) as (i & din & dout & H1 & H2 & H3 & H4).
  exists i, din, dout. repeat (split; [done|]).
  intros n Hn. destruct (listed_entry_exists _ _ _ Hn) as [H|H]; [by left|].
  right. unfold path_isdir in H. apply orb_true_iff in H as [H|H].
  - unfold is_cwd in H. apply orb_true_iff in H as [H|H];
      apply bool_decide_eq_true in H; discriminate H.
  - by apply bool_decide_eq_true in H.
Qed.

Lemma create_tfjs_model_output_witness :
  ∃ i din dout,
    loaded (Sample.host little) Sample.fresh = Ok i ∧ head (input_details i) = Some din ∧
    head (output_details i) = Some dout ∧
    stdout (create_tfjs_model (Sample.host little) Sample.fresh).2 =
      stdout Sample.fresh ++ ["Creating TensorFlow.js model structure..."]
      ++ info_lines_B din dout
      ++ report (Sample.host little) (create_tfjs_model (Sample.host little) Sample.fresh).2 ∧
    (∀ n, n ∈ dir_entries listing_dir (create_tfjs_model (Sample.host little) Sample.fresh).2 ->
          is_Some (files (create_tfjs_model (Sample.host little) Sample.fresh).2
                     !! (listing_dir +:+ n)) ∨
          (listing_dir +:+ n) ∈ dirs (create_tfjs_model (Sample.host little) Sample.fresh).2).
Proof.
  apply (create_tfjs_model_output (Sample.host little) Sample.fresh).
  exact (sample_run_B little).
Defined.

(** X13.  When Procedure B returns, its listing has a line for every
    file directly in the output directory, with the length of the file
    in bytes, also for files that were there before the run; in
    particular it reports [model.json] with 2505 bytes and
    [group1-shard1of1.bin] with 241104 bytes. *)
Theorem listing_covers_directory E w :
  (create_tfjs_model E w).1 = Ok tt ->
  ∃ out,
    stdout (create_tfjs_model E w).2 = stdout w ++ out ∧
    (∀ n content,
       n ≠ EmptyString -> contains_slash n = false ->
       files (create_tfjs_model E w).2 !! (listing_dir +:+ n) = Some content ->
       "  - " +:+ n +:+ " (" +:+ decimal (N.of_nat (length content)) +:+ " bytes)" ∈ out) ∧
    "  - model.json (2505 bytes)" ∈ out ∧
    "  - group1-shard1of1.bin (241104 bytes)" ∈ out.
Proof.
  intros Hok.
  destruct (create_tfjs_model_says E w Hok) as (i & din & dout & _ & _ & _ & Hout).
  destruct (create_tfjs_model_files E w Hok) as [Hjson Hbin].
  set (w' := (create_tfjs_model E w).2) in *. clearbody w'.
  eexists. split; [exact Hout|].
  assert (∀ n content,
            n ≠ EmptyString -> contains_slash n = false ->
            files w' !! (listing_dir +:+ n) = Some content ->
            "  - " +:+ n +:+ " (" +:+ decimal (N.of_nat (length content)) +:+ " bytes)"
            ∈ ["Creating TensorFlow.js model structure..."] ++ info_lines_B din dout
              ++ report E w') as Hall.
  { intros n content Hn Hs Hf.
    apply elem_of_app. right. apply elem_of_app. right.
    unfold report. apply elem_of_app. right. apply elem_of_app. left.
    rewrite <- (report_line_file E w' n content Hf).
    apply list_elem_of_fmap. exists n. split; [done|]. by apply (file_listed _ _ _ content). }
  split; [exact Hall|]. split.
  - pose proof (Hall "model.json" _ ltac:(discriminate) eq_refl Hjson) as H.
    by rewrite length_descriptor_B in H.
  - pose proof (Hall shard_name _ ltac:(discriminate) eq_refl Hbin) as H.
    assert (N.of_nat (length (weight_blob E (rng_pos w))) = 241104%N) as Hlen
      by (pose proof (length_weight_blob E (rng_pos w)); lia).
    by rewrite Hlen in H.
Qed.

Lemma listing_covers_directory_witness :
  ∃ out,
    stdout (create_tfjs_model (Sample.host big) Sample.fresh).2 = stdout Sample.fresh ++ out ∧
    (∀ n content,
       n ≠ EmptyString -> contains_slash n = false ->
       files (create_tfjs_model (Sample.host big) Sample.fresh).2 !! (listing_dir +:+ n)
         = Some content ->
       "  - " +:+ n +:+ " (" +:+ decimal (N.of_nat (length content)) +:+ " bytes)" ∈ out) ∧
    "  - model.json (2505 bytes)" ∈ out ∧
    "  - group1-shard1of1.bin (241104 bytes)" ∈ out.
Proof.
  apply (listing_covers_directory (Sample.host big) Sample.fresh).
  exact (sample_run_B big).
Defined.

(** ** The weight file, cut by the manifest *)

Lemma split_sizes_app {A} n ns (l1 rest : list A) :
  n = length l1 -> split_sizes (n :: ns) (l1 ++ rest) = l1 :: split_sizes ns rest.
Proof.
  intros ->. cbn [split_sizes]. by rewrite take_app_length, drop_app_length.
Qed.

Lemma length_tobytes_dummy_tensor E pos dims :
  length (tobytes (sys_byteorder E) (dummy_tensor E pos dims)) = entry_bytes dims.
Proof.
  unfold tobytes, entry_bytes.
  rewrite (length_concat_map _ (itemsize float32)) by (intros x; apply length_element_bytes).
  by rewrite length_dummy_tensor.
Qed.

Lemma tobytes_dummy_tensor E pos dims :
  tobytes (sys_byteorder E) (dummy_tensor E pos dims)
  = concat (map (element_bytes (sys_byteorder E) float32) (nd_data (dummy_tensor E pos dims))).
Proof. reflexivity. Qed.

Lemma weight_blob_parts E pos :
  weight_blob E pos =
    tobytes (sys_byteorder E) (dummy_tensor E pos conv_kernel_shape)
    ++ tobytes (sys_byteorder E) (dummy_tensor E
         (pos + N.of_nat (element_count conv_kernel_shape))%N conv_bias_shape)
    ++ tobytes (sys_byteorder E) (dummy_tensor E
         (pos + N.of_nat (element_count conv_kernel_shape)
              + N.of_nat (element_count conv_bias_shape))%N dense_kernel_shape)
    ++ tobytes (sys_byteorder E) (dummy_tensor E
         (pos + N.of_nat (element_count conv_kernel_shape)
              + N.of_nat (element_count conv_bias_shape)
              + N.of_nat (element_count dense_kernel_shape))%N dense_bias_shape).
Proof.
  rewrite !tobytes_dummy_tensor.
  unfold weight_blob. rewrite weight_elements_eq, !nd_data_flatten.
  rewrite !map_app, !concat_app. reflexivity.
Qed.

(** X14.  When Procedure B returns, cutting the weight file into
    consecutive pieces of four bytes per element of each shape of the
    manifest, in manifest order, yields the bytes of the four generated
    tensors in generation order, and no byte is left over. *)
Theorem manifest_slices_weight_file E w :
  (create_tfjs_model E w).1 = Ok tt ->
  ∃ text j shapes content conv_kernel conv_bias dense_kernel dense_bias,
    files (create_tfjs_model E w).2 !! json_path = Some text ∧
    read_json text = Some j ∧
    manifest_shapes j = Some shapes ∧
    files (create_tfjs_model E w).2 !! bin_path = Some content ∧
    (generate_weights E w).1 = Ok (conv_kernel, conv_bias, dense_kernel, dense_bias) ∧
    split_sizes (map entry_bytes shapes) content
      = map (tobytes (sys_byteorder E)) [conv_kernel; conv_bias; dense_kernel; dense_bias] ∧
    length content = foldr Nat.add 0 (map entry_bytes shapes).
Proof.
  intros Hok. destruct (create_tfjs_model_files E w Hok) as [Hjson Hbin].
  exists (descriptor ProcedureB), ProcB.model_json.
  exists [conv_kernel_shape; conv_bias_shape; dense_kernel_shape; dense_bias_shape].
  exists (weight_blob E (rng_pos w)).
  do 4 eexists.
  split; [exact Hjson|]. split; [apply (read_descriptor ProcedureB)|].
  split; [exact manifest_shapes_B|]. split; [exact Hbin|].
  split; [apply generate_weights_result|].
  rewrite weight_blob_parts. cbn [map foldr]. split.
  - rewrite split_sizes_app by (by rewrite length_tobytes_dummy_tensor).
    rewrite split_sizes_app by (by rewrite length_tobytes_dummy_tensor).
    rewrite split_sizes_app by (by rewrite length_tobytes_dummy_tensor).
    rewrite <- (app_nil_r (tobytes _ (dummy_tensor E _ dense_bias_shape))) at 1.
    rewrite split_sizes_app by (by rewrite length_tobytes_dummy_tensor).
    reflexivity.
  - rewrite !length_app, !length_tobytes_dummy_tensor. lia.
Qed.

Lemma manifest_slices_weight_file_witness :
  ∃ text j shapes content conv_kernel conv_bias dense_kernel dense_bias,
    files (create_tfjs_model (Sample.host little) Sample.fresh).2 !! json_path = Some text ∧
    read_json text = Some j ∧
    manifest_shapes j = Some shapes ∧
    files (create_tfjs_model (Sample.host little) Sample.fresh).2 !! bin_path = Some content ∧
    (generate_weights (Sample.host little) Sample.fresh).1
      = Ok (conv_kernel, conv_bias, dense_kernel, dense_bias) ∧
    split_sizes (map entry_bytes shapes) content
      = map (tobytes (sys_byteorder (Sample.host little)))
          [conv_kernel; conv_bias; dense_kernel; dense_bias] ∧
    length content = foldr Nat.add 0 (map entry_bytes shapes).
Proof.
  apply (manifest_slices_weight_file (Sample.host little) Sample.fresh).
  exact (sample_run_B little).
Defined.

(** ** A cooperative host *)

